(** * RacerTune: the adaptive envelope refinement core

    A shallow embedding of the learning and physics-envelope classes of
    the coaching system (src/learning, src/types/envelopes.py,
    src/physics/combined_grip.py, src/physics/envelope_manager.py) and the
    properties of the hard-ceiling blend, the rejection gate of the segment
    store, the decay combination and the friction circle.

    Conventions.
    - Every Python class is a module of the same name; its instances are
      the record [t] of that module, its methods take [self] first.
    - A Python [float] is a real number [R]: rounding, infinities and NaN
      are not modelled; the [OverflowError] of [math.pow] is.  [min] and
      [max] are [Rmin] and [Rmax], which return the same value as Python's
      builtins on reals.
    - A Python [int] is a [Z]; a [datetime] is a point of a real time line
      counted in seconds, a [timedelta] a difference of two of them.
    - A [dict] keyed by segment id is a [gmap Z _]; a dict keyed by an
      enumeration is an association list in insertion order.
    - A method that mutates [self] returns the new object.  A raised
      exception is [None] in an [option] result. *)

From Stdlib Require Import Reals Lra Psatz ZArith List.
From stdpp Require Import gmap strings.

Local Open Scope R_scope.

(** ** Floats *)

Definition flt (a b : R) : bool := if Rlt_dec a b then true else false.
Definition fle (a b : R) : bool := if Rle_dec a b then true else false.
Definition fgt (a b : R) : bool := flt b a.
Definition fge (a b : R) : bool := fle b a.

(** [a / b] on floats raises [ZeroDivisionError] when [b] is zero. *)
Definition fdiv (a b : R) : option R :=
  if Req_dec_T b 0 then None else Some (a / b).

(** [math.sqrt x] raises [ValueError] on a negative argument. *)
Definition fsqrt (x : R) : option R :=
  if flt x 0 then None else Some (sqrt x).

(** [math.pow x y] on a positive base raises [OverflowError] when the
    power leaves the range of a float, which ends below [2 ^ 1024]; a
    power too small for a float is returned as it is. *)
Definition fpow (x y : R) : option R :=
  if fge (Rpower x y) (2 ^ 1024) then None else Some (Rpower x y).

Definition datetime := R.

(** ** Insertion-ordered dictionaries *)

Section Dict.
Context {K V : Type} `{EqDecision K}.

(** [d[k] = v]: an existing key keeps its place. *)
Fixpoint dict_set (k : K) (v : V) (d : list (K * V)) : list (K * V) :=
  match d with
  | [] => [(k, v)]
  | (k', v') :: tl =>
      if decide (k = k') then (k, v) :: tl else (k', v') :: dict_set k v tl
  end.

Definition dict_values (d : list (K * V)) : list V := map snd d.
Definition dict_keys (d : list (K * V)) : list K := map fst d.
End Dict.

(** ** numpy reductions used by the statistics store *)

Module np.

Definition sum (xs : list R) : R := fold_right Rplus 0 xs.

Definition mean (xs : list R) : R := sum xs / INR (length xs).

(** Population standard deviation ([ddof = 0], numpy's default). *)
Definition std (xs : list R) : R :=
  let m := mean xs in
  sqrt (mean (map (fun x => (x - m) ^ 2) xs)).

(** [np.max] and [np.min] raise on an empty array; the store only calls
    them on a non-empty window, so the head is the seed of the fold. *)
Definition max (xs : list R) : R :=
  match xs with
  | [] => 0
  | x :: tl => fold_left Rmax tl x
  end.

Definition min (xs : list R) : R :=
  match xs with
  | [] => 0
  | x :: tl => fold_left Rmin tl x
  end.

End np.

(** ** src/learning/segment_stats.py *)

Module SegmentObservation.

Record t := {
  segment_id : Z;
  timestamp : datetime;
  entry_speed_kmh : R;
  apex_speed_kmh : R;
  exit_speed_kmh : R;
  min_speed_kmh : R;
  max_lateral_g : R;
  max_longitudinal_g : R;
  brake_point_distance_m : R;
  brake_intensity_peak : R;
  max_steering_rate_deg_s : R;
  was_clean : bool;
  was_full_commitment : bool;
  confidence : R
}.

End SegmentObservation.

Module SegmentStatistics.

Record t := {
  segment_id : Z;
  observation_count : Z;
  entry_speed_mean_kmh : R;
  entry_speed_std_kmh : R;
  entry_speed_max_kmh : R;
  apex_speed_mean_kmh : R;
  apex_speed_std_kmh : R;
  apex_speed_max_kmh : R;
  exit_speed_mean_kmh : R;
  exit_speed_std_kmh : R;
  exit_speed_max_kmh : R;
  brake_point_mean_m : R;
  brake_point_std_m : R;
  brake_point_latest_m : R;
  max_lateral_g_observed : R;
  max_longitudinal_g_observed : R;
  first_observation : option datetime;
  last_observation : option datetime;
  confidence_weighted_count : R;
  decay_factor : R
}.

(** [SegmentStatistics(segment_id=...)] with every default. *)
Definition make (sid : Z) : t :=
  {| segment_id := sid; observation_count := 0;
     entry_speed_mean_kmh := 0; entry_speed_std_kmh := 0;
     entry_speed_max_kmh := 0;
     apex_speed_mean_kmh := 0; apex_speed_std_kmh := 0;
     apex_speed_max_kmh := 0;
     exit_speed_mean_kmh := 0; exit_speed_std_kmh := 0;
     exit_speed_max_kmh := 0;
     brake_point_mean_m := 0; brake_point_std_m := 0;
     brake_point_latest_m := 0;
     max_lateral_g_observed := 0; max_longitudinal_g_observed := 0;
     first_observation := None; last_observation := None;
     confidence_weighted_count := 0; decay_factor := 1 |}.

(** [self.decay_factor = f] *)
Definition set_decay_factor (f : R) (self : t) : t :=
  {| segment_id := segment_id self;
     observation_count := observation_count self;
     entry_speed_mean_kmh := entry_speed_mean_kmh self;
     entry_speed_std_kmh := entry_speed_std_kmh self;
     entry_speed_max_kmh := entry_speed_max_kmh self;
     apex_speed_mean_kmh := apex_speed_mean_kmh self;
     apex_speed_std_kmh := apex_speed_std_kmh self;
     apex_speed_max_kmh := apex_speed_max_kmh self;
     exit_speed_mean_kmh := exit_speed_mean_kmh self;
     exit_speed_std_kmh := exit_speed_std_kmh self;
     exit_speed_max_kmh := exit_speed_max_kmh self;
     brake_point_mean_m := brake_point_mean_m self;
     brake_point_std_m := brake_point_std_m self;
     brake_point_latest_m := brake_point_latest_m self;
     max_lateral_g_observed := max_lateral_g_observed self;
     max_longitudinal_g_observed := max_longitudinal_g_observed self;
     first_observation := first_observation self;
     last_observation := last_observation self;
     confidence_weighted_count := confidence_weighted_count self;
     decay_factor := f |}.

Definition effective_observation_count (self : t) : R :=
  confidence_weighted_count self * decay_factor self.

Definition has_sufficient_data (self : t) : bool :=
  fge (effective_observation_count self) 3.

Definition get_learned_entry_speed (self : t) (physics_ceiling_kmh : R) : R :=
  if negb (has_sufficient_data self) then physics_ceiling_kmh
  else
    let learned :=
      Rmin (entry_speed_mean_kmh self + 2 * entry_speed_std_kmh self)
           (entry_speed_max_kmh self) in
    Rmin (learned * decay_factor self) physics_ceiling_kmh.

(** The local [conservative_learned] of [get_learned_brake_point]: the
    earlier of the latest observed brake point and the mean less one
    deviation. *)
Definition conservative_learned (self : t) : R :=
  Rmax (brake_point_latest_m self)
       (brake_point_mean_m self - brake_point_std_m self).

Definition get_learned_brake_point (self : t) (physics_minimum_m : R) : R :=
  if negb (has_sufficient_data self) then physics_minimum_m
  else Rmax (conservative_learned self) physics_minimum_m.

End SegmentStatistics.

Module SegmentStatsStore.

Record t := {
  _stats : gmap Z SegmentStatistics.t;
  _observations : gmap Z (list SegmentObservation.t);
  _max_observations : Z
}.

(** [SegmentStatsStore(max_observations_per_segment)] *)
Definition make (max_observations_per_segment : Z) : t :=
  {| _stats := ∅; _observations := ∅;
     _max_observations := max_observations_per_segment |}.

(** The assignments [_update_statistics] makes on the statistics object
    it finds in [_stats]; [segment_id] and [decay_factor] are left as
    they are. *)
Definition recompute (stats : SegmentStatistics.t)
    (observations : list SegmentObservation.t) : SegmentStatistics.t :=
  let entry_speeds := map SegmentObservation.entry_speed_kmh observations in
  let apex_speeds := map SegmentObservation.apex_speed_kmh observations in
  let exit_speeds := map SegmentObservation.exit_speed_kmh observations in
  let brake_points :=
    map SegmentObservation.brake_point_distance_m observations in
  let lateral_gs := map SegmentObservation.max_lateral_g observations in
  let long_gs := map SegmentObservation.max_longitudinal_g observations in
  let confidences := map SegmentObservation.confidence observations in
  {| SegmentStatistics.segment_id := SegmentStatistics.segment_id stats;
     SegmentStatistics.observation_count := Z.of_nat (length observations);
     SegmentStatistics.confidence_weighted_count := np.sum confidences;
     SegmentStatistics.entry_speed_mean_kmh := np.mean entry_speeds;
     SegmentStatistics.entry_speed_std_kmh := np.std entry_speeds;
     SegmentStatistics.entry_speed_max_kmh := np.max entry_speeds;
     SegmentStatistics.apex_speed_mean_kmh := np.mean apex_speeds;
     SegmentStatistics.apex_speed_std_kmh := np.std apex_speeds;
     SegmentStatistics.apex_speed_max_kmh := np.max apex_speeds;
     SegmentStatistics.exit_speed_mean_kmh := np.mean exit_speeds;
     SegmentStatistics.exit_speed_std_kmh := np.std exit_speeds;
     SegmentStatistics.exit_speed_max_kmh := np.max exit_speeds;
     SegmentStatistics.brake_point_mean_m := np.mean brake_points;
     SegmentStatistics.brake_point_std_m := np.std brake_points;
     SegmentStatistics.brake_point_latest_m := np.min brake_points;
     SegmentStatistics.max_lateral_g_observed := np.max lateral_gs;
     SegmentStatistics.max_longitudinal_g_observed := np.max long_gs;
     SegmentStatistics.first_observation :=
       SegmentObservation.timestamp <$> head observations;
     SegmentStatistics.last_observation :=
       SegmentObservation.timestamp <$> last observations;
     SegmentStatistics.decay_factor := SegmentStatistics.decay_factor stats |}.

(** [None] is the [KeyError] of [self._stats[segment_id]]. *)
Definition _update_statistics (self : t) (segment_id : Z) : option t :=
  match default [] (_observations self !! segment_id) with
  | [] => Some self
  | observations =>
      stats ← _stats self !! segment_id;
      Some {| _stats :=
                <[segment_id := recompute stats observations]> (_stats self);
              _observations := _observations self;
              _max_observations := _max_observations self |}
  end.

Definition add_observation (self : t) (observation : SegmentObservation.t)
  : option t :=
  if negb (SegmentObservation.was_clean observation) then Some self
  else if flt (SegmentObservation.confidence observation) 0.7 then Some self
  else
    let segment_id := SegmentObservation.segment_id observation in
    (* Initialize if needed *)
    let self1 :=
      match _observations self !! segment_id with
      | None =>
          {| _stats :=
               <[segment_id := SegmentStatistics.make segment_id]> (_stats self);
             _observations := <[segment_id := []]> (_observations self);
             _max_observations := _max_observations self |}
      | Some _ => self
      end in
    (* Add observation, trim old observations if needed *)
    let obs_list :=
      default [] (_observations self1 !! segment_id) ++ [observation] in
    let obs_list :=
      if (Z.of_nat (length obs_list) >? _max_observations self1)%Z
      then tail obs_list else obs_list in
    _update_statistics
      {| _stats := _stats self1;
         _observations := <[segment_id := obs_list]> (_observations self1);
         _max_observations := _max_observations self1 |}
      segment_id.

Definition get_statistics (self : t) (segment_id : Z)
  : option SegmentStatistics.t := _stats self !! segment_id.

Definition apply_decay (self : t) (segment_id : Z) (decay_factor : R) : t :=
  {| _stats :=
       alter (SegmentStatistics.set_decay_factor decay_factor) segment_id
             (_stats self);
     _observations := _observations self;
     _max_observations := _max_observations self |}.

Definition apply_global_decay (self : t) (decay_factor : R) : t :=
  {| _stats := SegmentStatistics.set_decay_factor decay_factor <$> _stats self;
     _observations := _observations self;
     _max_observations := _max_observations self |}.

(** The count a caller reads for a segment, as the tests do:
    [stats is None or stats.observation_count == 0]. *)
Definition observation_count_of (self : t) (segment_id : Z) : Z :=
  match get_statistics self segment_id with
  | Some s => SegmentStatistics.observation_count s
  | None => 0%Z
  end.

(** A run of [add_observation] calls, stopping at the first exception. *)
Fixpoint add_observations (self : t) (obs : list SegmentObservation.t)
  : option t :=
  match obs with
  | [] => Some self
  | o :: tl => self' ← add_observation self o; add_observations self' tl
  end.

Definition clear_segment (self : t) (segment_id : Z) : t :=
  {| _stats := delete segment_id (_stats self);
     _observations := delete segment_id (_observations self);
     _max_observations := _max_observations self |}.

Definition clear_all (self : t) : t :=
  {| _stats := ∅; _observations := ∅;
     _max_observations := _max_observations self |}.

(** The window kept for a segment, empty when there is none. *)
Definition window (self : t) (segment_id : Z) : list SegmentObservation.t :=
  default [] (_observations self !! segment_id).

(** Every segment with a window has statistics: the state in which
    [_update_statistics] finds the key it reads. *)
Definition consistent (self : t) : Prop :=
  forall segment_id obs,
    _observations self !! segment_id = Some obs ->
    is_Some (_stats self !! segment_id).

(** No window is longer than the capacity. *)
Definition bounded (self : t) : Prop :=
  forall segment_id obs,
    _observations self !! segment_id = Some obs ->
    (Z.of_nat (length obs) <= _max_observations self)%Z.

(** The gate of [add_observation]: clean, and confident enough. *)
Definition accepted (observation : SegmentObservation.t) : Prop :=
  SegmentObservation.was_clean observation = true
  /\ 0.7 <= SegmentObservation.confidence observation.

End SegmentStatsStore.


(** ** src/types/confidence.py and src/types/envelopes.py *)

Module Confidence.

Record t := {
  value : R;
  source : string;
  timestamp_ms : Z;
  degradation_reason : option string
}.

(** The constructor with its [__post_init__]: the value is clamped. *)
Definition make (value : R) (source : string) (timestamp_ms : Z)
    (degradation_reason : option string) : t :=
  {| value := Rmax 0 (Rmin 1 value); source := source;
     timestamp_ms := timestamp_ms;
     degradation_reason := degradation_reason |}.

End Confidence.

Module PhysicsCeiling.

Record t := {
  value : R;
  unit : string;
  source : string
}.

(** The constructor with its [__post_init__]: a negative value raises
    [ValueError]. *)
Definition make (value : R) (unit source : string) : option t :=
  if flt value 0 then None
  else Some {| value := value; unit := unit; source := source |}.

(** [apply_safety_margin]: a margin outside [(0, 1]] raises [ValueError];
    the new ceiling goes through the constructor. *)
Definition apply_safety_margin (self : t) (margin : R) : option t :=
  if negb (flt 0 margin && fle margin 1) then None
  else make (value self * margin) (unit self)
            (String.append (source self) "_with_margin").

End PhysicsCeiling.

Module CornerSpeedEnvelope.

Record t := {
  segment_id : Z;
  distance_start_m : R;
  distance_end_m : R;
  physics_ceiling_kmh : PhysicsCeiling.t;
  conservative_speed_kmh : R;
  learned_speed_kmh : option R;
  learning_confidence : R;
  envelope_speed_kmh : R;
  (** [None] is [float('inf')], the default. *)
  corner_radius_m : option R;
  curvature_1_per_m : R;
  confidence : Confidence.t
}.

(** [__post_init__]: the safety invariant S2 at construction. *)
Definition post_init (self : t) : t :=
  if fgt (envelope_speed_kmh self) (PhysicsCeiling.value (physics_ceiling_kmh self))
  then
    {| segment_id := segment_id self;
       distance_start_m := distance_start_m self;
       distance_end_m := distance_end_m self;
       physics_ceiling_kmh := physics_ceiling_kmh self;
       conservative_speed_kmh := conservative_speed_kmh self;
       learned_speed_kmh := learned_speed_kmh self;
       learning_confidence := learning_confidence self;
       envelope_speed_kmh := PhysicsCeiling.value (physics_ceiling_kmh self);
       corner_radius_m := corner_radius_m self;
       curvature_1_per_m := curvature_1_per_m self;
       confidence := confidence self |}
  else self.

(** The dataclass constructor: the fields as given, then
    [__post_init__].  Every instance the program holds comes from it, the
    class being frozen. *)
Definition make (segment_id : Z) (distance_start_m distance_end_m : R)
    (physics_ceiling_kmh : PhysicsCeiling.t) (conservative_speed_kmh : R)
    (learned_speed_kmh : option R) (learning_confidence : R)
    (envelope_speed_kmh : R) (corner_radius_m : option R)
    (curvature_1_per_m : R) (confidence : Confidence.t) : t :=
  post_init
    {| segment_id := segment_id;
       distance_start_m := distance_start_m;
       distance_end_m := distance_end_m;
       physics_ceiling_kmh := physics_ceiling_kmh;
       conservative_speed_kmh := conservative_speed_kmh;
       learned_speed_kmh := learned_speed_kmh;
       learning_confidence := learning_confidence;
       envelope_speed_kmh := envelope_speed_kmh;
       corner_radius_m := corner_radius_m;
       curvature_1_per_m := curvature_1_per_m;
       confidence := confidence |}.

Definition blend_with_learned (self : t) (learned_speed_kmh blend_weight : R)
  : t :=
  (* Clamp blend weight *)
  let weight := Rmax 0 (Rmin 0.3 blend_weight) in
  (* Blend conservatively *)
  let blended :=
    (1 - weight) * conservative_speed_kmh self + weight * learned_speed_kmh in
  (* SAFETY: Clamp to physics ceiling *)
  let final := Rmin blended (PhysicsCeiling.value (physics_ceiling_kmh self)) in
  make (segment_id self) (distance_start_m self) (distance_end_m self)
       (physics_ceiling_kmh self) (conservative_speed_kmh self)
       (Some learned_speed_kmh) blend_weight final
       (corner_radius_m self) (curvature_1_per_m self) (confidence self).

(** [compute_physics_limit], a static method; [None] as radius is
    [float('inf')], [None] as result the [ValueError] of [math.sqrt]. *)
Definition compute_physics_limit (radius_m : option R)
    (friction_mu safety_factor : R) : option R :=
  match radius_m with
  | None => Some 300
  | Some radius_m =>
      if fle radius_m 0 then Some 300
      else
        let G := 9.81 in
        v_m_s ← fsqrt (G * friction_mu * radius_m);
        let v_m_s := v_m_s * safety_factor in
        let v_kmh := v_m_s * 3.6 in
        Some v_kmh
  end.

(** Safety invariant S2 on one envelope. *)
Definition within_ceiling (self : t) : Prop :=
  envelope_speed_kmh self <= PhysicsCeiling.value (physics_ceiling_kmh self).

End CornerSpeedEnvelope.

Module BrakingEnvelope.

Record t := {
  segment_id : Z;
  target_speed_kmh : R;
  max_deceleration_g : PhysicsCeiling.t;
  conservative_decel_g : R;
  brake_distance_m : R;
  safety_distance_m : R;
  confidence : Confidence.t
}.

(** [compute_brake_distance], a static method; [None] is the
    [ZeroDivisionError] of a zero deceleration. *)
Definition compute_brake_distance
    (initial_speed_kmh target_speed_kmh deceleration_g
     safety_margin_m reaction_time_s : R) : option R :=
  if fle initial_speed_kmh target_speed_kmh then Some 0
  else
    let v1 := initial_speed_kmh / 3.6 in
    let v2 := target_speed_kmh / 3.6 in
    let a := deceleration_g * 9.81 in
    d_brake ← fdiv (v1 ^ 2 - v2 ^ 2) (2 * a);
    let d_reaction := v1 * reaction_time_s in
    Some (d_brake + d_reaction + safety_margin_m).

End BrakingEnvelope.

Module SteeringEnvelope.

Record t := {
  speed_kmh : R;
  max_steering_rate_deg_s : R;
  normal_intensity : R;
  warning_intensity : R;
  limit_intensity : R;
  expected_yaw_rate_dps : R;
  yaw_rate_tolerance_dps : R
}.

(** [get_max_steering_rate], a static method. *)
Definition get_max_steering_rate (speed_kmh : R) : R :=
  if flt speed_kmh 50 then 180
  else if flt speed_kmh 100 then 120
  else if flt speed_kmh 150 then 90
  else if flt speed_kmh 200 then 60
  else 45.

End SteeringEnvelope.

Module CombinedGripEnvelope.

Record t := {
  max_total_grip : PhysicsCeiling.t;
  longitudinal_grip_used : R;
  lateral_grip_used : R;
  stability_margin : R
}.

Definition total_grip_used (self : t) : R :=
  sqrt (longitudinal_grip_used self ^ 2 + lateral_grip_used self ^ 2).

Definition grip_remaining (self : t) : R :=
  Rmax 0 (PhysicsCeiling.value (max_total_grip self) - total_grip_used self).

Definition is_at_limit (self : t) : bool :=
  flt (grip_remaining self) (stability_margin self).

End CombinedGripEnvelope.

Module SegmentEnvelope.

Record t := {
  segment_id : Z;
  distance_start_m : R;
  distance_end_m : R;
  corner_speed : option CornerSpeedEnvelope.t;
  braking : option BrakingEnvelope.t;
  steering : option SteeringEnvelope.t;
  combined_grip : option CombinedGripEnvelope.t;
  confidence : Confidence.t
}.

Definition envelope_speed_kmh (self : t) : R :=
  match corner_speed self with
  | Some cs => CornerSpeedEnvelope.envelope_speed_kmh cs
  | None => 300
  end.

End SegmentEnvelope.

(** ** src/types/geometry.py *)

Module CornerDirection.

Inductive t := LEFT | RIGHT | STRAIGHT.

End CornerDirection.

Module TrackPoint.

Record t := {
  latitude_deg : R;
  longitude_deg : R;
  altitude_m : option R;
  distance_m : R;
  curvature_1_per_m : R;
  heading_deg : R;
  gradient_percent : R;
  track_width_m : option R;
  position_confidence : R;
  curvature_confidence : R
}.

(** [None] is [float('inf')]. *)
Definition radius_m (self : t) : option R :=
  if flt (Rabs (curvature_1_per_m self)) 0.000001 then None
  else Some (1 / Rabs (curvature_1_per_m self)).

End TrackPoint.

Module TrackSegment.

Record t := {
  segment_id : Z;
  start_distance_m : R;
  end_distance_m : R;
  is_corner : bool;
  direction : CornerDirection.t;
  corner_name : option string;
  average_curvature_1_per_m : R;
  (** [None] is [float('inf')], the default. *)
  minimum_radius_m : option R;
  average_heading_deg : R;
  heading_change_deg : R;
  average_width_m : option R;
  minimum_width_m : option R;
  points : list TrackPoint.t;
  geometry_confidence : R
}.

End TrackSegment.

Module TrackModel.

Record t := {
  track_id : string;
  track_name : string;
  total_length_m : R;
  creation_timestamp_ms : Z;
  last_update_ms : Z;
  gps_laps_used : Z;
  satellite_reference_used : bool;
  imu_fusion_used : bool;
  edge_detection_used : bool;
  centerline : list TrackPoint.t;
  segments : list TrackSegment.t;
  start_finish_distance_m : R;
  start_finish_latitude_deg : R;
  start_finish_longitude_deg : R;
  start_finish_heading_deg : R;
  geometry_confidence : Confidence.t
}.

End TrackModel.

(** ** src/physics/corner_speed.py *)

Module CornerSpeedConfig.

Record t := {
  tire_friction_mu : R;
  safety_factor : R;
  low_confidence_penalty : R;
  absolute_max_speed_kmh : R;
  absolute_min_speed_kmh : R;
  high_confidence_threshold : R;
  low_confidence_threshold : R
}.

Definition default : t :=
  {| tire_friction_mu := 1; safety_factor := 0.85;
     low_confidence_penalty := 0.85;
     absolute_max_speed_kmh := 300; absolute_min_speed_kmh := 20;
     high_confidence_threshold := 0.9; low_confidence_threshold := 0.7 |}.

End CornerSpeedConfig.

Module CornerSpeedCalculator.

Record t := { config : CornerSpeedConfig.t }.

Definition GRAVITY : R := 9.81.

(** [None] as radius is [float('inf')]; [None] as result is the
    [ValueError] of [math.sqrt]. *)
Definition _compute_physics_limit (self : t) (radius_m : option R)
    (friction_mu : R) : option R :=
  match radius_m with
  | Some radius_m =>
      if fle radius_m 0 then Some 0
      else fsqrt (GRAVITY * friction_mu * radius_m)
  | None => Some (CornerSpeedConfig.absolute_max_speed_kmh (config self) / 3.6)
  end.

(** [None] is an exception: the [ValueError] of [math.sqrt] or of a
    negative physics ceiling. *)
Definition compute_for_segment (self : t) (segment : TrackSegment.t)
  : option CornerSpeedEnvelope.t :=
  (* Get minimum radius in segment (tightest point) *)
  let min_radius := TrackSegment.minimum_radius_m segment in
  (* Compute physics ceiling (absolute maximum) *)
  physics_max_m_s ←
    _compute_physics_limit self min_radius
      (CornerSpeedConfig.tire_friction_mu (config self));
  let physics_max_kmh := physics_max_m_s * 3.6 in
  (* Clamp to absolute limits *)
  let physics_max_kmh :=
    Rmin physics_max_kmh (CornerSpeedConfig.absolute_max_speed_kmh (config self)) in
  let physics_max_kmh :=
    Rmax physics_max_kmh (CornerSpeedConfig.absolute_min_speed_kmh (config self)) in
  (* Create physics ceiling *)
  physics_ceiling ← PhysicsCeiling.make physics_max_kmh "km/h" "friction_limit";
  (* Apply safety factor for conservative estimate *)
  let conservative_kmh :=
    physics_max_kmh * CornerSpeedConfig.safety_factor (config self) in
  (* Apply additional penalty for low confidence geometry *)
  let conservative_kmh :=
    if flt (TrackSegment.geometry_confidence segment)
           (CornerSpeedConfig.low_confidence_threshold (config self))
    then conservative_kmh
         * CornerSpeedConfig.low_confidence_penalty (config self)
    else conservative_kmh in
  (* Create confidence *)
  let confidence :=
    Confidence.make (TrackSegment.geometry_confidence segment) "corner_speed" 0
      (if fgt (TrackSegment.geometry_confidence segment) 0.8 then None
       else Some "low_geometry_confidence") in
  Some (CornerSpeedEnvelope.make
          (TrackSegment.segment_id segment)
          (TrackSegment.start_distance_m segment)
          (TrackSegment.end_distance_m segment)
          physics_ceiling
          conservative_kmh
          None 0
          conservative_kmh
          min_radius
          (TrackSegment.average_curvature_1_per_m segment)
          confidence).

End CornerSpeedCalculator.

(** ** src/physics/braking_envelope.py *)

Module BrakingConfig.

Record t := {
  max_deceleration_g : R;
  braking_efficiency : R;
  reaction_time_s : R;
  safety_distance_m : R;
  safety_factor : R;
  surface_factor : R;
  min_braking_distance_m : R;
  max_braking_distance_m : R
}.

Definition default : t :=
  {| max_deceleration_g := 1; braking_efficiency := 0.9;
     reaction_time_s := 0.3; safety_distance_m := 10; safety_factor := 1.15;
     surface_factor := 0.95;
     min_braking_distance_m := 5; max_braking_distance_m := 500 |}.

End BrakingConfig.

Module BrakingCalculator.

Record t := { config : BrakingConfig.t }.

Definition GRAVITY : R := 9.81.

(** [None] is the [ZeroDivisionError] of a zero effective deceleration.
    The test is on the two quotients by 3.6, here exact: as floats the
    quotients of two speeds that differ in their last digits coincide. *)
Definition _compute_stopping_distance (self : t)
    (initial_speed_kmh final_speed_kmh : R) : option R :=
  (* Convert to m/s *)
  let v1 := initial_speed_kmh / 3.6 in
  let v2 := final_speed_kmh / 3.6 in
  if fle v1 v2 then Some 0
  else
    (* Effective deceleration *)
    let a :=
      BrakingConfig.max_deceleration_g (config self) * GRAVITY
      * BrakingConfig.braking_efficiency (config self)
      * BrakingConfig.surface_factor (config self) in
    (* Physics braking distance *)
    d_physics ← fdiv (v1 ^ 2 - v2 ^ 2) (2 * a);
    (* Reaction distance *)
    let d_reaction := v1 * BrakingConfig.reaction_time_s (config self) in
    (* Total with safety factor *)
    let d_total := (d_physics + d_reaction) * BrakingConfig.safety_factor (config self) in
    (* Add fixed safety margin *)
    let d_total := d_total + BrakingConfig.safety_distance_m (config self) in
    (* Clamp to limits *)
    let d_total := Rmax (BrakingConfig.min_braking_distance_m (config self)) d_total in
    let d_total := Rmin (BrakingConfig.max_braking_distance_m (config self)) d_total in
    Some d_total.

(** The divisors are positive where the method divides, so it does not
    raise. *)
Definition _compute_required_deceleration (self : t)
    (initial_speed_kmh final_speed_kmh distance_m : R) : R :=
  if fle distance_m 0 then BrakingConfig.max_deceleration_g (config self)
  else
    (* Convert to m/s *)
    let v1 := initial_speed_kmh / 3.6 in
    let v2 := final_speed_kmh / 3.6 in
    if fle v1 v2 then 0
    else
      (* Subtract reaction distance *)
      let reaction_distance := v1 * BrakingConfig.reaction_time_s (config self) in
      let braking_distance :=
        distance_m - reaction_distance
        - BrakingConfig.safety_distance_m (config self) in
      if fle braking_distance 0
      then BrakingConfig.max_deceleration_g (config self) (* Emergency braking *)
      else
        let a_m_s2 := (v1 ^ 2 - v2 ^ 2) / (2 * braking_distance) in
        let a_g := a_m_s2 / GRAVITY in
        (* Clamp to maximum *)
        Rmin a_g (BrakingConfig.max_deceleration_g (config self)).

(** [None] is an exception: the [ZeroDivisionError] of the stopping
    distance or the [ValueError] of a negative deceleration ceiling. *)
Definition compute_brake_point (self : t)
    (current_speed_kmh target_speed_kmh corner_entry_distance_m : R)
  : option (R * BrakingEnvelope.t) :=
  if fle current_speed_kmh target_speed_kmh then
    (* No braking needed *)
    max_deceleration_g ←
      PhysicsCeiling.make (BrakingConfig.max_deceleration_g (config self))
        "g" "braking_limit";
    let envelope :=
      {| BrakingEnvelope.segment_id := 0;
         BrakingEnvelope.target_speed_kmh := target_speed_kmh;
         BrakingEnvelope.max_deceleration_g := max_deceleration_g;
         BrakingEnvelope.conservative_decel_g := 0;
         BrakingEnvelope.brake_distance_m := 0;
         BrakingEnvelope.safety_distance_m := 0;
         BrakingEnvelope.confidence := Confidence.make 0.5 "braking" 0 None |} in
    Some (corner_entry_distance_m, envelope)
  else
    (* Compute required braking distance *)
    brake_distance ←
      _compute_stopping_distance self current_speed_kmh target_speed_kmh;
    (* Compute brake point (distance before corner entry) *)
    let brake_point := corner_entry_distance_m - brake_distance in
    (* Ensure brake point is positive (in front of us) *)
    let brake_point := Rmax 0 brake_point in
    (* Compute actual deceleration needed *)
    let decel_g :=
      _compute_required_deceleration self current_speed_kmh target_speed_kmh
        brake_distance in
    max_deceleration_g ←
      PhysicsCeiling.make (BrakingConfig.max_deceleration_g (config self))
        "g" "braking_limit";
    let envelope :=
      {| BrakingEnvelope.segment_id := 0;
         BrakingEnvelope.target_speed_kmh := target_speed_kmh;
         BrakingEnvelope.max_deceleration_g := max_deceleration_g;
         BrakingEnvelope.conservative_decel_g := decel_g;
         BrakingEnvelope.brake_distance_m := brake_distance;
         BrakingEnvelope.safety_distance_m :=
           BrakingConfig.safety_distance_m (config self);
         BrakingEnvelope.confidence := Confidence.make 0.8 "braking" 0 None |} in
    Some (brake_point, envelope).

Definition is_braking_late (self : t)
    (current_speed_kmh target_speed_kmh distance_to_corner_m : R)
  : option (bool * R) :=
  required_distance ←
    _compute_stopping_distance self current_speed_kmh target_speed_kmh;
  let margin := distance_to_corner_m - required_distance in
  let is_late := flt margin 0 in
  Some (is_late, margin).

End BrakingCalculator.

(** ** src/physics/envelope_manager.py *)

Module EnvelopeManager.

(** The state the manager keeps; its configuration and its three
    calculators hold no state of their own. *)
Record t := {
  _segment_envelopes : gmap Z SegmentEnvelope.t;
  _track_length_m : R
}.

Definition update_from_learning (self : t) (segment_id : Z)
    (learned_speed_kmh blend_weight : R) : bool * t :=
  match _segment_envelopes self !! segment_id with
  | None => (false, self)
  | Some envelope =>
      match SegmentEnvelope.corner_speed envelope with
      | None => (false, self)
      | Some corner_speed =>
          (* Apply learning with blend *)
          let new_corner_speed :=
            CornerSpeedEnvelope.blend_with_learned
              corner_speed learned_speed_kmh blend_weight in
          (* Create new envelope with updated corner speed *)
          let new_envelope :=
            {| SegmentEnvelope.segment_id := SegmentEnvelope.segment_id envelope;
               SegmentEnvelope.distance_start_m :=
                 SegmentEnvelope.distance_start_m envelope;
               SegmentEnvelope.distance_end_m :=
                 SegmentEnvelope.distance_end_m envelope;
               SegmentEnvelope.corner_speed := Some new_corner_speed;
               SegmentEnvelope.braking := SegmentEnvelope.braking envelope;
               SegmentEnvelope.steering := SegmentEnvelope.steering envelope;
               SegmentEnvelope.combined_grip :=
                 SegmentEnvelope.combined_grip envelope;
               SegmentEnvelope.confidence := SegmentEnvelope.confidence envelope |} in
          (true,
           {| _segment_envelopes :=
                <[segment_id := new_envelope]> (_segment_envelopes self);
              _track_length_m := _track_length_m self |})
      end
  end.

Definition _find_next_corner (current_segment : TrackSegment.t)
    (track : TrackModel.t) : option TrackSegment.t :=
  match
    List.find
      (fun segment =>
         fgt (TrackSegment.start_distance_m segment)
             (TrackSegment.end_distance_m current_segment)
         && TrackSegment.is_corner segment)
      (TrackModel.segments track)
  with
  | Some segment => Some segment
  | None =>
      (* Wrap around to start of track *)
      List.find TrackSegment.is_corner (TrackModel.segments track)
  end.

(** The two calculators the manager holds, [self.corner_speed_calc] and
    [self.braking_calc], are fixed at construction and passed beside the
    state.  [None] is an exception raised by one of them. *)
Definition _build_segment_envelope
    (corner_speed_calc : CornerSpeedCalculator.t)
    (braking_calc : BrakingCalculator.t)
    (segment : TrackSegment.t) (track : TrackModel.t)
  : option SegmentEnvelope.t :=
  (* Corner speed envelope *)
  corner_speed ← CornerSpeedCalculator.compute_for_segment corner_speed_calc segment;
  (* Find next corner for brake point calculation *)
  let next_corner := _find_next_corner segment track in
  braking ←
    match next_corner with
    | Some next_corner =>
        if negb (TrackSegment.is_corner segment) then
          (* Compute brake point for approaching corner *)
          result ←
            BrakingCalculator.compute_brake_point braking_calc 200
              (CornerSpeedEnvelope.envelope_speed_kmh corner_speed)
              (TrackSegment.start_distance_m next_corner
               - TrackSegment.end_distance_m segment);
          Some (Some (snd result))
        else Some None
    | None => Some None
    end;
  Some {| SegmentEnvelope.segment_id := TrackSegment.segment_id segment;
          SegmentEnvelope.distance_start_m := TrackSegment.start_distance_m segment;
          SegmentEnvelope.distance_end_m := TrackSegment.end_distance_m segment;
          SegmentEnvelope.corner_speed := Some corner_speed;
          SegmentEnvelope.braking := braking;
          SegmentEnvelope.steering := None;
          SegmentEnvelope.combined_grip := None;
          SegmentEnvelope.confidence :=
            Confidence.make (TrackSegment.geometry_confidence segment)
              "envelope" 0 None |}.

(** The loop of [build_envelopes] over the segments still to visit. *)
Fixpoint build_loop (corner_speed_calc : CornerSpeedCalculator.t)
    (braking_calc : BrakingCalculator.t) (track : TrackModel.t)
    (todo : list TrackSegment.t) (envelopes : gmap Z SegmentEnvelope.t)
  : option (gmap Z SegmentEnvelope.t) :=
  match todo with
  | [] => Some envelopes
  | segment :: todo =>
      envelope ←
        _build_segment_envelope corner_speed_calc braking_calc segment track;
      build_loop corner_speed_calc braking_calc track todo
        (<[TrackSegment.segment_id segment := envelope]> envelopes)
  end.

Definition build_envelopes (corner_speed_calc : CornerSpeedCalculator.t)
    (braking_calc : BrakingCalculator.t) (self : t) (track : TrackModel.t)
  : option t :=
  envelopes ←
    build_loop corner_speed_calc braking_calc track
      (TrackModel.segments track) ∅;
  Some {| _segment_envelopes := envelopes;
          _track_length_m := TrackModel.total_length_m track |}.

(** Safety invariant S2 on the whole envelope map. *)
Definition all_within_ceiling (self : t) : Prop :=
  forall sid envelope cs,
    _segment_envelopes self !! sid = Some envelope ->
    SegmentEnvelope.corner_speed envelope = Some cs ->
    CornerSpeedEnvelope.within_ceiling cs.

End EnvelopeManager.

(** ** src/physics/combined_grip.py *)

Module FrictionCircleConfig.

Record t := {
  max_grip_normalized : R;
  longitudinal_factor : R;
  lateral_factor : R;
  stability_margin : R;
  warning_threshold : R;
  critical_threshold : R
}.

Definition default : t :=
  {| max_grip_normalized := 1; longitudinal_factor := 1; lateral_factor := 1;
     stability_margin := 0.15; warning_threshold := 0.75;
     critical_threshold := 0.90 |}.

End FrictionCircleConfig.

Module FrictionCircleEnforcer.

Record t := { config : FrictionCircleConfig.t }.

(** The local variables [fx_shaped] and [fy_shaped] of
    [compute_grip_usage], and the local [total] computed from them. *)
Record shaped := {
  fx_shaped : R;
  fy_shaped : R;
  total : R
}.

Definition shaped_usage (self : t)
    (longitudinal_g lateral_g max_longitudinal_g max_lateral_g : R)
  : option shaped :=
  fx ← fdiv (Rabs longitudinal_g) max_longitudinal_g;
  fy ← fdiv (Rabs lateral_g) max_lateral_g;
  fx_shaped ← fdiv fx (FrictionCircleConfig.longitudinal_factor (config self));
  fy_shaped ← fdiv fy (FrictionCircleConfig.lateral_factor (config self));
  Some {| fx_shaped := fx_shaped; fy_shaped := fy_shaped;
          total := sqrt (fx_shaped ^ 2 + fy_shaped ^ 2) |}.

(** [None] is a raised [ZeroDivisionError] or the [ValueError] of a
    negative ceiling. *)
Definition compute_grip_usage (self : t)
    (longitudinal_g lateral_g max_longitudinal_g max_lateral_g : R)
  : option CombinedGripEnvelope.t :=
  (* Normalize to grip capacity *)
  fx ← fdiv (Rabs longitudinal_g) max_longitudinal_g;
  fy ← fdiv (Rabs lateral_g) max_lateral_g;
  (* Apply shape factors *)
  fx_shaped ← fdiv fx (FrictionCircleConfig.longitudinal_factor (config self));
  fy_shaped ← fdiv fy (FrictionCircleConfig.lateral_factor (config self));
  (* Total grip (friction circle): computed, then not used *)
  let total := sqrt (fx_shaped ^ 2 + fy_shaped ^ 2) in
  max_total_grip ←
    PhysicsCeiling.make
      (FrictionCircleConfig.max_grip_normalized (config self))
      "normalized" "friction_circle";
  Some {| CombinedGripEnvelope.max_total_grip := max_total_grip;
          CombinedGripEnvelope.longitudinal_grip_used := fx;
          CombinedGripEnvelope.lateral_grip_used := fy;
          CombinedGripEnvelope.stability_margin :=
            FrictionCircleConfig.stability_margin (config self) |}.

Definition check_limit (self : t)
    (longitudinal_g lateral_g max_longitudinal_g max_lateral_g : R)
  : option (bool * string * R) :=
  envelope ← compute_grip_usage self longitudinal_g lateral_g
               max_longitudinal_g max_lateral_g;
  let total := CombinedGripEnvelope.total_grip_used envelope in
  let remaining := 1 - total in
  Some (if fge total 1 then (true, "EXCEEDED", remaining)
        else if fge total (FrictionCircleConfig.critical_threshold (config self))
        then (true, "CRITICAL", remaining)
        else if fge total (FrictionCircleConfig.warning_threshold (config self))
        then (false, "WARNING", remaining)
        else (false, "OK", remaining)).

Definition compute_available_lateral (self : t)
    (longitudinal_g max_longitudinal_g max_lateral_g : R) : option R :=
  fx ← fdiv (Rabs longitudinal_g) max_longitudinal_g;
  (* Apply shape factor *)
  fx_shaped ← fdiv fx (FrictionCircleConfig.longitudinal_factor (config self));
  (* Apply stability margin *)
  let max_total := 1 - FrictionCircleConfig.stability_margin (config self) in
  if fge fx_shaped max_total then Some 0
  else
    fy_available ← fsqrt (max_total ^ 2 - fx_shaped ^ 2);
    (* Convert back to g *)
    Some (fy_available * max_lateral_g
          * FrictionCircleConfig.lateral_factor (config self)).

Definition compute_available_longitudinal (self : t)
    (lateral_g max_longitudinal_g max_lateral_g : R) : option R :=
  fy ← fdiv (Rabs lateral_g) max_lateral_g;
  (* Apply shape factor *)
  fy_shaped ← fdiv fy (FrictionCircleConfig.lateral_factor (config self));
  (* Apply stability margin *)
  let max_total := 1 - FrictionCircleConfig.stability_margin (config self) in
  if fge fy_shaped max_total then Some 0
  else
    fx_available ← fsqrt (max_total ^ 2 - fy_shaped ^ 2);
    (* Convert back to g *)
    Some (fx_available * max_longitudinal_g
          * FrictionCircleConfig.longitudinal_factor (config self)).

End FrictionCircleEnforcer.


(** ** src/learning/blend_engine.py *)

Module BlendConfig.

Record t := {
  max_learned_influence : R;
  min_observations_for_learning : Z;
  observations_for_full_influence : Z;
  learned_safety_margin : R
}.

Definition default : t :=
  {| max_learned_influence := 0.30;
     min_observations_for_learning := 3;
     observations_for_full_influence := 20;
     learned_safety_margin := 0.05 |}.

End BlendConfig.

Module BlendResult.

Record t := {
  blended_value : R;
  physics_ceiling : R;
  learned_value : option R;
  learned_weight : R;
  observation_count : Z;
  was_physics_limited : bool
}.

End BlendResult.

(** The engine reads one attribute of the envelope it is given:
    [max_speed_kmh] for corner speed, [minimum_brake_distance_m] for
    braking.  No class under src/ declares either attribute, so each is an
    interface the envelope type has to provide. *)
Class SpeedCeiling (E : Type) := max_speed_kmh : E -> R.
Class BrakeMinimum (E : Type) := minimum_brake_distance_m : E -> R.

(** The envelope the tests build:
    [CornerSpeedEnvelope(segment_id, max_speed_kmh, min_speed_kmh,
    confidence)]. *)
Module SpeedLimitEnvelope.

Record t := {
  segment_id : Z;
  max_speed : R;
  min_speed : R;
  confidence : R
}.

End SpeedLimitEnvelope.

#[global] Instance SpeedLimitEnvelope_ceiling
  : SpeedCeiling SpeedLimitEnvelope.t := SpeedLimitEnvelope.max_speed.

Module BrakePointEnvelope.

Record t := {
  segment_id : Z;
  minimum_brake_distance : R
}.

End BrakePointEnvelope.

#[global] Instance BrakePointEnvelope_minimum
  : BrakeMinimum BrakePointEnvelope.t := BrakePointEnvelope.minimum_brake_distance.

Module BlendEngine.

Record t := { config : BlendConfig.t }.

(** [BlendEngine()] *)
Definition default : t := {| config := BlendConfig.default |}.

(** [_compute_learned_weight] reads [stats] through its effective count
    alone: the weight as a function of that count. *)
Definition weight_of_count (self : t) (effective_count : R) : R :=
  if flt effective_count
         (IZR (BlendConfig.min_observations_for_learning (config self)))
  then 0
  else
    let ramp_range :=
      (BlendConfig.observations_for_full_influence (config self)
       - BlendConfig.min_observations_for_learning (config self))%Z in
    let weight :=
      if (ramp_range <=? 0)%Z then 1
      else
        let progress :=
          (effective_count
           - IZR (BlendConfig.min_observations_for_learning (config self)))
          / IZR ramp_range in
        Rmin progress 1 in
    weight * BlendConfig.max_learned_influence (config self).

Definition _compute_learned_weight (self : t) (stats : SegmentStatistics.t)
  : R :=
  let effective_count := SegmentStatistics.effective_observation_count stats in
  weight_of_count self effective_count.

(** [segment_stats is None or not segment_stats.has_sufficient_data] *)
Definition no_learning_data (segment_stats : option SegmentStatistics.t)
  : bool :=
  match segment_stats with
  | None => true
  | Some stats => negb (SegmentStatistics.has_sufficient_data stats)
  end.

(** [segment_stats.observation_count if segment_stats else 0] *)
Definition count_or_zero (segment_stats : option SegmentStatistics.t) : Z :=
  match segment_stats with
  | Some stats => SegmentStatistics.observation_count stats
  | None => 0%Z
  end.

(** The result both blends return when there is no learning data. *)
Definition physics_only (physics : R)
    (segment_stats : option SegmentStatistics.t) : BlendResult.t :=
  {| BlendResult.blended_value := physics;
     BlendResult.physics_ceiling := physics;
     BlendResult.learned_value := None;
     BlendResult.learned_weight := 0;
     BlendResult.observation_count := count_or_zero segment_stats;
     BlendResult.was_physics_limited := false |}.

Definition blend_corner_speed {E} `{SpeedCeiling E} (self : t)
    (physics_envelope : E) (segment_stats : option SegmentStatistics.t)
  : BlendResult.t :=
  let physics_ceiling := max_speed_kmh physics_envelope in
  match segment_stats with
  | None => physics_only physics_ceiling segment_stats
  | Some stats =>
      (* No learning data: use physics *)
      if no_learning_data segment_stats
      then physics_only physics_ceiling segment_stats
      else
        (* Get learned value (already capped at physics ceiling internally) *)
        let learned_speed :=
          SegmentStatistics.get_learned_entry_speed stats physics_ceiling in
        (* Compute blend weight *)
        let learned_weight := _compute_learned_weight self stats in
        (* SAFETY CHECK: Learned must not exceed physics *)
        if fgt learned_speed physics_ceiling then
          {| BlendResult.blended_value := physics_ceiling;
             BlendResult.physics_ceiling := physics_ceiling;
             BlendResult.learned_value := Some learned_speed;
             BlendResult.learned_weight := 0;
             BlendResult.observation_count :=
               SegmentStatistics.observation_count stats;
             BlendResult.was_physics_limited := true |}
        else
          (* Apply blend *)
          let blended :=
            physics_ceiling
            - (physics_ceiling - learned_speed) * learned_weight in
          (* Apply additional safety margin on learned contribution *)
          let safety_reduction :=
            (physics_ceiling - blended)
            * BlendConfig.learned_safety_margin (config self) in
          let blended := blended - safety_reduction in
          {| BlendResult.blended_value := blended;
             BlendResult.physics_ceiling := physics_ceiling;
             BlendResult.learned_value := Some learned_speed;
             BlendResult.learned_weight := learned_weight;
             BlendResult.observation_count :=
               SegmentStatistics.observation_count stats;
             BlendResult.was_physics_limited := false |}
  end.

Definition blend_brake_point {E} `{BrakeMinimum E} (self : t)
    (physics_envelope : E) (segment_stats : option SegmentStatistics.t)
  : BlendResult.t :=
  let physics_minimum := minimum_brake_distance_m physics_envelope in
  match segment_stats with
  | None => physics_only physics_minimum segment_stats
  | Some stats =>
      (* No learning data: use physics (conservative/early) *)
      if no_learning_data segment_stats
      then physics_only physics_minimum segment_stats
      else
        (* Get learned brake point *)
        let learned_point :=
          SegmentStatistics.get_learned_brake_point stats physics_minimum in
        (* Compute blend weight *)
        let learned_weight := _compute_learned_weight self stats in
        (* SAFETY CHECK: Learned must not be later than physics *)
        if flt learned_point physics_minimum then
          {| BlendResult.blended_value := physics_minimum;
             BlendResult.physics_ceiling := physics_minimum;
             BlendResult.learned_value := Some learned_point;
             BlendResult.learned_weight := 0;
             BlendResult.observation_count :=
               SegmentStatistics.observation_count stats;
             BlendResult.was_physics_limited := true |}
        else
          (* Blend: allow braking slightly later based on learned data *)
          let blended :=
            learned_point
            - (learned_point - physics_minimum) * learned_weight in
          (* Apply safety margin (brake earlier) *)
          let safety_addition :=
            (learned_point - blended)
            * BlendConfig.learned_safety_margin (config self) in
          let blended := blended + safety_addition in
          {| BlendResult.blended_value := blended;
             BlendResult.physics_ceiling := physics_minimum;
             BlendResult.learned_value := Some learned_point;
             BlendResult.learned_weight := learned_weight;
             BlendResult.observation_count :=
               SegmentStatistics.observation_count stats;
             BlendResult.was_physics_limited := false |}
  end.

(** The blend and safety-margin assignments of [blend_corner_speed]
    (lines 135 to 139) as a function of the ceiling, the learned speed, the
    weight and the margin. *)
Definition corner_blend (physics_ceiling learned_speed learned_weight margin : R)
  : R :=
  let blended :=
    physics_ceiling - (physics_ceiling - learned_speed) * learned_weight in
  let safety_reduction := (physics_ceiling - blended) * margin in
  blended - safety_reduction.

End BlendEngine.

(** ** src/learning/decay_manager.py *)

Module DecayTrigger.

Inductive t :=
| NONE
| WEATHER_CHANGE
| TEMPERATURE_CHANGE
| SURFACE_CHANGE
| NEW_SESSION
| LONG_BREAK
| TIRE_CHANGE
| VEHICLE_CHANGE
| MANUAL_RESET
| DATA_AGE.

#[global] Instance eq_dec : EqDecision t.
Proof. solve_decision. Defined.

End DecayTrigger.

Module DecayConfig.

Record t := {
  max_data_age_hours : R;
  half_life_hours : R;
  session_break_threshold_minutes : R;
  session_break_decay_factor : R;
  weather_change_decay : R;
  temperature_change_per_10c : R;
  surface_change_decay : R;
  tire_change_decay : R;
  vehicle_change_decay : R;
  min_decay_factor : R
}.

Definition default : t :=
  {| max_data_age_hours := 24;
     half_life_hours := 8;
     session_break_threshold_minutes := 60;
     session_break_decay_factor := 0.5;
     weather_change_decay := 0;
     temperature_change_per_10c := 0.2;
     surface_change_decay := 0;
     tire_change_decay := 0.3;
     vehicle_change_decay := 0;
     min_decay_factor := 0.1 |}.

End DecayConfig.

Module ConditionState.

(** [last_activity] is set by [__post_init__] when it is not given, so it
    is never [None] on an instance. *)
Record t := {
  is_dry : bool;
  ambient_temp_c : R;
  track_temp_c : R;
  surface_type : string;
  surface_condition : string;
  tire_compound : string;
  vehicle_id : string;
  last_activity : datetime
}.

End ConditionState.

Module DecayManager.

(** [stats] is a reference to the store the manager was given; the store
    in the result is that same store after the call. *)
Record t := {
  config : DecayConfig.t;
  stats : option SegmentStatsStore.t;
  _previous_conditions : option ConditionState.t;
  _decay_history : list (DecayTrigger.t * datetime)
}.

(** [DecayManager(config, stats_store)] *)
Definition make (config : DecayConfig.t)
    (stats_store : option SegmentStatsStore.t) : t :=
  {| config := config; stats := stats_store;
     _previous_conditions := None; _decay_history := [] |}.

Definition _combine_decay_factors (self : t)
    (decays : list (DecayTrigger.t * R)) : R :=
  match decays with
  | [] => 1
  | _ =>
      let combined :=
        fold_left (fun combined factor => combined * factor)
                  (dict_values decays) 1 in
      Rmax combined (DecayConfig.min_decay_factor (config self))
  end.

(** The triggers [update_conditions] finds between two snapshots, in the
    order the method tests them. *)
Definition triggered (self : t) (prev current_conditions : ConditionState.t)
  : list (DecayTrigger.t * R) :=
  let triggered_decays : list (DecayTrigger.t * R) := [] in
  (* Check weather change *)
  let triggered_decays :=
    if negb (Bool.eqb (ConditionState.is_dry current_conditions)
                      (ConditionState.is_dry prev))
    then dict_set DecayTrigger.WEATHER_CHANGE
           (DecayConfig.weather_change_decay (config self)) triggered_decays
    else triggered_decays in
  (* Check temperature change *)
  let temp_delta :=
    Rabs (ConditionState.track_temp_c current_conditions
          - ConditionState.track_temp_c prev) in
  let triggered_decays :=
    if fge temp_delta 10 then
      let decay_amount :=
        IZR (Zfloor (temp_delta / 10))
        * DecayConfig.temperature_change_per_10c (config self) in
      let decay_factor := Rmax 0 (1 - decay_amount) in
      dict_set DecayTrigger.TEMPERATURE_CHANGE decay_factor triggered_decays
    else triggered_decays in
  (* Check surface change *)
  let triggered_decays :=
    if bool_decide (ConditionState.surface_type current_conditions
                    <> ConditionState.surface_type prev)
       || bool_decide (ConditionState.surface_condition current_conditions
                       <> ConditionState.surface_condition prev)
    then dict_set DecayTrigger.SURFACE_CHANGE
           (DecayConfig.surface_change_decay (config self)) triggered_decays
    else triggered_decays in
  (* Check session break *)
  let break_duration :=
    ConditionState.last_activity current_conditions
    - ConditionState.last_activity prev in
  let triggered_decays :=
    if fgt break_duration
           (DecayConfig.session_break_threshold_minutes (config self) * 60)
    then dict_set DecayTrigger.LONG_BREAK
           (DecayConfig.session_break_decay_factor (config self))
           triggered_decays
    else triggered_decays in
  (* Check tire change *)
  let triggered_decays :=
    if bool_decide (ConditionState.tire_compound current_conditions
                    <> ConditionState.tire_compound prev)
    then dict_set DecayTrigger.TIRE_CHANGE
           (DecayConfig.tire_change_decay (config self)) triggered_decays
    else triggered_decays in
  (* Check vehicle change *)
  let triggered_decays :=
    if bool_decide (ConditionState.vehicle_id current_conditions <> "")
       && bool_decide (ConditionState.vehicle_id prev <> "")
       && bool_decide (ConditionState.vehicle_id current_conditions
                       <> ConditionState.vehicle_id prev)
    then dict_set DecayTrigger.VEHICLE_CHANGE
           (DecayConfig.vehicle_change_decay (config self)) triggered_decays
    else triggered_decays in
  triggered_decays.

(** [now] is the value [datetime.now()] returns during the call. *)
Definition update_conditions (self : t) (now : datetime)
    (current_conditions : ConditionState.t)
  : list (DecayTrigger.t * R) * t :=
  match _previous_conditions self with
  | None =>
      ([], {| config := config self; stats := stats self;
              _previous_conditions := Some current_conditions;
              _decay_history := _decay_history self |})
  | Some prev =>
      let triggered_decays := triggered self prev current_conditions in
      (* Apply decays to stats store *)
      let stats' :=
        match triggered_decays, stats self with
        | _ :: _, Some store =>
            let combined_factor := _combine_decay_factors self triggered_decays in
            Some (SegmentStatsStore.apply_global_decay store combined_factor)
        | _, _ => stats self
        end in
      (* Update history *)
      let history' :=
        fold_left (fun h trigger => dict_set trigger now h)
                  (dict_keys triggered_decays) (_decay_history self) in
      (triggered_decays,
       {| config := config self; stats := stats';
          _previous_conditions := Some current_conditions;
          _decay_history := history' |})
  end.

(** [apply_age_decay]; [now] is the value [datetime.now()] returns during
    the call.  The outer [None] is the [ZeroDivisionError] of a zero
    half-life or the [OverflowError] of [math.pow] on a last activity too
    far in the future, the inner one the [None] the method returns when it
    has no previous conditions or no store. *)
Definition apply_age_decay (self : t) (now : datetime)
  : option (option R * t) :=
  match _previous_conditions self, stats self with
  | Some prev, Some store =>
      let age := now - ConditionState.last_activity prev in
      let age_hours := age / 3600 in
      decay_factor ←
        (if fgt age_hours (DecayConfig.max_data_age_hours (config self))
         then
           (* Data too old, minimum retention *)
           Some (DecayConfig.min_decay_factor (config self))
         else
           (* Exponential decay based on half-life *)
           exponent ← fdiv age_hours (DecayConfig.half_life_hours (config self));
           decay_factor ← fpow 0.5 exponent;
           Some (Rmax decay_factor (DecayConfig.min_decay_factor (config self))));
      Some (Some decay_factor,
            {| config := config self;
               stats := Some (SegmentStatsStore.apply_global_decay
                                store decay_factor);
               _previous_conditions := _previous_conditions self;
               _decay_history :=
                 dict_set DecayTrigger.DATA_AGE now (_decay_history self) |})
  | _, _ => Some (None, self)
  end.

(** [reason] is not used by the method. *)
Definition reset_all_learning (self : t) (now : datetime) (reason : string)
  : t :=
  {| config := config self;
     stats :=
       match stats self with
       | Some store => Some (SegmentStatsStore.apply_global_decay store 0)
       | None => None
       end;
     _previous_conditions := _previous_conditions self;
     _decay_history :=
       dict_set DecayTrigger.MANUAL_RESET now (_decay_history self) |}.

Definition reset_segment_learning (self : t) (segment_id : Z)
    (reason : string) : t :=
  {| config := config self;
     stats :=
       match stats self with
       | Some store => Some (SegmentStatsStore.apply_decay store segment_id 0)
       | None => None
       end;
     _previous_conditions := _previous_conditions self;
     _decay_history := _decay_history self |}.

End DecayManager.


(** ** Concrete inputs, after the tests *)

(** The statistics of the tests: 100 observations of weight 95, entry
    speeds of mean 85, deviation 2 and maximum 90, brake points of mean
    and latest [bp]. *)
Definition stats_of_tests (bp : R) : SegmentStatistics.t :=
  {| SegmentStatistics.segment_id := 1;
     SegmentStatistics.observation_count := 100;
     SegmentStatistics.entry_speed_mean_kmh := 85;
     SegmentStatistics.entry_speed_std_kmh := 2;
     SegmentStatistics.entry_speed_max_kmh := 90;
     SegmentStatistics.apex_speed_mean_kmh := 0;
     SegmentStatistics.apex_speed_std_kmh := 0;
     SegmentStatistics.apex_speed_max_kmh := 0;
     SegmentStatistics.exit_speed_mean_kmh := 0;
     SegmentStatistics.exit_speed_std_kmh := 0;
     SegmentStatistics.exit_speed_max_kmh := 0;
     SegmentStatistics.brake_point_mean_m := bp;
     SegmentStatistics.brake_point_std_m := 0;
     SegmentStatistics.brake_point_latest_m := bp;
     SegmentStatistics.max_lateral_g_observed := 0;
     SegmentStatistics.max_longitudinal_g_observed := 0;
     SegmentStatistics.first_observation := None;
     SegmentStatistics.last_observation := None;
     SegmentStatistics.confidence_weighted_count := 95;
     SegmentStatistics.decay_factor := 1 |}.

Definition envelope_100 : SpeedLimitEnvelope.t :=
  {| SpeedLimitEnvelope.segment_id := 1; SpeedLimitEnvelope.max_speed := 100;
     SpeedLimitEnvelope.min_speed := 50; SpeedLimitEnvelope.confidence := 0.95 |}.

Definition brake_envelope_80 : BrakePointEnvelope.t :=
  {| BrakePointEnvelope.segment_id := 1;
     BrakePointEnvelope.minimum_brake_distance := 80 |}.

(** The dirty observation of [test_dirty_observations_rejected], with
    the clean flag and the confidence left open. *)
Definition observation_of_tests (was_clean : bool) (confidence : R)
  : SegmentObservation.t :=
  {| SegmentObservation.segment_id := 1;
     SegmentObservation.timestamp := 0;
     SegmentObservation.entry_speed_kmh := 100;
     SegmentObservation.apex_speed_kmh := 80;
     SegmentObservation.exit_speed_kmh := 90;
     SegmentObservation.min_speed_kmh := 75;
     SegmentObservation.max_lateral_g := 0.8;
     SegmentObservation.max_longitudinal_g := 0.5;
     SegmentObservation.brake_point_distance_m := 50;
     SegmentObservation.brake_intensity_peak := 0.7;
     SegmentObservation.max_steering_rate_deg_s := 50;
     SegmentObservation.was_clean := was_clean;
     SegmentObservation.was_full_commitment := false;
     SegmentObservation.confidence := confidence |}.

(** A store holding [stats_of_tests 60] for segment 1. *)
Definition store_of_tests : SegmentStatsStore.t :=
  {| SegmentStatsStore._stats := {[ 1%Z := stats_of_tests 60 ]};
     SegmentStatsStore._observations := ∅;
     SegmentStatsStore._max_observations := 100 |}.

(** Two condition snapshots a second apart: dry on street tires, then wet
    on slicks, everything else as the defaults have it. *)
Definition conditions_dry : ConditionState.t :=
  {| ConditionState.is_dry := true;
     ConditionState.ambient_temp_c := 20;
     ConditionState.track_temp_c := 30;
     ConditionState.surface_type := "asphalt";
     ConditionState.surface_condition := "normal";
     ConditionState.tire_compound := "street";
     ConditionState.vehicle_id := "";
     ConditionState.last_activity := 0 |}.

Definition conditions_wet_new_tires : ConditionState.t :=
  {| ConditionState.is_dry := false;
     ConditionState.ambient_temp_c := 20;
     ConditionState.track_temp_c := 30;
     ConditionState.surface_type := "asphalt";
     ConditionState.surface_condition := "normal";
     ConditionState.tire_compound := "slick";
     ConditionState.vehicle_id := "";
     ConditionState.last_activity := 1 |}.

(** A decay manager on [store_of_tests] that has seen [conditions_dry]. *)
Definition manager_of_tests : DecayManager.t :=
  {| DecayManager.config := DecayConfig.default;
     DecayManager.stats := Some store_of_tests;
     DecayManager._previous_conditions := Some conditions_dry;
     DecayManager._decay_history := [] |}.

(** An enforcer whose longitudinal shape factor is 0.5, the other settings
    as the defaults have them. *)
Definition enforcer_ellipse : FrictionCircleEnforcer.t :=
  {| FrictionCircleEnforcer.config :=
       {| FrictionCircleConfig.max_grip_normalized := 1;
          FrictionCircleConfig.longitudinal_factor := 0.5;
          FrictionCircleConfig.lateral_factor := 1;
          FrictionCircleConfig.stability_margin := 0.15;
          FrictionCircleConfig.warning_threshold := 0.75;
          FrictionCircleConfig.critical_threshold := 0.90 |} |}.

(** A corner-speed envelope built by the constructor with an envelope
    speed above its ceiling of 100 km/h, and a manager holding it. *)
Definition ceiling_100 : PhysicsCeiling.t :=
  {| PhysicsCeiling.value := 100; PhysicsCeiling.unit := "km/h";
     PhysicsCeiling.source := "friction_limit" |}.

Definition corner_envelope_of_tests : CornerSpeedEnvelope.t :=
  CornerSpeedEnvelope.make 1 0 50 ceiling_100 85 None 0 120 (Some 50) 0.02
    (Confidence.make 0.95 "corner_speed" 0 None).

Definition envelope_manager_of_tests : EnvelopeManager.t :=
  {| EnvelopeManager._segment_envelopes :=
       {[ 1%Z := {| SegmentEnvelope.segment_id := 1;
                    SegmentEnvelope.distance_start_m := 0;
                    SegmentEnvelope.distance_end_m := 50;
                    SegmentEnvelope.corner_speed := Some corner_envelope_of_tests;
                    SegmentEnvelope.braking := None;
                    SegmentEnvelope.steering := None;
                    SegmentEnvelope.combined_grip := None;
                    SegmentEnvelope.confidence :=
                      Confidence.make 0.95 "envelope" 0 None |} ]};
     EnvelopeManager._track_length_m := 50 |}.

(** A track of two segments: a straight, then a left-hand corner of 50 m
    radius. *)
Definition straight_of_tests : TrackSegment.t :=
  {| TrackSegment.segment_id := 1;
     TrackSegment.start_distance_m := 0;
     TrackSegment.end_distance_m := 400;
     TrackSegment.is_corner := false;
     TrackSegment.direction := CornerDirection.STRAIGHT;
     TrackSegment.corner_name := None;
     TrackSegment.average_curvature_1_per_m := 0;
     TrackSegment.minimum_radius_m := None;
     TrackSegment.average_heading_deg := 0;
     TrackSegment.heading_change_deg := 0;
     TrackSegment.average_width_m := None;
     TrackSegment.minimum_width_m := None;
     TrackSegment.points := [];
     TrackSegment.geometry_confidence := 0.9 |}.

Definition corner_of_tests : TrackSegment.t :=
  {| TrackSegment.segment_id := 2;
     TrackSegment.start_distance_m := 400;
     TrackSegment.end_distance_m := 500;
     TrackSegment.is_corner := true;
     TrackSegment.direction := CornerDirection.LEFT;
     TrackSegment.corner_name := Some "Turn 1";
     TrackSegment.average_curvature_1_per_m := 0.02;
     TrackSegment.minimum_radius_m := Some 50;
     TrackSegment.average_heading_deg := 45;
     TrackSegment.heading_change_deg := 90;
     TrackSegment.average_width_m := None;
     TrackSegment.minimum_width_m := None;
     TrackSegment.points := [];
     TrackSegment.geometry_confidence := 0.6 |}.

Definition track_of_tests : TrackModel.t :=
  {| TrackModel.track_id := "test";
     TrackModel.track_name := "Test Track";
     TrackModel.total_length_m := 500;
     TrackModel.creation_timestamp_ms := 0;
     TrackModel.last_update_ms := 0;
     TrackModel.gps_laps_used := 0;
     TrackModel.satellite_reference_used := false;
     TrackModel.imu_fusion_used := false;
     TrackModel.edge_detection_used := false;
     TrackModel.centerline := [];
     TrackModel.segments := [straight_of_tests; corner_of_tests];
     TrackModel.start_finish_distance_m := 0;
     TrackModel.start_finish_latitude_deg := 0;
     TrackModel.start_finish_longitude_deg := 0;
     TrackModel.start_finish_heading_deg := 0;
     TrackModel.geometry_confidence := Confidence.make 0.9 "track" 0 None |}.

Definition corner_speed_calc_default : CornerSpeedCalculator.t :=
  {| CornerSpeedCalculator.config := CornerSpeedConfig.default |}.

Definition braking_calc_default : BrakingCalculator.t :=
  {| BrakingCalculator.config := BrakingConfig.default |}.

(** * Properties *)

(** ** Float comparisons *)

Lemma flt_true (a b : R) : flt a b = true <-> a < b.
Proof. unfold flt; destruct (Rlt_dec a b); split; intros; lra || congruence. Qed.

Lemma flt_false (a b : R) : flt a b = false <-> b <= a.
Proof. unfold flt; destruct (Rlt_dec a b); split; intros; lra || congruence. Qed.

Lemma fle_true (a b : R) : fle a b = true <-> a <= b.
Proof. unfold fle; destruct (Rle_dec a b); split; intros; lra || congruence. Qed.

Lemma fle_false (a b : R) : fle a b = false <-> b < a.
Proof. unfold fle; destruct (Rle_dec a b); split; intros; lra || congruence. Qed.

(** ** The statistics accessors *)

Lemma has_sufficient_data_true (s : SegmentStatistics.t) :
  SegmentStatistics.has_sufficient_data s = true
  <-> 3 <= SegmentStatistics.effective_observation_count s.
Proof. unfold SegmentStatistics.has_sufficient_data, fge. apply fle_true. Qed.

Lemma has_sufficient_data_false (s : SegmentStatistics.t) :
  SegmentStatistics.has_sufficient_data s = false
  <-> SegmentStatistics.effective_observation_count s < 3.
Proof. unfold SegmentStatistics.has_sufficient_data, fge. apply fle_false. Qed.

Lemma get_learned_entry_speed_le (s : SegmentStatistics.t) (ceiling : R) :
  SegmentStatistics.get_learned_entry_speed s ceiling <= ceiling.
Proof.
  unfold SegmentStatistics.get_learned_entry_speed.
  destruct (SegmentStatistics.has_sufficient_data s); simpl.
  - apply Rmin_r.
  - lra.
Qed.

Lemma get_learned_brake_point_ge (s : SegmentStatistics.t) (physics_minimum : R) :
  physics_minimum <= SegmentStatistics.get_learned_brake_point s physics_minimum.
Proof.
  unfold SegmentStatistics.get_learned_brake_point.
  destruct (SegmentStatistics.has_sufficient_data s); simpl.
  - apply Rmax_r.
  - lra.
Qed.

(** ** The learned weight *)

Section Weight.
Variable self : BlendEngine.t.

Local Abbreviation min_obs :=
  (BlendConfig.min_observations_for_learning (BlendEngine.config self)).
Local Abbreviation full_obs :=
  (BlendConfig.observations_for_full_influence (BlendEngine.config self)).
Local Abbreviation max_influence :=
  (BlendConfig.max_learned_influence (BlendEngine.config self)).
Local Abbreviation weight_of_count := (BlendEngine.weight_of_count self).

Lemma _compute_learned_weight_of_count (stats : SegmentStatistics.t) :
  BlendEngine._compute_learned_weight self stats
  = weight_of_count (SegmentStatistics.effective_observation_count stats).
Proof. reflexivity. Qed.

Lemma weight_of_count_below (e : R) : e < IZR min_obs -> weight_of_count e = 0.
Proof. intros He. unfold BlendEngine.weight_of_count. now apply flt_true in He as ->. Qed.

Lemma ramp_nonneg (e : R) :
  IZR min_obs <= e -> (0 < full_obs - min_obs)%Z ->
  0 <= (e - IZR min_obs) / IZR (full_obs - min_obs).
Proof.
  intros He Hr. apply IZR_lt in Hr.
  apply Rmult_le_pos; [lra|]. left. now apply Rinv_0_lt_compat.
Qed.

Lemma ramp_mono (e1 e2 : R) :
  e1 <= e2 -> (0 < full_obs - min_obs)%Z ->
  (e1 - IZR min_obs) / IZR (full_obs - min_obs)
  <= (e2 - IZR min_obs) / IZR (full_obs - min_obs).
Proof.
  intros He Hr. apply IZR_lt in Hr.
  apply Rmult_le_compat_r; [|lra]. left. now apply Rinv_0_lt_compat.
Qed.

Lemma ramp_full (e : R) :
  IZR full_obs <= e -> (0 < full_obs - min_obs)%Z ->
  1 <= (e - IZR min_obs) / IZR (full_obs - min_obs).
Proof.
  intros He Hr. apply IZR_lt in Hr. rewrite minus_IZR in *.
  apply Rmult_le_reg_r with (IZR full_obs - IZR min_obs); [lra|].
  unfold Rdiv. rewrite Rmult_assoc, Rinv_l by lra. lra.
Qed.

Lemma weight_of_count_nonneg (e : R) :
  0 <= max_influence -> 0 <= weight_of_count e.
Proof.
  intros HM. unfold BlendEngine.weight_of_count.
  destruct (flt e (IZR min_obs)) eqn:He; [lra|]. apply flt_false in He.
  destruct (Z.leb_spec (full_obs - min_obs) 0) as [Hr|Hr]; [lra|].
  pose proof (ramp_nonneg e He Hr) as Hp.
  apply Rmult_le_pos; [|assumption].
  unfold Rmin. destruct (Rle_dec _ _); lra.
Qed.

Lemma weight_of_count_le_max (e : R) :
  0 <= max_influence -> weight_of_count e <= max_influence.
Proof.
  intros HM. unfold BlendEngine.weight_of_count.
  destruct (flt e (IZR min_obs)) eqn:He; [lra|].
  destruct (Z.leb_spec (full_obs - min_obs) 0) as [Hr|Hr]; [lra|].
  pose proof (Rmin_r ((e - IZR min_obs) / IZR (full_obs - min_obs)) 1) as Hp.
  nra.
Qed.

Lemma weight_of_count_mono (e1 e2 : R) :
  0 <= max_influence -> e1 <= e2 -> weight_of_count e1 <= weight_of_count e2.
Proof.
  intros HM Hle.
  destruct (Rlt_dec e1 (IZR min_obs)) as [H1|H1].
  - rewrite (weight_of_count_below e1 H1). now apply weight_of_count_nonneg.
  - unfold BlendEngine.weight_of_count.
    assert (flt e1 (IZR min_obs) = false) as -> by (apply flt_false; lra).
    assert (flt e2 (IZR min_obs) = false) as -> by (apply flt_false; lra).
    destruct (Z.leb_spec (full_obs - min_obs) 0) as [Hr|Hr]; [lra|].
    apply Rmult_le_compat_r; [assumption|].
    apply Rle_min_compat_r. now apply ramp_mono.
Qed.

Lemma weight_of_count_saturated (e : R) :
  (min_obs <= full_obs)%Z -> IZR full_obs <= e -> weight_of_count e = max_influence.
Proof.
  intros Hmf He. unfold BlendEngine.weight_of_count.
  assert (IZR min_obs <= IZR full_obs) by now apply IZR_le.
  assert (flt e (IZR min_obs) = false) as -> by (apply flt_false; lra).
  destruct (Z.leb_spec (full_obs - min_obs) 0) as [Hr|Hr]; [lra|].
  rewrite Rmin_right by now apply ramp_full. lra.
Qed.

End Weight.

(** ** The corner-speed blend *)

(** The safety check of [blend_corner_speed] never fires: the accessor
    has capped the learned speed already. *)
Lemma learned_speed_check_false (s : SegmentStatistics.t) (ceiling : R) :
  fgt (SegmentStatistics.get_learned_entry_speed s ceiling) ceiling = false.
Proof. apply flt_false, get_learned_entry_speed_le. Qed.

Lemma blend_corner_speed_no_data {E} `{SpeedCeiling E} (self : BlendEngine.t)
    (env : E) (stats : option SegmentStatistics.t) :
  BlendEngine.no_learning_data stats = true ->
  BlendEngine.blend_corner_speed self env stats
  = BlendEngine.physics_only (max_speed_kmh env) stats.
Proof.
  intros Hno. unfold BlendEngine.blend_corner_speed.
  destruct stats; [now rewrite Hno | reflexivity].
Qed.

(** With data, the blended value is [corner_blend] at the capped learned
    speed, the computed weight and the configured margin. *)
Lemma blend_corner_speed_data {E} `{SpeedCeiling E} (self : BlendEngine.t)
    (env : E) (s : SegmentStatistics.t) :
  SegmentStatistics.has_sufficient_data s = true ->
  let ceiling := max_speed_kmh env in
  let learned := SegmentStatistics.get_learned_entry_speed s ceiling in
  let w := BlendEngine._compute_learned_weight self s in
  BlendEngine.blend_corner_speed self env (Some s)
  = {| BlendResult.blended_value :=
         BlendEngine.corner_blend ceiling learned w
           (BlendConfig.learned_safety_margin (BlendEngine.config self));
       BlendResult.physics_ceiling := ceiling;
       BlendResult.learned_value := Some learned;
       BlendResult.learned_weight := w;
       BlendResult.observation_count := SegmentStatistics.observation_count s;
       BlendResult.was_physics_limited := false |}.
Proof.
  intros Hs ceiling learned w. unfold BlendEngine.blend_corner_speed.
  cbn [BlendEngine.no_learning_data]. rewrite Hs. cbn [negb].
  fold ceiling. fold learned. unfold learned.
  now rewrite learned_speed_check_false.
Qed.

Lemma corner_blend_closed_form (C L w m : R) :
  BlendEngine.corner_blend C L w m = C - (C - L) * w * (1 + m).
Proof. unfold BlendEngine.corner_blend. ring. Qed.

Lemma corner_blend_le_ceiling (C L w m : R) :
  L <= C -> 0 <= w -> 0 <= m -> BlendEngine.corner_blend C L w m <= C.
Proof.
  intros HL Hw Hm. rewrite corner_blend_closed_form.
  assert (0 <= (C - L) * w) by (apply Rmult_le_pos; lra).
  assert (0 <= (C - L) * w * (1 + m)) by (apply Rmult_le_pos; lra).
  lra.
Qed.

Lemma corner_blend_lt_ceiling (C L w m : R) :
  L < C -> 0 < w -> 0 <= m -> BlendEngine.corner_blend C L w m < C.
Proof.
  intros HL Hw Hm. rewrite corner_blend_closed_form.
  assert (0 < (C - L) * w) by (apply Rmult_lt_0_compat; lra).
  assert (0 < (C - L) * w * (1 + m)) by (apply Rmult_lt_0_compat; lra).
  lra.
Qed.

(** C1: for every corner-speed physics envelope with ceiling [C] and
    every segment statistics, absent ones included, [blend_corner_speed]
    returns a blended value that never exceeds [C]; when the weight
    [_compute_learned_weight] computes from the statistics is positive and
    the speed [get_learned_entry_speed] learns from them is strictly below
    [C], the blended value is strictly below [C], and that speed and that
    weight are the ones the result reports.  The same holds of whatever
    learned value and weight a result reports.  The engine's configuration
    has a non-negative maximum influence and a non-negative safety
    margin. *)
Theorem blend_corner_speed_never_exceeds_ceiling {E} `{SpeedCeiling E}
    (self : BlendEngine.t) (env : E) (stats : option SegmentStatistics.t) :
  0 <= BlendConfig.max_learned_influence (BlendEngine.config self) ->
  0 <= BlendConfig.learned_safety_margin (BlendEngine.config self) ->
  let C := max_speed_kmh env in
  let r := BlendEngine.blend_corner_speed self env stats in
  BlendResult.blended_value r <= C
  /\ (forall s, stats = Some s ->
        0 < BlendEngine._compute_learned_weight self s ->
        SegmentStatistics.get_learned_entry_speed s C < C ->
        BlendResult.blended_value r < C
        /\ BlendResult.learned_value r
           = Some (SegmentStatistics.get_learned_entry_speed s C)
        /\ BlendResult.learned_weight r
           = BlendEngine._compute_learned_weight self s)
  /\ (forall L, BlendResult.learned_value r = Some L ->
                0 < BlendResult.learned_weight r -> L < C ->
                BlendResult.blended_value r < C).
Proof.
  intros HM Hm C r.
  destruct (BlendEngine.no_learning_data stats) eqn:Hno.
  - subst r. rewrite (blend_corner_speed_no_data _ _ _ Hno). cbn.
    split; [subst C; lra|]. split; [|discriminate].
    intros s -> _ HL. exfalso. cbn in Hno. apply negb_true_iff in Hno.
    unfold SegmentStatistics.get_learned_entry_speed in HL.
    rewrite Hno in HL. cbn in HL. lra.
  - destruct stats as [s|]; [|discriminate]. cbn in Hno.
    apply negb_false_iff in Hno.
    subst r. rewrite (blend_corner_speed_data _ _ _ Hno). cbn. fold C.
    split.
    + apply corner_blend_le_ceiling; [apply get_learned_entry_speed_le | | assumption].
      rewrite _compute_learned_weight_of_count. now apply weight_of_count_nonneg.
    + split.
      * intros s' [= <-] Hw HL.
        split; [now apply corner_blend_lt_ceiling | split; reflexivity].
      * intros L [= <-] Hw HL. now apply corner_blend_lt_ceiling.
Qed.

(** C3, as amended: for every ceiling [C], learned value [L <= C], weight
    [w] and margin [m] in [[0,1]], the blend computation yields
    [C - (C - L) * w * (1 + m)], which never exceeds [C], and which is at
    least [L] exactly when [L = C] or [w * (1 + m) <= 1]. *)
Theorem corner_blend_bounds (C L w m : R) :
  L <= C -> 0 <= w <= 1 -> 0 <= m <= 1 ->
  let blended := BlendEngine.corner_blend C L w m in
  blended = C - (C - L) * w * (1 + m)
  /\ blended <= C
  /\ (L <= blended <-> L = C \/ w * (1 + m) <= 1).
Proof.
  intros HL Hw Hm blended. subst blended.
  split; [apply corner_blend_closed_form|].
  split; [apply corner_blend_le_ceiling; lra|].
  rewrite corner_blend_closed_form. split.
  - intros Hb. destruct (Req_dec L C) as [|Hne]; [now left|right].
    assert (0 < C - L) by lra. nra.
  - intros [->|Hwm]; [lra|]. nra.
Qed.

(** C3 as stated fails: with ceiling 100, learned 80, weight 1 and margin
    1 the computation yields 60, below the learned value. *)
Lemma corner_blend_below_learned :
  80 <= 100 /\ 0 <= 1 <= 1
  /\ BlendEngine.corner_blend 100 80 1 1 = 60
  /\ ~ (80 <= BlendEngine.corner_blend 100 80 1 1 <= 100).
Proof.
  assert (BlendEngine.corner_blend 100 80 1 1 = 60) as Heq
    by (unfold BlendEngine.corner_blend; lra).
  rewrite Heq. repeat split; lra.
Qed.

(** ** Evaluation on the inputs of the tests *)

(** Decide every float comparison of a closed goal by arithmetic,
    innermost first. *)
Ltac no_decision a :=
  lazymatch a with
  | context [Rlt_dec _ _] => fail
  | context [Rle_dec _ _] => fail
  | _ => idtac
  end.

Ltac fdecide :=
  repeat match goal with
    | |- context [Rlt_dec ?a ?b] =>
        no_decision a; no_decision b;
        destruct (Rlt_dec a b); [try (exfalso; lra) | try (exfalso; lra)]
    | |- context [Rle_dec ?a ?b] =>
        no_decision a; no_decision b;
        destruct (Rle_dec a b); [try (exfalso; lra) | try (exfalso; lra)]
    end.

Ltac feval :=
  cbv -[Rplus Rmult Rminus Rdiv Rinv Ropp IZR INR pow Rabs sqrt Zfloor
        Rlt Rle Rgt Rge Rlt_dec Rle_dec Req_dec_T];
  fdecide.

Example stats_of_tests_sufficient (bp : R) :
  SegmentStatistics.has_sufficient_data (stats_of_tests bp) = true.
Proof. feval; reflexivity. Qed.

Example stats_of_tests_learned_speed :
  SegmentStatistics.get_learned_entry_speed (stats_of_tests 60) 100 = 89.
Proof. feval; lra. Qed.

Example stats_of_tests_weight (bp : R) :
  BlendEngine._compute_learned_weight BlendEngine.default (stats_of_tests bp) = 0.3.
Proof. feval; lra. Qed.

Example blend_corner_speed_of_tests :
  BlendResult.blended_value
    (BlendEngine.blend_corner_speed BlendEngine.default envelope_100
       (Some (stats_of_tests 60)))
  = 96.535.
Proof. feval; lra. Qed.

Lemma blend_corner_speed_never_exceeds_ceiling_witness :
  let C := max_speed_kmh envelope_100 in
  let s := stats_of_tests 60 in
  let r := BlendEngine.blend_corner_speed BlendEngine.default envelope_100
             (Some s) in
  BlendResult.blended_value r <= C
  /\ BlendResult.blended_value r < C
  /\ BlendResult.learned_value r
     = Some (SegmentStatistics.get_learned_entry_speed s C)
  /\ BlendResult.learned_weight r
     = BlendEngine._compute_learned_weight BlendEngine.default s.
Proof.
  destruct (blend_corner_speed_never_exceeds_ceiling
              BlendEngine.default envelope_100 (Some (stats_of_tests 60))
              ltac:(cbn; lra) ltac:(cbn; lra)) as (Hle & Hstrict & _).
  split; [exact Hle|]. apply (Hstrict (stats_of_tests 60) eq_refl).
  - rewrite stats_of_tests_weight. lra.
  - change (max_speed_kmh envelope_100) with 100.
    rewrite stats_of_tests_learned_speed. lra.
Defined.

Lemma corner_blend_bounds_witness :
  let blended := BlendEngine.corner_blend 100 89 0.3 0.05 in
  blended = 100 - (100 - 89) * 0.3 * (1 + 0.05)
  /\ blended <= 100
  /\ (89 <= blended <-> 89 = 100 \/ 0.3 * (1 + 0.05) <= 1).
Proof. apply (corner_blend_bounds 100 89 0.3 0.05); lra. Defined.

(** ** The learned weight as a function of the effective count *)

(** C7: the learned blend weight is 0 for every effective count below the
    minimum, is non-decreasing in the count, equals the maximum learned
    influence for every count at or beyond the full-influence threshold,
    and never exceeds that maximum; the configuration has a non-negative
    maximum influence and a full-influence threshold not below the
    minimum, as the defaults 0.30, 3 and 20 have. *)
Theorem learned_weight_ramp (self : BlendEngine.t) :
  let min_obs := BlendConfig.min_observations_for_learning (BlendEngine.config self) in
  let full_obs := BlendConfig.observations_for_full_influence (BlendEngine.config self) in
  let max_influence := BlendConfig.max_learned_influence (BlendEngine.config self) in
  let count := SegmentStatistics.effective_observation_count in
  let weight := BlendEngine._compute_learned_weight self in
  0 <= max_influence -> (min_obs <= full_obs)%Z ->
  (forall s, count s < IZR min_obs -> weight s = 0)
  /\ (forall s1 s2, count s1 <= count s2 -> weight s1 <= weight s2)
  /\ (forall s, IZR full_obs <= count s -> weight s = max_influence)
  /\ (forall s, weight s <= max_influence).
Proof.
  intros min_obs full_obs max_influence count weight HM Hmf.
  subst weight count. repeat split; intros.
  - rewrite _compute_learned_weight_of_count. now apply weight_of_count_below.
  - rewrite !_compute_learned_weight_of_count. now apply weight_of_count_mono.
  - rewrite _compute_learned_weight_of_count. now apply weight_of_count_saturated.
  - rewrite _compute_learned_weight_of_count. now apply weight_of_count_le_max.
Qed.

Lemma learned_weight_ramp_witness :
  let count := SegmentStatistics.effective_observation_count in
  let weight := BlendEngine._compute_learned_weight BlendEngine.default in
  (forall s, count s < 3 -> weight s = 0)
  /\ (forall s1 s2, count s1 <= count s2 -> weight s1 <= weight s2)
  /\ (forall s, 20 <= count s -> weight s = 0.30)
  /\ (forall s, weight s <= 0.30).
Proof. apply (learned_weight_ramp BlendEngine.default); cbn; [lra | lia]. Defined.

(** ** The no-data fallback *)

Lemma blend_brake_point_no_data {E} `{BrakeMinimum E} (self : BlendEngine.t)
    (env : E) (stats : option SegmentStatistics.t) :
  BlendEngine.no_learning_data stats = true ->
  BlendEngine.blend_brake_point self env stats
  = BlendEngine.physics_only (minimum_brake_distance_m env) stats.
Proof.
  intros Hno. unfold BlendEngine.blend_brake_point.
  destruct stats; [now rewrite Hno | reflexivity].
Qed.

Lemma no_learning_data_true (stats : option SegmentStatistics.t) :
  BlendEngine.no_learning_data stats = true
  <-> stats = None
      \/ exists s, stats = Some s
                   /\ SegmentStatistics.effective_observation_count s < 3.
Proof.
  destruct stats as [s|]; cbn.
  - rewrite negb_true_iff, has_sufficient_data_false. split.
    + intros Hs. right. now exists s.
    + intros [[=]|[s' [[= <-] Hs]]]. exact Hs.
  - split; [now left | reflexivity].
Qed.

(** C5: if the segment statistics are absent or their effective
    observation count is below 3, both [blend_corner_speed] and
    [blend_brake_point] return exactly the physics value as the blended
    value, with learned weight 0 and no learned value. *)
Theorem blend_without_data_is_physics {E1 E2} `{SpeedCeiling E1} `{BrakeMinimum E2}
    (self : BlendEngine.t) (speed_env : E1) (brake_env : E2)
    (stats : option SegmentStatistics.t) :
  stats = None
  \/ (exists s, stats = Some s
                /\ SegmentStatistics.effective_observation_count s < 3) ->
  let rs := BlendEngine.blend_corner_speed self speed_env stats in
  let rb := BlendEngine.blend_brake_point self brake_env stats in
  (BlendResult.blended_value rs = max_speed_kmh speed_env
   /\ BlendResult.learned_weight rs = 0
   /\ BlendResult.learned_value rs = None)
  /\ (BlendResult.blended_value rb = minimum_brake_distance_m brake_env
      /\ BlendResult.learned_weight rb = 0
      /\ BlendResult.learned_value rb = None).
Proof.
  intros Hno%no_learning_data_true rs rb. subst rs rb.
  rewrite blend_corner_speed_no_data, blend_brake_point_no_data by assumption.
  cbn. auto.
Qed.

Lemma blend_without_data_is_physics_witness :
  let s := SegmentStatistics.set_decay_factor 0 (stats_of_tests 60) in
  let rs := BlendEngine.blend_corner_speed BlendEngine.default envelope_100 (Some s) in
  let rb := BlendEngine.blend_brake_point BlendEngine.default brake_envelope_80 (Some s) in
  (BlendResult.blended_value rs = max_speed_kmh envelope_100
   /\ BlendResult.learned_weight rs = 0
   /\ BlendResult.learned_value rs = None)
  /\ (BlendResult.blended_value rb = minimum_brake_distance_m brake_envelope_80
      /\ BlendResult.learned_weight rb = 0
      /\ BlendResult.learned_value rb = None).
Proof.
  apply (blend_without_data_is_physics BlendEngine.default envelope_100
           brake_envelope_80
           (Some (SegmentStatistics.set_decay_factor 0 (stats_of_tests 60)))).
  right. eexists. split; [reflexivity|].
  unfold SegmentStatistics.effective_observation_count. cbn. lra.
Defined.

(** ** The brake-point blend *)

(** The safety check of [blend_brake_point] never fires: the accessor has
    raised the learned point to the physics minimum already. *)
Lemma learned_point_check_false (s : SegmentStatistics.t) (physics_minimum : R) :
  flt (SegmentStatistics.get_learned_brake_point s physics_minimum) physics_minimum
  = false.
Proof. apply flt_false, get_learned_brake_point_ge. Qed.

Lemma blend_brake_point_data {E} `{BrakeMinimum E} (self : BlendEngine.t)
    (env : E) (s : SegmentStatistics.t) :
  SegmentStatistics.has_sufficient_data s = true ->
  let physics_minimum := minimum_brake_distance_m env in
  let learned := SegmentStatistics.get_learned_brake_point s physics_minimum in
  let w := BlendEngine._compute_learned_weight self s in
  let margin := BlendConfig.learned_safety_margin (BlendEngine.config self) in
  let blended := learned - (learned - physics_minimum) * w in
  BlendEngine.blend_brake_point self env (Some s)
  = {| BlendResult.blended_value := blended + (learned - blended) * margin;
       BlendResult.physics_ceiling := physics_minimum;
       BlendResult.learned_value := Some learned;
       BlendResult.learned_weight := w;
       BlendResult.observation_count := SegmentStatistics.observation_count s;
       BlendResult.was_physics_limited := false |}.
Proof.
  intros Hs physics_minimum learned w margin blended.
  unfold BlendEngine.blend_brake_point.
  cbn [BlendEngine.no_learning_data]. rewrite Hs. cbn [negb].
  fold physics_minimum. fold learned. unfold learned.
  now rewrite learned_point_check_false.
Qed.

(** C10: for every segment statistics and every physics minimum distance,
    [get_learned_brake_point] returns a value at least that minimum, the
    maximum of the conservative learned estimate and the physics minimum
    when there is sufficient data; so the engine's test for a learned
    brake point below the physics minimum is never true, and no result of
    [blend_brake_point] is flagged physics-limited. *)
Theorem learned_brake_point_never_below_physics :
  (forall s physics_minimum,
      physics_minimum <= SegmentStatistics.get_learned_brake_point s physics_minimum)
  /\ (forall s physics_minimum,
         SegmentStatistics.get_learned_brake_point s physics_minimum
         = if SegmentStatistics.has_sufficient_data s
           then Rmax (SegmentStatistics.conservative_learned s) physics_minimum
           else physics_minimum)
  /\ (forall s physics_minimum,
         flt (SegmentStatistics.get_learned_brake_point s physics_minimum)
             physics_minimum = false)
  /\ (forall E (HE : BrakeMinimum E) (self : BlendEngine.t) (env : E) stats,
         BlendResult.was_physics_limited
           (BlendEngine.blend_brake_point self env stats) = false).
Proof.
  split; [exact get_learned_brake_point_ge|].
  split.
  { intros s pm. unfold SegmentStatistics.get_learned_brake_point.
    now destruct (SegmentStatistics.has_sufficient_data s). }
  split; [exact learned_point_check_false|].
  intros E HE self env stats.
  destruct (BlendEngine.no_learning_data stats) eqn:Hno.
  - now rewrite blend_brake_point_no_data.
  - destruct stats as [s|]; [|discriminate]. cbn in Hno.
    apply negb_false_iff in Hno. now rewrite blend_brake_point_data.
Qed.

(** C2, as amended: if the learned brake point of a segment, the
    conservative estimate of its statistics, is later than the physics
    minimum, [blend_brake_point] returns the physics minimum as the
    blended value and leaves [was_physics_limited] false; with sufficient
    data the learned value it reports is the physics minimum, to which the
    accessor has raised the estimate, and the learned weight is the
    computed weight; without, there is no learned value and the weight
    is 0. *)
Theorem blend_brake_point_later_learned {E} `{BrakeMinimum E}
    (self : BlendEngine.t) (env : E) (s : SegmentStatistics.t) :
  SegmentStatistics.conservative_learned s < minimum_brake_distance_m env ->
  let physics_minimum := minimum_brake_distance_m env in
  let r := BlendEngine.blend_brake_point self env (Some s) in
  BlendResult.blended_value r = physics_minimum
  /\ BlendResult.was_physics_limited r = false
  /\ BlendResult.learned_value r
     = (if SegmentStatistics.has_sufficient_data s
        then Some physics_minimum else None)
  /\ BlendResult.learned_weight r
     = (if SegmentStatistics.has_sufficient_data s
        then BlendEngine._compute_learned_weight self s else 0).
Proof.
  intros Hlate physics_minimum r. subst r.
  destruct (SegmentStatistics.has_sufficient_data s) eqn:Hs.
  - rewrite blend_brake_point_data by assumption. cbn. fold physics_minimum.
    assert (SegmentStatistics.get_learned_brake_point s physics_minimum
            = physics_minimum) as ->.
    { unfold SegmentStatistics.get_learned_brake_point. rewrite Hs. cbn.
      apply Rmax_right. subst physics_minimum. lra. }
    repeat split. ring.
  - rewrite blend_brake_point_no_data by (cbn; now rewrite Hs). cbn. auto.
Qed.

Lemma blend_brake_point_later_learned_witness :
  let physics_minimum := minimum_brake_distance_m brake_envelope_80 in
  let r := BlendEngine.blend_brake_point BlendEngine.default brake_envelope_80
             (Some (stats_of_tests 60)) in
  BlendResult.blended_value r = physics_minimum
  /\ BlendResult.was_physics_limited r = false
  /\ BlendResult.learned_value r
     = (if SegmentStatistics.has_sufficient_data (stats_of_tests 60)
        then Some physics_minimum else None)
  /\ BlendResult.learned_weight r
     = (if SegmentStatistics.has_sufficient_data (stats_of_tests 60)
        then BlendEngine._compute_learned_weight BlendEngine.default
               (stats_of_tests 60)
        else 0).
Proof.
  apply (blend_brake_point_later_learned BlendEngine.default brake_envelope_80
           (stats_of_tests 60)).
  feval; lra.
Defined.

(** C2 as stated fails: with a physics minimum of 80 m and statistics
    whose learned brake point is 60 m, the blended value is 80 m, but the
    learned weight is 0.3 and the result is not flagged. *)
Lemma blend_brake_point_60_against_80 :
  let s := stats_of_tests 60 in
  let r := BlendEngine.blend_brake_point BlendEngine.default brake_envelope_80
             (Some s) in
  SegmentStatistics.conservative_learned s = 60
  /\ minimum_brake_distance_m brake_envelope_80 = 80
  /\ BlendResult.blended_value r = 80
  /\ BlendResult.learned_weight r = 0.3
  /\ BlendResult.was_physics_limited r = false
  /\ ~ (BlendResult.blended_value r = 80
        /\ BlendResult.learned_weight r = 0
        /\ BlendResult.was_physics_limited r = true).
Proof.
  cbv zeta. rewrite blend_brake_point_data by apply stats_of_tests_sufficient.
  cbn [BlendResult.blended_value BlendResult.learned_weight
       BlendResult.was_physics_limited].
  rewrite stats_of_tests_weight.
  split; [feval; lra|]. split; [reflexivity|]. split; [feval; lra|].
  split; [reflexivity|]. split; [reflexivity|].
  intros (_ & Hw & _). lra.
Qed.

(** ** The rejection gate of the statistics store *)

Lemma add_observation_rejected (store : SegmentStatsStore.t)
    (o : SegmentObservation.t) :
  SegmentObservation.was_clean o = false \/ SegmentObservation.confidence o < 0.7 ->
  SegmentStatsStore.add_observation store o = Some store.
Proof.
  intros Hrej. unfold SegmentStatsStore.add_observation.
  destruct (SegmentObservation.was_clean o); cbn [negb]; [|reflexivity].
  destruct Hrej as [|Hc]; [discriminate|].
  now apply flt_true in Hc as ->.
Qed.

Lemma add_observations_rejected (store : SegmentStatsStore.t)
    (obs : list SegmentObservation.t) :
  Forall (fun o => SegmentObservation.was_clean o = false
                   \/ SegmentObservation.confidence o < 0.7) obs ->
  SegmentStatsStore.add_observations store obs = Some store.
Proof.
  induction 1 as [|o obs Ho _ IH]; [reflexivity|].
  cbn. now rewrite add_observation_rejected.
Qed.

(** C6: for observations with [was_clean = false] or [confidence < 0.7],
    [add_observation] leaves the store entirely unchanged, however many
    times it is called; a store that has only ever received such
    observations has no statistics for any segment, and the observation
    count read for it stays 0. *)
Theorem add_observation_rejection_gate (store : SegmentStatsStore.t)
    (obs : list SegmentObservation.t) :
  Forall (fun o => SegmentObservation.was_clean o = false
                   \/ SegmentObservation.confidence o < 0.7) obs ->
  SegmentStatsStore.add_observations store obs = Some store
  /\ (forall o n, In o obs ->
        SegmentStatsStore.add_observations store (replicate n o) = Some store)
  /\ (forall max_observations segment_id,
        exists store',
          SegmentStatsStore.add_observations
            (SegmentStatsStore.make max_observations) obs = Some store'
          /\ SegmentStatsStore.get_statistics store' segment_id = None
          /\ SegmentStatsStore.observation_count_of store' segment_id = 0%Z).
Proof.
  intros Hrej. split; [now apply add_observations_rejected|]. split.
  - intros o n Ho. apply add_observations_rejected.
    rewrite List.Forall_forall in *. intros o' Hin. apply Hrej.
    apply list_elem_of_In, elem_of_replicate_inv in Hin. now subst.
  - intros max_observations segment_id.
    exists (SegmentStatsStore.make max_observations).
    split; [now apply add_observations_rejected|].
    unfold SegmentStatsStore.observation_count_of, SegmentStatsStore.get_statistics.
    cbn. now rewrite lookup_empty.
Qed.

Lemma add_observation_rejection_gate_witness :
  let dirty := observation_of_tests false 0.9 in
  let unsure := observation_of_tests true 0.5 in
  SegmentStatsStore.add_observations store_of_tests [dirty; unsure; dirty]
  = Some store_of_tests.
Proof.
  apply (add_observation_rejection_gate store_of_tests
           [observation_of_tests false 0.9; observation_of_tests true 0.5;
            observation_of_tests false 0.9]).
  repeat constructor; cbn; lra.
Defined.

(** The gate lets a clean, confident observation through: the first one
    for a segment creates its statistics with a count of 1. *)
Example add_observation_accepted :
  exists store',
    SegmentStatsStore.add_observation (SegmentStatsStore.make 100)
      (observation_of_tests true 0.9) = Some store'
    /\ SegmentStatsStore.observation_count_of store' 1 = 1%Z.
Proof.
  unfold SegmentStatsStore.add_observation.
  cbn [observation_of_tests SegmentObservation.was_clean
       SegmentObservation.confidence SegmentObservation.segment_id negb].
  assert (flt 0.9 0.7 = false) as -> by (apply flt_false; lra).
  cbn [SegmentStatsStore.make SegmentStatsStore._observations
       SegmentStatsStore._stats SegmentStatsStore._max_observations].
  rewrite lookup_empty.
  cbn [SegmentStatsStore._observations SegmentStatsStore._stats
       SegmentStatsStore._max_observations].
  rewrite lookup_insert_eq. cbn [default app length Z.of_nat].
  unfold SegmentStatsStore._update_statistics.
  cbn [SegmentStatsStore._observations SegmentStatsStore._stats
       SegmentStatsStore._max_observations].
  rewrite !lookup_insert_eq. cbn.
  eexists. split; [reflexivity|].
  unfold SegmentStatsStore.observation_count_of, SegmentStatsStore.get_statistics.
  cbn [SegmentStatsStore._stats]. now rewrite lookup_insert_eq.
Qed.

(** ** Combined decay *)

Lemma fold_left_product (factors : list R) (a : R) :
  fold_left (fun combined factor => combined * factor) factors a
  = a * fold_right Rmult 1 factors.
Proof.
  revert a. induction factors as [|f factors IH]; intros a; cbn.
  - ring.
  - rewrite IH. ring.
Qed.

Lemma _combine_decay_factors_product (self : DecayManager.t)
    (decays : list (DecayTrigger.t * R)) :
  decays <> [] ->
  DecayManager._combine_decay_factors self decays
  = Rmax (fold_right Rmult 1 (dict_values decays))
         (DecayConfig.min_decay_factor (DecayManager.config self)).
Proof.
  intros Hne. unfold DecayManager._combine_decay_factors.
  destruct decays; [contradiction|].
  now rewrite fold_left_product, Rmult_1_l.
Qed.

Lemma apply_global_decay_factor (store : SegmentStatsStore.t) (f : R)
    (segment_id : Z) (s : SegmentStatistics.t) :
  SegmentStatsStore.get_statistics
    (SegmentStatsStore.apply_global_decay store f) segment_id = Some s ->
  SegmentStatistics.decay_factor s = f.
Proof.
  unfold SegmentStatsStore.get_statistics, SegmentStatsStore.apply_global_decay.
  cbn. rewrite lookup_fmap.
  destruct (SegmentStatsStore._stats store !! segment_id); cbn; [|discriminate].
  now intros [= <-].
Qed.

(** C8: when triggers fire in an [update_conditions] call, the decay
    factor applied to the store is the product of the individual trigger
    factors, floored at the configured minimum decay factor: every
    statistics the store held is still held, with that factor as its decay
    factor and nothing else changed, no statistics is added and the
    observation windows are kept; a weather change (factor 0) with a tire
    change (factor 0.3) and a minimum of 0.1 yields 0.1, not 0. *)
Theorem combined_decay_is_floored_product :
  (forall (self : DecayManager.t) (now : datetime)
          (prev current : ConditionState.t) (store : SegmentStatsStore.t),
      DecayManager._previous_conditions self = Some prev ->
      DecayManager.stats self = Some store ->
      let decays := DecayManager.triggered self prev current in
      let factor :=
        Rmax (fold_right Rmult 1 (dict_values decays))
             (DecayConfig.min_decay_factor (DecayManager.config self)) in
      decays <> [] ->
      fst (DecayManager.update_conditions self now current) = decays
      /\ DecayManager.stats (snd (DecayManager.update_conditions self now current))
         = Some (SegmentStatsStore.apply_global_decay store factor)
      /\ (forall segment_id s,
             SegmentStatsStore.get_statistics
               (SegmentStatsStore.apply_global_decay store factor) segment_id
             = Some s ->
             SegmentStatistics.decay_factor s = factor)
      /\ (forall store',
             DecayManager.stats
               (snd (DecayManager.update_conditions self now current))
             = Some store' ->
             (forall segment_id s,
                SegmentStatsStore.get_statistics store segment_id = Some s ->
                SegmentStatsStore.get_statistics store' segment_id
                = Some (SegmentStatistics.set_decay_factor factor s)
                /\ SegmentStatistics.decay_factor
                     (SegmentStatistics.set_decay_factor factor s) = factor
                /\ SegmentStatistics.observation_count
                     (SegmentStatistics.set_decay_factor factor s)
                   = SegmentStatistics.observation_count s
                /\ SegmentStatistics.confidence_weighted_count
                     (SegmentStatistics.set_decay_factor factor s)
                   = SegmentStatistics.confidence_weighted_count s)
             /\ (forall segment_id,
                   SegmentStatsStore.get_statistics store segment_id = None ->
                   SegmentStatsStore.get_statistics store' segment_id = None)
             /\ SegmentStatsStore._observations store'
                = SegmentStatsStore._observations store))
  /\ (forall self : DecayManager.t,
         DecayConfig.min_decay_factor (DecayManager.config self) = 0.1 ->
         DecayManager._combine_decay_factors self
           [(DecayTrigger.WEATHER_CHANGE, 0); (DecayTrigger.TIRE_CHANGE, 0.3)]
         = 0.1).
Proof.
  split.
  - intros self now prev current store Hprev Hstore decays factor Hne.
    unfold DecayManager.update_conditions. rewrite Hprev, Hstore.
    fold decays. cbn [fst snd DecayManager.stats].
    assert (DecayManager.stats
              (snd (DecayManager.update_conditions self now current))
            = Some (SegmentStatsStore.apply_global_decay store factor)) as Hres.
    { unfold DecayManager.update_conditions. rewrite Hprev, Hstore.
      fold decays. cbn [fst snd DecayManager.stats].
      rewrite (_combine_decay_factors_product self decays Hne). fold factor.
      clearbody factor. clearbody decays.
      destruct decays; [contradiction | reflexivity]. }
    unfold DecayManager.update_conditions in Hres. rewrite Hprev, Hstore in Hres.
    fold decays in Hres. cbn [fst snd DecayManager.stats] in Hres.
    split; [reflexivity|]. split; [exact Hres|]. split.
    + intros segment_id s. apply apply_global_decay_factor.
    + intros store'. rewrite Hres. intros [= <-].
      unfold SegmentStatsStore.get_statistics, SegmentStatsStore.apply_global_decay.
      cbn [SegmentStatsStore._stats SegmentStatsStore._observations].
      split; [|split; [|reflexivity]].
      * intros segment_id s Hs. rewrite lookup_fmap, Hs.
        repeat split; reflexivity.
      * intros segment_id Hs. now rewrite lookup_fmap, Hs.
  - intros self Hmin. rewrite _combine_decay_factors_product by discriminate.
    rewrite Hmin. cbn. apply Rmax_right. lra.
Qed.

Example triggered_weather_and_tires :
  DecayManager.triggered manager_of_tests conditions_dry conditions_wet_new_tires
  = [(DecayTrigger.WEATHER_CHANGE, 0); (DecayTrigger.TIRE_CHANGE, 0.3)].
Proof.
  unfold DecayManager.triggered.
  cbn [manager_of_tests conditions_dry conditions_wet_new_tires
       DecayManager.config DecayConfig.default
       ConditionState.is_dry ConditionState.track_temp_c
       ConditionState.surface_type ConditionState.surface_condition
       ConditionState.tire_compound ConditionState.vehicle_id
       ConditionState.last_activity
       DecayConfig.weather_change_decay DecayConfig.tire_change_decay
       DecayConfig.session_break_threshold_minutes
       Bool.eqb negb].
  assert (fge (Rabs (30 - 30)) 10 = false) as ->.
  { apply fle_false. rewrite Rminus_diag, Rabs_R0. lra. }
  assert (fgt (1 - 0) (60 * 60) = false) as -> by (apply flt_false; lra).
  reflexivity.
Qed.

Lemma combined_decay_is_floored_product_witness :
  let factor :=
    Rmax (fold_right Rmult 1
            (dict_values
               (DecayManager.triggered manager_of_tests conditions_dry
                  conditions_wet_new_tires)))
         (DecayConfig.min_decay_factor (DecayManager.config manager_of_tests)) in
  DecayManager.stats
    (snd (DecayManager.update_conditions manager_of_tests 2
            conditions_wet_new_tires))
  = Some (SegmentStatsStore.apply_global_decay store_of_tests factor)
  /\ SegmentStatsStore.get_statistics
       (SegmentStatsStore.apply_global_decay store_of_tests factor) 1
     = Some (SegmentStatistics.set_decay_factor factor (stats_of_tests 60))
  /\ SegmentStatistics.decay_factor
       (SegmentStatistics.set_decay_factor factor (stats_of_tests 60))
     = factor.
Proof.
  intros factor.
  assert (DecayManager.triggered manager_of_tests conditions_dry
            conditions_wet_new_tires <> []) as Hne
    by (rewrite triggered_weather_and_tires; discriminate).
  destruct (proj1 combined_decay_is_floored_product manager_of_tests 2
              conditions_dry conditions_wet_new_tires store_of_tests
              eq_refl eq_refl Hne) as (_ & Hres & _ & Happlied).
  split; [exact Hres|].
  destruct (Happlied _ Hres) as (Hkept & _).
  destruct (Hkept 1%Z (stats_of_tests 60)) as (Hs & Hf & _).
  - apply lookup_singleton_eq.
  - split; [exact Hs | exact Hf].
Defined.

(** The snapshots of a weather change with a tire change: every stored
    statistics ends with a decay factor of 0.1. *)
Example update_conditions_weather_and_tires :
  let self' := snd (DecayManager.update_conditions manager_of_tests 2
                      conditions_wet_new_tires) in
  DecayManager.stats self'
  = Some (SegmentStatsStore.apply_global_decay store_of_tests 0.1)
  /\ (forall store' s, DecayManager.stats self' = Some store' ->
        SegmentStatsStore.get_statistics store' 1 = Some s ->
        SegmentStatistics.decay_factor s = 0.1).
Proof.
  cbv zeta.
  assert (DecayManager.stats
            (snd (DecayManager.update_conditions manager_of_tests 2
                    conditions_wet_new_tires))
          = Some (SegmentStatsStore.apply_global_decay store_of_tests 0.1)) as Heq.
  { unfold DecayManager.update_conditions.
    cbn [manager_of_tests DecayManager._previous_conditions].
    change (DecayManager.triggered _ conditions_dry conditions_wet_new_tires)
      with (DecayManager.triggered manager_of_tests conditions_dry
              conditions_wet_new_tires).
    rewrite triggered_weather_and_tires. cbn [snd DecayManager.stats].
    rewrite _combine_decay_factors_product by discriminate.
    cbn. do 2 f_equal. apply Rmax_right. lra. }
  split; [exact Heq|].
  intros store' s. rewrite Heq. intros [= <-]. apply apply_global_decay_factor.
Qed.

(** ** The ceiling invariant of corner-speed envelopes *)

Lemma post_init_within_ceiling (e : CornerSpeedEnvelope.t) :
  CornerSpeedEnvelope.within_ceiling (CornerSpeedEnvelope.post_init e).
Proof.
  unfold CornerSpeedEnvelope.within_ceiling, CornerSpeedEnvelope.post_init.
  destruct (fgt _ _) eqn:Hgt; cbn.
  - lra.
  - now apply flt_false in Hgt.
Qed.

Lemma post_init_ceiling (e : CornerSpeedEnvelope.t) :
  CornerSpeedEnvelope.physics_ceiling_kmh (CornerSpeedEnvelope.post_init e)
  = CornerSpeedEnvelope.physics_ceiling_kmh e.
Proof.
  unfold CornerSpeedEnvelope.post_init. now destruct (fgt _ _).
Qed.

Lemma blend_with_learned_within_ceiling (e : CornerSpeedEnvelope.t)
    (learned_speed_kmh blend_weight : R) :
  CornerSpeedEnvelope.within_ceiling
    (CornerSpeedEnvelope.blend_with_learned e learned_speed_kmh blend_weight).
Proof. apply post_init_within_ceiling. Qed.

Lemma blend_with_learned_ceiling (e : CornerSpeedEnvelope.t)
    (learned_speed_kmh blend_weight : R) :
  CornerSpeedEnvelope.physics_ceiling_kmh
    (CornerSpeedEnvelope.blend_with_learned e learned_speed_kmh blend_weight)
  = CornerSpeedEnvelope.physics_ceiling_kmh e.
Proof.
  unfold CornerSpeedEnvelope.blend_with_learned, CornerSpeedEnvelope.make.
  now rewrite post_init_ceiling.
Qed.

Lemma update_from_learning_within_ceiling (self : EnvelopeManager.t)
    (segment_id : Z) (learned_speed_kmh blend_weight : R) :
  EnvelopeManager.all_within_ceiling self ->
  EnvelopeManager.all_within_ceiling
    (snd (EnvelopeManager.update_from_learning
            self segment_id learned_speed_kmh blend_weight)).
Proof.
  intros Hall. unfold EnvelopeManager.update_from_learning.
  destruct (EnvelopeManager._segment_envelopes self !! segment_id)
    as [envelope|] eqn:Hlook; [|exact Hall].
  destruct (SegmentEnvelope.corner_speed envelope) as [cs|] eqn:Hcs; [|exact Hall].
  intros sid envelope' cs'. cbn.
  destruct (decide (segment_id = sid)) as [->|Hne].
  - rewrite lookup_insert_eq. intros [= <-]. cbn. intros [= <-].
    apply blend_with_learned_within_ceiling.
  - rewrite lookup_insert_ne by assumption. apply Hall.
Qed.

(** C4: for every [CornerSpeedEnvelope], the envelope speed is at most
    the value of its physics ceiling right after construction, and this
    is preserved by [blend_with_learned], which keeps the ceiling, and by
    [EnvelopeManager.update_from_learning], for every learned speed and
    every blend weight. *)
Theorem envelope_speed_within_ceiling :
  (forall segment_id distance_start_m distance_end_m physics_ceiling_kmh
          conservative_speed_kmh learned_speed_kmh learning_confidence
          envelope_speed_kmh corner_radius_m curvature_1_per_m confidence,
      CornerSpeedEnvelope.within_ceiling
        (CornerSpeedEnvelope.make segment_id distance_start_m distance_end_m
           physics_ceiling_kmh conservative_speed_kmh learned_speed_kmh
           learning_confidence envelope_speed_kmh corner_radius_m
           curvature_1_per_m confidence))
  /\ (forall e learned_speed_kmh blend_weight,
         let e' := CornerSpeedEnvelope.blend_with_learned
                     e learned_speed_kmh blend_weight in
         CornerSpeedEnvelope.physics_ceiling_kmh e'
         = CornerSpeedEnvelope.physics_ceiling_kmh e
         /\ CornerSpeedEnvelope.envelope_speed_kmh e'
            <= PhysicsCeiling.value (CornerSpeedEnvelope.physics_ceiling_kmh e))
  /\ (forall self segment_id learned_speed_kmh blend_weight,
         EnvelopeManager.all_within_ceiling self ->
         EnvelopeManager.all_within_ceiling
           (snd (EnvelopeManager.update_from_learning
                   self segment_id learned_speed_kmh blend_weight))).
Proof.
  split; [|split].
  - intros. apply post_init_within_ceiling.
  - intros e L w e'. split; [apply blend_with_learned_ceiling|].
    rewrite <- (blend_with_learned_ceiling e L w).
    apply blend_with_learned_within_ceiling.
  - exact update_from_learning_within_ceiling.
Qed.

Lemma envelope_manager_of_tests_within_ceiling :
  EnvelopeManager.all_within_ceiling envelope_manager_of_tests.
Proof.
  intros sid envelope cs. unfold envelope_manager_of_tests. cbn.
  intros [<- <-]%lookup_singleton_Some. cbn. intros [= <-].
  apply post_init_within_ceiling.
Defined.

Lemma envelope_speed_within_ceiling_witness :
  EnvelopeManager.all_within_ceiling
    (snd (EnvelopeManager.update_from_learning envelope_manager_of_tests 1 150 0.3)).
Proof.
  apply (proj2 (proj2 envelope_speed_within_ceiling)
           envelope_manager_of_tests 1%Z 150 0.3).
  exact envelope_manager_of_tests_within_ceiling.
Defined.

(** The constructor clamps: an envelope speed of 120 km/h given with a
    ceiling of 100 km/h is stored as 100 km/h. *)
Example corner_envelope_of_tests_speed :
  CornerSpeedEnvelope.envelope_speed_kmh corner_envelope_of_tests = 100.
Proof. feval; lra. Qed.

(** A learned speed of 150 km/h at full weight: the blend is
    [0.7 * 85 + 0.3 * 150 = 104.5], stored as the ceiling, 100 km/h. *)
Example blend_with_learned_clamped :
  CornerSpeedEnvelope.envelope_speed_kmh
    (CornerSpeedEnvelope.blend_with_learned corner_envelope_of_tests 150 1)
  = 100.
Proof. feval; lra. Qed.

(** ** The friction circle *)

Lemma fdiv_Some (a b : R) : b <> 0 -> fdiv a b = Some (a / b).
Proof. intros Hb. unfold fdiv. now destruct (Req_dec_T b 0). Qed.

(** What [compute_grip_usage] reports is the norm of the fractions before
    shaping. *)
Lemma compute_grip_usage_total (self : FrictionCircleEnforcer.t)
    (longitudinal_g lateral_g max_longitudinal_g max_lateral_g : R)
    (e : CombinedGripEnvelope.t) :
  FrictionCircleEnforcer.compute_grip_usage self longitudinal_g lateral_g
    max_longitudinal_g max_lateral_g = Some e ->
  CombinedGripEnvelope.total_grip_used e
  = sqrt ((Rabs longitudinal_g / max_longitudinal_g) ^ 2
          + (Rabs lateral_g / max_lateral_g) ^ 2).
Proof.
  unfold FrictionCircleEnforcer.compute_grip_usage, fdiv.
  destruct (Req_dec_T max_longitudinal_g 0);
    cbn [mbind option_bind]; [discriminate|].
  destruct (Req_dec_T max_lateral_g 0);
    cbn [mbind option_bind]; [discriminate|].
  destruct (Req_dec_T (FrictionCircleConfig.longitudinal_factor _) 0);
    cbn [mbind option_bind]; [discriminate|].
  destruct (Req_dec_T (FrictionCircleConfig.lateral_factor _) 0);
    cbn [mbind option_bind]; [discriminate|].
  destruct (PhysicsCeiling.make _ _ _); cbn [mbind option_bind]; [|discriminate].
  now intros [= <-].
Qed.

(** C9 fails on the code: with a longitudinal shape factor of 0.5, a
    longitudinal acceleration of 0.3 g and no lateral acceleration, the
    shaped fractions are 0.6 and 0, whose norm is 0.6, but the envelope
    [compute_grip_usage] returns reports a total grip usage of 0.3. *)
Theorem compute_grip_usage_ignores_shape_factors :
  exists e sh,
    FrictionCircleEnforcer.compute_grip_usage enforcer_ellipse 0.3 0 1 1.2
    = Some e
    /\ FrictionCircleEnforcer.shaped_usage enforcer_ellipse 0.3 0 1 1.2
       = Some sh
    /\ FrictionCircleEnforcer.fx_shaped sh = 0.6
    /\ FrictionCircleEnforcer.fy_shaped sh = 0
    /\ sqrt (FrictionCircleEnforcer.fx_shaped sh ^ 2
             + FrictionCircleEnforcer.fy_shaped sh ^ 2) = 0.6
    /\ CombinedGripEnvelope.total_grip_used e = 0.3.
Proof.
  assert (Rabs 0.3 = 0.3) as Ha by (apply Rabs_pos_eq; lra).
  assert (forall x, 0 <= x -> sqrt (x ^ 2 + 0 ^ 2) = x) as Hsqrt.
  { intros x Hx. replace (x ^ 2 + 0 ^ 2) with (x ^ 2) by ring.
    now apply sqrt_pow2. }
  unfold FrictionCircleEnforcer.compute_grip_usage,
    FrictionCircleEnforcer.shaped_usage.
  cbn [enforcer_ellipse FrictionCircleEnforcer.config
       FrictionCircleConfig.longitudinal_factor
       FrictionCircleConfig.lateral_factor
       FrictionCircleConfig.max_grip_normalized
       FrictionCircleConfig.stability_margin].
  rewrite Ha, Rabs_R0.
  rewrite (fdiv_Some 0.3 1), (fdiv_Some 0 1.2) by lra. cbn [mbind option_bind].
  rewrite (fdiv_Some (0.3 / 1) 0.5), (fdiv_Some (0 / 1.2) 1) by lra.
  cbn [mbind option_bind].
  unfold PhysicsCeiling.make.
  assert (flt 1 0 = false) as -> by (apply flt_false; lra).
  cbn [mbind option_bind].
  eexists. eexists. split; [reflexivity|]. split; [reflexivity|].
  cbn [FrictionCircleEnforcer.fx_shaped FrictionCircleEnforcer.fy_shaped
       CombinedGripEnvelope.total_grip_used
       CombinedGripEnvelope.longitudinal_grip_used
       CombinedGripEnvelope.lateral_grip_used].
  replace (0.3 / 1 / 0.5) with 0.6 by lra.
  replace (0 / 1.2 / 1) with 0 by lra.
  replace (0.3 / 1) with 0.3 by lra.
  replace (0 / 1.2) with 0 by lra.
  split; [reflexivity|]. split; [reflexivity|].
  split; apply Hsqrt; lra.
Qed.

(** With both shape factors at 1, as in the default configuration, the
    reported total is the norm of the shaped fractions. *)
Lemma compute_grip_usage_circle (self : FrictionCircleEnforcer.t)
    (longitudinal_g lateral_g max_longitudinal_g max_lateral_g : R)
    (e : CombinedGripEnvelope.t) (sh : FrictionCircleEnforcer.shaped) :
  FrictionCircleConfig.longitudinal_factor (FrictionCircleEnforcer.config self) = 1 ->
  FrictionCircleConfig.lateral_factor (FrictionCircleEnforcer.config self) = 1 ->
  FrictionCircleEnforcer.compute_grip_usage self longitudinal_g lateral_g
    max_longitudinal_g max_lateral_g = Some e ->
  FrictionCircleEnforcer.shaped_usage self longitudinal_g lateral_g
    max_longitudinal_g max_lateral_g = Some sh ->
  CombinedGripEnvelope.total_grip_used e
  = sqrt (FrictionCircleEnforcer.fx_shaped sh ^ 2
          + FrictionCircleEnforcer.fy_shaped sh ^ 2).
Proof.
  intros Hx Hy He. rewrite (compute_grip_usage_total _ _ _ _ _ _ He). clear He.
  unfold FrictionCircleEnforcer.shaped_usage, fdiv. rewrite Hx, Hy.
  destruct (Req_dec_T max_longitudinal_g 0);
    cbn [mbind option_bind]; [discriminate|].
  destruct (Req_dec_T max_lateral_g 0);
    cbn [mbind option_bind]; [discriminate|].
  destruct (Req_dec_T 1 0); [lra|]. cbn [mbind option_bind].
  intros [= <-].
  cbn [FrictionCircleEnforcer.fx_shaped FrictionCircleEnforcer.fy_shaped].
  f_equal. lra.
Qed.

(** * Further properties of the modelled code *)

(** ** The statistics store: accepted observations *)

Lemma accepted_gate (o : SegmentObservation.t) :
  SegmentStatsStore.accepted o ->
  negb (SegmentObservation.was_clean o) = false
  /\ flt (SegmentObservation.confidence o) 0.7 = false.
Proof.
  intros [Hc Hconf]. rewrite Hc. split; [reflexivity|]. now apply flt_false.
Qed.

(** The store [add_observation] returns for an accepted observation, with
    the statistics map left open: the window of the segment is the old one
    with the observation appended and, past the capacity, its head
    dropped. *)
Lemma add_observation_accepted_result (store : SegmentStatsStore.t)
    (o : SegmentObservation.t) :
  SegmentStatsStore.accepted o -> SegmentStatsStore.consistent store ->
  let sid := SegmentObservation.segment_id o in
  let appended := SegmentStatsStore.window store sid ++ [o] in
  let w := if (Z.of_nat (length appended)
               >? SegmentStatsStore._max_observations store)%Z
           then tail appended else appended in
  let old_decay :=
    match SegmentStatsStore._observations store !! sid with
    | Some _ => from_option SegmentStatistics.decay_factor 1
                  (SegmentStatsStore._stats store !! sid)
    | None => 1
    end in
  exists stats' s0,
    SegmentStatsStore.add_observation store o
    = Some {| SegmentStatsStore._stats := stats';
              SegmentStatsStore._observations :=
                <[sid := w]> (SegmentStatsStore._observations store);
              SegmentStatsStore._max_observations :=
                SegmentStatsStore._max_observations store |}
    /\ (forall sid', sid' <> sid ->
          stats' !! sid' = SegmentStatsStore._stats store !! sid')
    /\ SegmentStatistics.decay_factor s0 = old_decay
    /\ SegmentStatistics.segment_id s0
       = match SegmentStatsStore._observations store !! sid with
         | Some _ => from_option SegmentStatistics.segment_id sid
                       (SegmentStatsStore._stats store !! sid)
         | None => sid
         end
    /\ stats' !! sid
       = Some (match w with
               | [] => s0
               | _ => SegmentStatsStore.recompute s0 w
               end).
Proof.
  intros Hacc Hcons. cbv zeta.
  destruct (accepted_gate o Hacc) as [Hc Hconf].
  unfold SegmentStatsStore.add_observation, SegmentStatsStore.window.
  rewrite Hc, Hconf.
  set (sid := SegmentObservation.segment_id o).
  destruct (SegmentStatsStore._observations store !! sid) as [w0|] eqn:Hw0.
  - (* the segment has a window, hence statistics *)
    destruct (Hcons sid w0 Hw0) as [s0 Hs0].
    cbn [SegmentStatsStore._observations SegmentStatsStore._stats
         SegmentStatsStore._max_observations].
    rewrite Hw0, Hs0. cbn [from_option Datatypes.id].
    remember (if (Z.of_nat (length (w0 ++ [o]))
                  >? SegmentStatsStore._max_observations store)%Z
              then tail (w0 ++ [o]) else w0 ++ [o]) as w eqn:Hw.
    unfold SegmentStatsStore._update_statistics.
    cbn [SegmentStatsStore._observations SegmentStatsStore._stats
         SegmentStatsStore._max_observations].
    rewrite lookup_insert_eq, Hs0. cbn [from_option Datatypes.id].
    destruct w as [|o1 w1].
    + exists (SegmentStatsStore._stats store), s0.
      repeat split; try reflexivity. assumption.
    + cbn [mbind option_bind].
      exists (<[sid := SegmentStatsStore.recompute s0 (o1 :: w1)]>
                (SegmentStatsStore._stats store)), s0.
      split; [reflexivity|]. split.
      { intros sid' Hne. now rewrite lookup_insert_ne. }
      split; [reflexivity|]. split; [reflexivity|].
      now rewrite lookup_insert_eq.
  - (* a new segment *)
    cbn [SegmentStatsStore._observations SegmentStatsStore._stats
         SegmentStatsStore._max_observations].
    rewrite lookup_insert_eq. cbn [from_option Datatypes.id].
    remember (if (Z.of_nat (length ([] ++ [o]))
                  >? SegmentStatsStore._max_observations store)%Z
              then tail ([] ++ [o]) else [] ++ [o]) as w eqn:Hw.
    unfold SegmentStatsStore._update_statistics.
    cbn [SegmentStatsStore._observations SegmentStatsStore._stats
         SegmentStatsStore._max_observations].
    rewrite insert_insert_eq, !lookup_insert_eq. cbn [from_option Datatypes.id].
    destruct w as [|o1 w1].
    + exists (<[sid := SegmentStatistics.make sid]>
                (SegmentStatsStore._stats store)), (SegmentStatistics.make sid).
      split; [reflexivity|]. split.
      { intros sid' Hne. now rewrite lookup_insert_ne. }
      split; [reflexivity|]. split; [reflexivity|].
      now rewrite lookup_insert_eq.
    + cbn [mbind option_bind].
      exists (<[sid := SegmentStatsStore.recompute (SegmentStatistics.make sid)
                         (o1 :: w1)]>
                (<[sid := SegmentStatistics.make sid]>
                   (SegmentStatsStore._stats store))),
             (SegmentStatistics.make sid).
      split; [reflexivity|]. split.
      { intros sid' Hne. now rewrite !lookup_insert_ne. }
      split; [reflexivity|]. split; [reflexivity|].
      now rewrite lookup_insert_eq.
Qed.

Lemma accepted_or_rejected (o : SegmentObservation.t) :
  SegmentStatsStore.accepted o
  \/ (SegmentObservation.was_clean o = false
      \/ SegmentObservation.confidence o < 0.7).
Proof.
  unfold SegmentStatsStore.accepted.
  destruct (SegmentObservation.was_clean o); [|now right; left].
  destruct (Rlt_dec (SegmentObservation.confidence o) 0.7); [now right; right|].
  left. split; [reflexivity | lra].
Qed.

Lemma trimmed_length (A : Type) (l : list A) (x : A) (cap : Z) :
  (0 <= cap)%Z -> (Z.of_nat (length l) <= cap)%Z ->
  let appended := l ++ [x] in
  let w := if (Z.of_nat (length appended) >? cap)%Z
           then tail appended else appended in
  Z.of_nat (length w) = Z.min (Z.of_nat (length l) + 1) cap.
Proof.
  intros Hcap Hl appended w. subst w appended.
  rewrite length_app. cbn [length].
  destruct (Z.gtb_spec (Z.of_nat (length l + 1)) cap) as [Hgt|Hle].
  - destruct l as [|y l]; cbn [app tail length] in *;
      rewrite ?length_app in *; cbn [length] in *; lia.
  - rewrite length_app. cbn [length]. lia.
Qed.

(** One call: on a store in which every windowed segment has statistics
    and no window exceeds a non-negative capacity, [add_observation] does
    not raise and returns a store with the same two properties. *)
Lemma add_observation_sound_step (store : SegmentStatsStore.t)
    (o : SegmentObservation.t) :
  SegmentStatsStore.consistent store -> SegmentStatsStore.bounded store ->
  (0 <= SegmentStatsStore._max_observations store)%Z ->
  exists store',
    SegmentStatsStore.add_observation store o = Some store'
    /\ SegmentStatsStore.consistent store'
    /\ SegmentStatsStore.bounded store'
    /\ SegmentStatsStore._max_observations store'
       = SegmentStatsStore._max_observations store.
Proof.
  intros Hcons Hbound Hcap.
  destruct (accepted_or_rejected o) as [Hacc|Hrej].
  - destruct (add_observation_accepted_result store o Hacc Hcons)
      as (stats' & s0 & Heq & Hother & _ & _ & Hsid).
    eexists. split; [exact Heq|].
    set (sid := SegmentObservation.segment_id o) in *.
    split; [|split; [|reflexivity]].
    + intros sid' obs. cbn.
      destruct (decide (sid' = sid)) as [->|Hne].
      * intros _. rewrite Hsid. eauto.
      * rewrite lookup_insert_ne by congruence. rewrite Hother by assumption.
        apply Hcons.
    + intros sid' obs. cbn.
      destruct (decide (sid' = sid)) as [->|Hne].
      * rewrite lookup_insert_eq. intros [= <-].
        assert (Z.of_nat (length (SegmentStatsStore.window store sid))
                <= SegmentStatsStore._max_observations store)%Z as Hw.
        { unfold SegmentStatsStore.window.
          destruct (SegmentStatsStore._observations store !! sid) eqn:Hl;
            cbn; [now apply (Hbound sid) | lia]. }
        rewrite trimmed_length by assumption. lia.
      * rewrite lookup_insert_ne by congruence. apply Hbound.
  - exists store. rewrite add_observation_rejected by assumption. auto.
Qed.

Lemma fresh_store_sound (max_observations : Z) :
  SegmentStatsStore.consistent (SegmentStatsStore.make max_observations)
  /\ SegmentStatsStore.bounded (SegmentStatsStore.make max_observations).
Proof.
  split; intros sid w; cbn; rewrite lookup_empty; discriminate.
Defined.

(** X1: on a store in which every windowed segment has statistics and no
    window exceeds a non-negative capacity, as a fresh store is, any run
    of [add_observation] calls completes without an exception and leaves a
    store with the same two properties and the same capacity. *)
Theorem add_observations_keep_store_sound (store : SegmentStatsStore.t)
    (obs : list SegmentObservation.t) :
  SegmentStatsStore.consistent store -> SegmentStatsStore.bounded store ->
  (0 <= SegmentStatsStore._max_observations store)%Z ->
  exists store',
    SegmentStatsStore.add_observations store obs = Some store'
    /\ SegmentStatsStore.consistent store'
    /\ SegmentStatsStore.bounded store'
    /\ SegmentStatsStore._max_observations store'
       = SegmentStatsStore._max_observations store.
Proof.
  revert store. induction obs as [|o obs IH]; intros store Hc Hb Hm.
  - exists store. cbn. auto.
  - destruct (add_observation_sound_step store o Hc Hb Hm)
      as (store1 & Heq & Hc1 & Hb1 & Hm1).
    destruct (IH store1 Hc1 Hb1) as (store2 & Heq2 & Hc2 & Hb2 & Hm2);
      [lia|].
    exists store2. cbn. rewrite Heq. cbn. rewrite Heq2.
    repeat split; try assumption. congruence.
Qed.

Lemma add_observations_keep_store_sound_witness :
  exists store',
    SegmentStatsStore.add_observations (SegmentStatsStore.make 1)
      [observation_of_tests true 0.9; observation_of_tests false 0.9;
       observation_of_tests true 0.8] = Some store'
    /\ SegmentStatsStore.consistent store'
    /\ SegmentStatsStore.bounded store'
    /\ SegmentStatsStore._max_observations store'
       = SegmentStatsStore._max_observations (SegmentStatsStore.make 1).
Proof.
  apply (add_observations_keep_store_sound (SegmentStatsStore.make 1)).
  - apply fresh_store_sound.
  - apply fresh_store_sound.
  - cbn. lia.
Defined.

(** X2: an accepted observation is appended to the window of its segment,
    the oldest one being dropped once the capacity is exceeded; with a
    capacity of at least 1 the statistics of the segment then count
    exactly the observations of the window, [min (n + 1) capacity] of
    them, and weigh them by the sum of their confidences. *)
Theorem add_observation_window_and_count (store : SegmentStatsStore.t)
    (o : SegmentObservation.t) :
  SegmentStatsStore.accepted o ->
  SegmentStatsStore.consistent store -> SegmentStatsStore.bounded store ->
  (1 <= SegmentStatsStore._max_observations store)%Z ->
  let sid := SegmentObservation.segment_id o in
  let old := SegmentStatsStore.window store sid in
  exists store' s',
    SegmentStatsStore.add_observation store o = Some store'
    /\ SegmentStatsStore.window store' sid
       = (if (Z.of_nat (length (old ++ [o]))
              >? SegmentStatsStore._max_observations store)%Z
          then tail (old ++ [o]) else old ++ [o])
    /\ SegmentStatsStore.get_statistics store' sid = Some s'
    /\ SegmentStatistics.observation_count s'
       = Z.of_nat (length (SegmentStatsStore.window store' sid))
    /\ SegmentStatistics.observation_count s'
       = Z.min (Z.of_nat (length old) + 1)
               (SegmentStatsStore._max_observations store)
    /\ SegmentStatistics.confidence_weighted_count s'
       = np.sum (map SegmentObservation.confidence
                   (SegmentStatsStore.window store' sid)).
Proof.
  intros Hacc Hcons Hbound Hcap sid old.
  destruct (add_observation_accepted_result store o Hacc Hcons)
    as (stats' & s0 & Heq & _ & _ & _ & Hsid).
  fold sid in Heq, Hsid. fold old in Heq, Hsid.
  assert (Z.of_nat (length old) <= SegmentStatsStore._max_observations store)%Z
    as Hold.
  { subst old. unfold SegmentStatsStore.window.
    destruct (SegmentStatsStore._observations store !! sid) eqn:Hl;
      cbn; [now apply (Hbound sid) | lia]. }
  assert (0 <= SegmentStatsStore._max_observations store)%Z as Hcap0 by lia.
  pose proof (trimmed_length _ old o _ Hcap0 Hold) as Hlen.
  cbv zeta in Hlen.
  remember (if (Z.of_nat (length (old ++ [o]))
                >? SegmentStatsStore._max_observations store)%Z
            then tail (old ++ [o]) else old ++ [o]) as w eqn:Hw.
  destruct w as [|o1 w1]; [cbn [length] in Hlen; lia|].
  eexists. eexists. split; [exact Heq|].
  unfold SegmentStatsStore.window, SegmentStatsStore.get_statistics.
  cbn [SegmentStatsStore._observations SegmentStatsStore._stats].
  rewrite lookup_insert_eq. cbn [from_option Datatypes.id].
  split; [reflexivity|]. split; [exact Hsid|].
  cbn [SegmentStatsStore.recompute SegmentStatistics.observation_count
       SegmentStatistics.confidence_weighted_count].
  split; [reflexivity|]. split; [|reflexivity].
  exact Hlen.
Qed.

Lemma add_observation_window_and_count_witness :
  let o := observation_of_tests true 0.9 in
  let store := SegmentStatsStore.make 100 in
  let sid := SegmentObservation.segment_id o in
  let old := SegmentStatsStore.window store sid in
  exists store' s',
    SegmentStatsStore.add_observation store o = Some store'
    /\ SegmentStatsStore.window store' sid
       = (if (Z.of_nat (length (old ++ [o]))
              >? SegmentStatsStore._max_observations store)%Z
          then tail (old ++ [o]) else old ++ [o])
    /\ SegmentStatsStore.get_statistics store' sid = Some s'
    /\ SegmentStatistics.observation_count s'
       = Z.of_nat (length (SegmentStatsStore.window store' sid))
    /\ SegmentStatistics.observation_count s'
       = Z.min (Z.of_nat (length old) + 1)
               (SegmentStatsStore._max_observations store)
    /\ SegmentStatistics.confidence_weighted_count s'
       = np.sum (map SegmentObservation.confidence
                   (SegmentStatsStore.window store' sid)).
Proof.
  apply (add_observation_window_and_count (SegmentStatsStore.make 100)
           (observation_of_tests true 0.9)).
  - split; [reflexivity | cbn; lra].
  - intros sid obs. cbn. rewrite lookup_empty. discriminate.
  - intros sid obs. cbn. rewrite lookup_empty. discriminate.
  - cbn. lia.
Defined.

(** X3: an accepted observation leaves the decay factor of its segment as
    it was (1 for a segment seen for the first time) and touches neither
    the window nor the statistics of any other segment. *)
Theorem add_observation_keeps_decay_and_others (store : SegmentStatsStore.t)
    (o : SegmentObservation.t) :
  SegmentStatsStore.accepted o -> SegmentStatsStore.consistent store ->
  let sid := SegmentObservation.segment_id o in
  exists store' s',
    SegmentStatsStore.add_observation store o = Some store'
    /\ SegmentStatsStore.get_statistics store' sid = Some s'
    /\ SegmentStatistics.decay_factor s'
       = match SegmentStatsStore._observations store !! sid with
         | Some _ => from_option SegmentStatistics.decay_factor 1
                       (SegmentStatsStore.get_statistics store sid)
         | None => 1
         end
    /\ (forall sid', sid' <> sid ->
          SegmentStatsStore.get_statistics store' sid'
          = SegmentStatsStore.get_statistics store sid'
          /\ SegmentStatsStore._observations store' !! sid'
             = SegmentStatsStore._observations store !! sid').
Proof.
  intros Hacc Hcons sid.
  destruct (add_observation_accepted_result store o Hacc Hcons)
    as (stats' & s0 & Heq & Hother & Hdecay & _ & Hsid).
  fold sid in Heq, Hsid, Hother, Hdecay.
  eexists. eexists. split; [exact Heq|].
  unfold SegmentStatsStore.get_statistics. cbn.
  split; [exact Hsid|]. split.
  - rewrite <- Hdecay.
    match goal with
    | |- context [match ?w with [] => _ | _ :: _ => _ end] => destruct w
    end; reflexivity.
  - intros sid' Hne. split; [now apply Hother|].
    now rewrite lookup_insert_ne by congruence.
Qed.

Lemma add_observation_keeps_decay_and_others_witness :
  let o := observation_of_tests true 0.9 in
  let store := SegmentStatsStore.make 100 in
  let sid := SegmentObservation.segment_id o in
  exists store' s',
    SegmentStatsStore.add_observation store o = Some store'
    /\ SegmentStatsStore.get_statistics store' sid = Some s'
    /\ SegmentStatistics.decay_factor s'
       = match SegmentStatsStore._observations store !! sid with
         | Some _ => from_option SegmentStatistics.decay_factor 1
                       (SegmentStatsStore.get_statistics store sid)
         | None => 1
         end
    /\ (forall sid', sid' <> sid ->
          SegmentStatsStore.get_statistics store' sid'
          = SegmentStatsStore.get_statistics store sid'
          /\ SegmentStatsStore._observations store' !! sid'
             = SegmentStatsStore._observations store !! sid').
Proof.
  apply (add_observation_keeps_decay_and_others (SegmentStatsStore.make 100)
           (observation_of_tests true 0.9)).
  - split; [reflexivity | cbn; lra].
  - intros sid obs. cbn. rewrite lookup_empty. discriminate.
Defined.

(** ** The statistics store: what recomputed statistics satisfy *)

Lemma fold_left_Rmin_le (l : list R) (a : R) :
  fold_left Rmin l a <= a /\ Forall (fun x => fold_left Rmin l a <= x) l.
Proof.
  revert a. induction l as [|y l IH]; intros a; cbn.
  - split; [lra | constructor].
  - destruct (IH (Rmin a y)) as [H1 H2].
    pose proof (Rmin_l a y). pose proof (Rmin_r a y).
    split; [lra|]. constructor; [lra | exact H2].
Qed.

Lemma fold_left_Rmax_ge (l : list R) (a : R) :
  a <= fold_left Rmax l a /\ Forall (fun x => x <= fold_left Rmax l a) l.
Proof.
  revert a. induction l as [|y l IH]; intros a; cbn.
  - split; [lra | constructor].
  - destruct (IH (Rmax a y)) as [H1 H2].
    pose proof (Rmax_l a y). pose proof (Rmax_r a y).
    split; [lra|]. constructor; [lra | exact H2].
Qed.

Lemma np_min_le (l : list R) : Forall (fun x => np.min l <= x) l.
Proof.
  destruct l as [|a l]; [constructor|]. cbn.
  destruct (fold_left_Rmin_le l a). now constructor.
Qed.

Lemma np_max_ge (l : list R) : Forall (fun x => x <= np.max l) l.
Proof.
  destruct l as [|a l]; [constructor|]. cbn.
  destruct (fold_left_Rmax_ge l a). now constructor.
Qed.

Lemma np_sum_bounds (l : list R) (lo hi : R) :
  Forall (fun x => lo <= x) l -> Forall (fun x => x <= hi) l ->
  INR (length l) * lo <= np.sum l <= INR (length l) * hi.
Proof.
  induction l as [|a l IH]; intros Hlo Hhi.
  - cbn. lra.
  - inversion Hlo; inversion Hhi; subst.
    change (np.sum (a :: l)) with (a + np.sum l).
    change (length (a :: l)) with (S (length l)). rewrite S_INR.
    specialize (IH ltac:(assumption) ltac:(assumption)). lra.
Qed.

Lemma np_mean_between (l : list R) :
  l <> [] -> np.min l <= np.mean l <= np.max l.
Proof.
  intros Hne.
  assert (0 < INR (length l)) as Hn.
  { apply lt_0_INR. destruct l; [contradiction | cbn; lia]. }
  destruct (np_sum_bounds l (np.min l) (np.max l) (np_min_le l) (np_max_ge l))
    as [Hlo Hhi].
  unfold np.mean. split.
  - apply Rmult_le_reg_l with (INR (length l)); [assumption|].
    replace (INR (length l) * (np.sum l / INR (length l))) with (np.sum l)
      by (field; lra). exact Hlo.
  - apply Rmult_le_reg_l with (INR (length l)); [assumption|].
    replace (INR (length l) * (np.sum l / INR (length l))) with (np.sum l)
      by (field; lra). exact Hhi.
Qed.

Lemma np_std_nonneg (l : list R) : 0 <= np.std l.
Proof. unfold np.std. apply sqrt_pos. Qed.

(** X4: when [_update_statistics] recomputes the statistics of a segment
    from a non-empty window, the latest brake point is at most the mean
    brake point, the mean entry speed at most the maximum, and both
    deviations are non-negative; hence the conservative brake estimate
    lies between the latest and the mean brake point, and the entry-speed
    estimate [min (mean + 2 std) max] between the mean and the maximum. *)
Theorem updated_statistics_are_ordered (store : SegmentStatsStore.t)
    (segment_id : Z) :
  SegmentStatsStore.window store segment_id <> [] ->
  is_Some (SegmentStatsStore._stats store !! segment_id) ->
  exists store' s',
    SegmentStatsStore._update_statistics store segment_id = Some store'
    /\ SegmentStatsStore.get_statistics store' segment_id = Some s'
    /\ SegmentStatistics.brake_point_latest_m s'
       <= SegmentStatistics.conservative_learned s'
       <= SegmentStatistics.brake_point_mean_m s'
    /\ SegmentStatistics.entry_speed_mean_kmh s'
       <= Rmin (SegmentStatistics.entry_speed_mean_kmh s'
                + 2 * SegmentStatistics.entry_speed_std_kmh s')
               (SegmentStatistics.entry_speed_max_kmh s')
       <= SegmentStatistics.entry_speed_max_kmh s'
    /\ 0 <= SegmentStatistics.entry_speed_std_kmh s'
    /\ 0 <= SegmentStatistics.brake_point_std_m s'.
Proof.
  intros Hne [s0 Hs0]. unfold SegmentStatsStore._update_statistics.
  unfold SegmentStatsStore.window in Hne.
  destruct (default [] (SegmentStatsStore._observations store !! segment_id))
    as [|o w] eqn:Hw; [contradiction|].
  rewrite Hs0. cbn [mbind option_bind].
  eexists. eexists. split; [reflexivity|].
  unfold SegmentStatsStore.get_statistics.
  cbn [SegmentStatsStore._stats]. rewrite lookup_insert_eq.
  split; [reflexivity|].
  unfold SegmentStatistics.conservative_learned.
  cbn [SegmentStatsStore.recompute
       SegmentStatistics.brake_point_latest_m SegmentStatistics.brake_point_mean_m
       SegmentStatistics.brake_point_std_m SegmentStatistics.entry_speed_mean_kmh
       SegmentStatistics.entry_speed_std_kmh SegmentStatistics.entry_speed_max_kmh].
  set (bps := map SegmentObservation.brake_point_distance_m (o :: w)).
  set (evs := map SegmentObservation.entry_speed_kmh (o :: w)).
  assert (bps <> []) as Hb by discriminate.
  assert (evs <> []) as He by discriminate.
  pose proof (np_mean_between bps Hb) as [Hb1 Hb2].
  pose proof (np_mean_between evs He) as [He1 He2].
  pose proof (np_std_nonneg bps). pose proof (np_std_nonneg evs).
  repeat split; try assumption.
  - apply Rmax_l.
  - apply Rmax_lub; lra.
  - apply Rmin_glb; lra.
  - apply Rmin_r.
Qed.

Lemma updated_statistics_are_ordered_witness :
  let store :=
    {| SegmentStatsStore._stats := {[ 1%Z := SegmentStatistics.make 1 ]};
       SegmentStatsStore._observations :=
         {[ 1%Z := [observation_of_tests true 0.9] ]};
       SegmentStatsStore._max_observations := 100 |} in
  exists store' s',
    SegmentStatsStore._update_statistics store 1 = Some store'
    /\ SegmentStatsStore.get_statistics store' 1 = Some s'
    /\ SegmentStatistics.brake_point_latest_m s'
       <= SegmentStatistics.conservative_learned s'
       <= SegmentStatistics.brake_point_mean_m s'
    /\ SegmentStatistics.entry_speed_mean_kmh s'
       <= Rmin (SegmentStatistics.entry_speed_mean_kmh s'
                + 2 * SegmentStatistics.entry_speed_std_kmh s')
               (SegmentStatistics.entry_speed_max_kmh s')
       <= SegmentStatistics.entry_speed_max_kmh s'
    /\ 0 <= SegmentStatistics.entry_speed_std_kmh s'
    /\ 0 <= SegmentStatistics.brake_point_std_m s'.
Proof.
  apply (updated_statistics_are_ordered
           {| SegmentStatsStore._stats := {[ 1%Z := SegmentStatistics.make 1 ]};
              SegmentStatsStore._observations :=
                {[ 1%Z := [observation_of_tests true 0.9] ]};
              SegmentStatsStore._max_observations := 100 |} 1%Z).
  - unfold SegmentStatsStore.window. cbn. rewrite lookup_singleton_eq.
    discriminate.
  - cbn. rewrite lookup_singleton_eq. eauto.
Defined.

(** ** Decay: which triggers fire, and what they apply *)

Lemma dict_set_keys {K V} `{EqDecision K} (k k' : K) (v : V) (d : list (K * V)) :
  In k (dict_keys (dict_set k' v d)) <-> k = k' \/ In k (dict_keys d).
Proof.
  induction d as [|[k0 v0] d IH]; cbn.
  - intuition congruence.
  - destruct (decide (k' = k0)) as [->|Hne]; cbn.
    + intuition congruence.
    + rewrite IH. intuition congruence.
Qed.

Lemma dict_set_values {K V} `{EqDecision K} (P : V -> Prop) (k : K) (v : V)
    (d : list (K * V)) :
  P v -> Forall P (dict_values d) -> Forall P (dict_values (dict_set k v d)).
Proof.
  intros Hv. induction d as [|[k0 v0] d IH]; cbn; intros Hd.
  - now constructor.
  - inversion Hd; subst.
    destruct (decide (k = k0)); cbn; constructor; auto.
Qed.

Lemma keys_of_conditional {K V} `{EqDecision K} (b : bool) (k k' : K) (v : V)
    (d : list (K * V)) :
  In k (dict_keys (if b then dict_set k' v d else d))
  <-> (b = true /\ k = k') \/ In k (dict_keys d).
Proof.
  destruct b; [rewrite dict_set_keys|]; intuition congruence.
Qed.

Lemma values_of_conditional {K V} `{EqDecision K} (P : V -> Prop) (b : bool)
    (k : K) (v : V) (d : list (K * V)) :
  P v -> Forall P (dict_values d) ->
  Forall P (dict_values (if b then dict_set k v d else d)).
Proof. destruct b; [apply dict_set_values | auto]. Qed.

Lemma fge_true (a b : R) : fge a b = true <-> b <= a.
Proof. apply fle_true. Qed.

Lemma fgt_true (a b : R) : fgt a b = true <-> b < a.
Proof. apply flt_true. Qed.

Lemma negb_eqb_true (a b : bool) : negb (Bool.eqb a b) = true <-> a <> b.
Proof. destruct a, b; cbn; intuition congruence. Qed.

(** X5: given a previous snapshot, the dictionary [update_conditions]
    returns has a key for a trigger exactly when its condition holds
    between the two snapshots: a weather flip, a track temperature change
    of at least 10 degrees, a change of surface type or condition, a gap
    in activity above the session-break threshold, a change of tire
    compound, a change between two non-empty vehicle ids; the other
    triggers are never returned. *)
Theorem update_conditions_triggers (self : DecayManager.t) (now : datetime)
    (prev current : ConditionState.t) :
  DecayManager._previous_conditions self = Some prev ->
  let keys := dict_keys (fst (DecayManager.update_conditions self now current)) in
  (In DecayTrigger.WEATHER_CHANGE keys
   <-> ConditionState.is_dry current <> ConditionState.is_dry prev)
  /\ (In DecayTrigger.TEMPERATURE_CHANGE keys
      <-> 10 <= Rabs (ConditionState.track_temp_c current
                      - ConditionState.track_temp_c prev))
  /\ (In DecayTrigger.SURFACE_CHANGE keys
      <-> ConditionState.surface_type current <> ConditionState.surface_type prev
          \/ ConditionState.surface_condition current
             <> ConditionState.surface_condition prev)
  /\ (In DecayTrigger.LONG_BREAK keys
      <-> DecayConfig.session_break_threshold_minutes (DecayManager.config self) * 60
          < ConditionState.last_activity current - ConditionState.last_activity prev)
  /\ (In DecayTrigger.TIRE_CHANGE keys
      <-> ConditionState.tire_compound current <> ConditionState.tire_compound prev)
  /\ (In DecayTrigger.VEHICLE_CHANGE keys
      <-> ConditionState.vehicle_id current <> ""
          /\ ConditionState.vehicle_id prev <> ""
          /\ ConditionState.vehicle_id current <> ConditionState.vehicle_id prev)
  /\ ~ In DecayTrigger.NONE keys
  /\ ~ In DecayTrigger.NEW_SESSION keys
  /\ ~ In DecayTrigger.MANUAL_RESET keys
  /\ ~ In DecayTrigger.DATA_AGE keys.
Proof.
  intros Hprev keys. subst keys.
  unfold DecayManager.update_conditions. rewrite Hprev. cbn [fst].
  unfold DecayManager.triggered.
  repeat split; intros;
    repeat rewrite keys_of_conditional in *; cbn [dict_keys map In] in *;
    rewrite ?negb_eqb_true, ?fge_true, ?fgt_true, ?orb_true_iff,
      ?andb_true_iff, ?bool_decide_eq_true in *;
    try solve [intuition congruence].
Qed.

Lemma update_conditions_triggers_witness :
  let keys := dict_keys (fst (DecayManager.update_conditions manager_of_tests 2
                                conditions_wet_new_tires)) in
  In DecayTrigger.WEATHER_CHANGE keys
  <-> ConditionState.is_dry conditions_wet_new_tires
      <> ConditionState.is_dry conditions_dry.
Proof.
  apply (update_conditions_triggers manager_of_tests 2 conditions_dry
           conditions_wet_new_tires).
  reflexivity.
Defined.

Lemma bool_decide_differs_refl {A} `{EqDecision A} (x : A) :
  bool_decide (x <> x) = false.
Proof. apply bool_decide_eq_false_2. intros Hne. now apply Hne. Qed.

(** X6: a call of [update_conditions] with the snapshot it saw last, the
    session-break threshold being non-negative, returns an empty
    dictionary and leaves the manager, its store included, as it was; the
    first call returns an empty dictionary, leaves the store untouched and
    only records the snapshot. *)
Theorem update_conditions_without_change (self : DecayManager.t) (now : datetime)
    (current : ConditionState.t) :
  0 <= DecayConfig.session_break_threshold_minutes (DecayManager.config self) ->
  (DecayManager._previous_conditions self = Some current ->
   DecayManager.update_conditions self now current = ([], self))
  /\ (DecayManager._previous_conditions self = None ->
      fst (DecayManager.update_conditions self now current) = []
      /\ DecayManager.stats (snd (DecayManager.update_conditions self now current))
         = DecayManager.stats self
      /\ DecayManager._previous_conditions
           (snd (DecayManager.update_conditions self now current))
         = Some current).
Proof.
  intros Hthr. split.
  - intros Hprev. unfold DecayManager.update_conditions. rewrite Hprev.
    assert (DecayManager.triggered self current current = []) as ->.
    { unfold DecayManager.triggered.
      rewrite Bool.eqb_reflx. cbn [negb].
      rewrite !Rminus_diag, Rabs_R0.
      assert (fge 0 10 = false) as -> by (apply fle_false; lra).
      rewrite !bool_decide_differs_refl.
      cbn [orb andb].
      assert (fgt 0 (DecayConfig.session_break_threshold_minutes
                       (DecayManager.config self) * 60) = false) as ->
        by (apply flt_false; lra).
      rewrite Bool.andb_false_r. reflexivity. }
    cbn. destruct self; cbn in *. now rewrite Hprev.
  - intros Hprev. unfold DecayManager.update_conditions. rewrite Hprev.
    cbn. auto.
Qed.

Lemma update_conditions_without_change_witness :
  DecayManager.update_conditions manager_of_tests 5 conditions_dry
  = ([], manager_of_tests).
Proof.
  apply (update_conditions_without_change manager_of_tests 5 conditions_dry).
  - cbn. lra.
  - reflexivity.
Defined.

Lemma product_in_unit_interval (factors : list R) :
  Forall (fun f => 0 <= f <= 1) factors ->
  0 <= fold_right Rmult 1 factors <= 1.
Proof.
  induction 1 as [|f factors Hf _ IH]; cbn; [lra | nra].
Qed.

Lemma triggered_in_unit_interval (self : DecayManager.t)
    (prev current : ConditionState.t) :
  let c := DecayManager.config self in
  0 <= DecayConfig.weather_change_decay c <= 1 ->
  0 <= DecayConfig.surface_change_decay c <= 1 ->
  0 <= DecayConfig.session_break_decay_factor c <= 1 ->
  0 <= DecayConfig.tire_change_decay c <= 1 ->
  0 <= DecayConfig.vehicle_change_decay c <= 1 ->
  0 <= DecayConfig.temperature_change_per_10c c ->
  Forall (fun f => 0 <= f <= 1)
         (dict_values (DecayManager.triggered self prev current)).
Proof.
  intros c Hw Hs Hb Ht Hv Hp. unfold DecayManager.triggered. cbv zeta.
  repeat apply values_of_conditional; try assumption;
    try (apply Forall_nil; exact I).
  (* the temperature factor *)
  pose proof (Zfloor_bound
                (Rabs (ConditionState.track_temp_c current
                       - ConditionState.track_temp_c prev) / 10)) as [_ Hfl].
  pose proof (Rabs_pos (ConditionState.track_temp_c current
                        - ConditionState.track_temp_c prev)) as Habs.
  set (n := Zfloor (Rabs (ConditionState.track_temp_c current
                          - ConditionState.track_temp_c prev) / 10)) in *.
  assert (0 <= IZR n).
  { apply IZR_le. apply Z.lt_succ_r. apply lt_IZR. rewrite succ_IZR. lra. }
  fold c. split; [apply Rmax_l|]. apply Rmax_lub; nra.
Qed.

(** X7: with every configured trigger factor in [[0,1]], a non-negative
    temperature penalty and a minimum decay factor of at most 1, a call of
    [update_conditions] that finds a trigger leaves every statistics of
    the store with a decay factor between the minimum decay factor and 1;
    a call that finds none leaves the store as it was. *)
Theorem update_conditions_factor_bounds (self : DecayManager.t) (now : datetime)
    (prev current : ConditionState.t) (store : SegmentStatsStore.t) :
  let c := DecayManager.config self in
  0 <= DecayConfig.weather_change_decay c <= 1 ->
  0 <= DecayConfig.surface_change_decay c <= 1 ->
  0 <= DecayConfig.session_break_decay_factor c <= 1 ->
  0 <= DecayConfig.tire_change_decay c <= 1 ->
  0 <= DecayConfig.vehicle_change_decay c <= 1 ->
  0 <= DecayConfig.temperature_change_per_10c c ->
  DecayConfig.min_decay_factor c <= 1 ->
  DecayManager._previous_conditions self = Some prev ->
  DecayManager.stats self = Some store ->
  let result := DecayManager.update_conditions self now current in
  (fst result = [] -> DecayManager.stats (snd result) = Some store)
  /\ (fst result <> [] ->
      exists store',
        DecayManager.stats (snd result) = Some store'
        /\ SegmentStatsStore._observations store'
           = SegmentStatsStore._observations store
        /\ forall segment_id s,
             SegmentStatsStore.get_statistics store' segment_id = Some s ->
             DecayConfig.min_decay_factor c <= SegmentStatistics.decay_factor s <= 1).
Proof.
  intros c Hw Hs Hb Ht Hv Hp Hmin Hprev Hstore result. subst result.
  pose proof (triggered_in_unit_interval self prev current Hw Hs Hb Ht Hv Hp)
    as Hunit.
  unfold DecayManager.update_conditions. rewrite Hprev, Hstore. cbn [fst snd].
  set (decays := DecayManager.triggered self prev current) in *.
  clearbody decays. cbn [DecayManager.stats]. split.
  - now intros ->.
  - intros Hne. destruct decays as [|d decays]; [contradiction|].
    eexists. split; [reflexivity|]. split; [reflexivity|].
    intros segment_id s Hs'. apply apply_global_decay_factor in Hs'.
    rewrite Hs'. rewrite _combine_decay_factors_product by discriminate.
    pose proof (product_in_unit_interval _ Hunit). fold c.
    split; [apply Rmax_r | apply Rmax_lub; lra].
Qed.

Lemma update_conditions_factor_bounds_witness :
  exists store',
    DecayManager.stats
      (snd (DecayManager.update_conditions manager_of_tests 2
              conditions_wet_new_tires)) = Some store'
    /\ SegmentStatsStore._observations store'
       = SegmentStatsStore._observations store_of_tests
    /\ forall segment_id s,
         SegmentStatsStore.get_statistics store' segment_id = Some s ->
         DecayConfig.min_decay_factor (DecayManager.config manager_of_tests)
         <= SegmentStatistics.decay_factor s <= 1.
Proof.
  refine (proj2 (update_conditions_factor_bounds manager_of_tests 2
                   conditions_dry conditions_wet_new_tires store_of_tests
                   _ _ _ _ _ _ _ _ _) _);
    try (cbn; solve [lra | reflexivity]).
  change (fst (DecayManager.update_conditions manager_of_tests 2
                 conditions_wet_new_tires))
    with (DecayManager.triggered manager_of_tests conditions_dry
            conditions_wet_new_tires).
  rewrite triggered_weather_and_tires. discriminate.
Defined.

(** ** Zero decay: the fallback to physics *)

Lemma zero_decay_no_data (s : SegmentStatistics.t) :
  SegmentStatistics.decay_factor s = 0 ->
  BlendEngine.no_learning_data (Some s) = true.
Proof.
  intros Hd. apply no_learning_data_true. right. exists s. split; [reflexivity|].
  unfold SegmentStatistics.effective_observation_count. rewrite Hd. lra.
Qed.

Lemma apply_decay_factor (store : SegmentStatsStore.t) (segment_id : Z) (f : R)
    (s : SegmentStatistics.t) :
  SegmentStatsStore.get_statistics
    (SegmentStatsStore.apply_decay store segment_id f) segment_id = Some s ->
  SegmentStatistics.decay_factor s = f.
Proof.
  unfold SegmentStatsStore.get_statistics, SegmentStatsStore.apply_decay.
  cbn. rewrite lookup_alter_eq.
  destruct (SegmentStatsStore._stats store !! segment_id); cbn; [|discriminate].
  now intros [= <-].
Qed.

(** X8: after [reset_all_learning] the store keeps its windows and its
    segments, and on the statistics of every segment both blends return
    the physics value with learned weight 0. *)
Theorem reset_all_learning_falls_back_to_physics {E1 E2}
    `{SpeedCeiling E1} `{BrakeMinimum E2}
    (self : DecayManager.t) (now : datetime) (reason : string)
    (store : SegmentStatsStore.t) :
  DecayManager.stats self = Some store ->
  exists store',
    DecayManager.stats (DecayManager.reset_all_learning self now reason)
    = Some store'
    /\ SegmentStatsStore._observations store'
       = SegmentStatsStore._observations store
    /\ (forall segment_id,
          is_Some (SegmentStatsStore.get_statistics store' segment_id)
          <-> is_Some (SegmentStatsStore.get_statistics store segment_id))
    /\ (forall segment_id s (engine : BlendEngine.t)
               (speed_env : E1) (brake_env : E2),
          SegmentStatsStore.get_statistics store' segment_id = Some s ->
          let rs := BlendEngine.blend_corner_speed engine speed_env (Some s) in
          let rb := BlendEngine.blend_brake_point engine brake_env (Some s) in
          BlendResult.blended_value rs = max_speed_kmh speed_env
          /\ BlendResult.learned_weight rs = 0
          /\ BlendResult.blended_value rb = minimum_brake_distance_m brake_env
          /\ BlendResult.learned_weight rb = 0).
Proof.
  intros Hstore. unfold DecayManager.reset_all_learning. rewrite Hstore.
  eexists. split; [reflexivity|]. split; [reflexivity|]. split.
  - intros segment_id.
    unfold SegmentStatsStore.get_statistics, SegmentStatsStore.apply_global_decay.
    cbn. rewrite lookup_fmap. apply fmap_is_Some.
  - intros segment_id s engine speed_env brake_env Hs. cbv zeta.
    apply apply_global_decay_factor in Hs.
    rewrite blend_corner_speed_no_data, blend_brake_point_no_data
      by now apply zero_decay_no_data.
    cbn. auto.
Qed.

Lemma reset_all_learning_falls_back_to_physics_witness :
  exists store',
    DecayManager.stats
      (DecayManager.reset_all_learning manager_of_tests 3 "manual")
    = Some store'
    /\ SegmentStatsStore._observations store'
       = SegmentStatsStore._observations store_of_tests.
Proof.
  destruct (reset_all_learning_falls_back_to_physics
              (E1 := SpeedLimitEnvelope.t) (E2 := BrakePointEnvelope.t)
              manager_of_tests 3 "manual" store_of_tests eq_refl)
    as (store' & H1 & H2 & _).
  exists store'. split; assumption.
Defined.

(** X9: after [reset_segment_learning] both blends return the physics
    value with learned weight 0 on the statistics of that segment, while
    the statistics of every other segment and all windows are as
    before. *)
Theorem reset_segment_learning_falls_back_to_physics {E1 E2}
    `{SpeedCeiling E1} `{BrakeMinimum E2}
    (self : DecayManager.t) (segment_id : Z) (reason : string)
    (store : SegmentStatsStore.t) :
  DecayManager.stats self = Some store ->
  exists store',
    DecayManager.stats
      (DecayManager.reset_segment_learning self segment_id reason)
    = Some store'
    /\ SegmentStatsStore._observations store'
       = SegmentStatsStore._observations store
    /\ (forall other, other <> segment_id ->
          SegmentStatsStore.get_statistics store' other
          = SegmentStatsStore.get_statistics store other)
    /\ (forall s (engine : BlendEngine.t) (speed_env : E1) (brake_env : E2),
          SegmentStatsStore.get_statistics store' segment_id = Some s ->
          let rs := BlendEngine.blend_corner_speed engine speed_env (Some s) in
          let rb := BlendEngine.blend_brake_point engine brake_env (Some s) in
          BlendResult.blended_value rs = max_speed_kmh speed_env
          /\ BlendResult.learned_weight rs = 0
          /\ BlendResult.blended_value rb = minimum_brake_distance_m brake_env
          /\ BlendResult.learned_weight rb = 0).
Proof.
  intros Hstore. unfold DecayManager.reset_segment_learning. rewrite Hstore.
  eexists. split; [reflexivity|]. split; [reflexivity|]. split.
  - intros other Hne.
    unfold SegmentStatsStore.get_statistics, SegmentStatsStore.apply_decay.
    cbn. now rewrite lookup_alter_ne.
  - intros s engine speed_env brake_env Hs. cbv zeta.
    apply apply_decay_factor in Hs.
    rewrite blend_corner_speed_no_data, blend_brake_point_no_data
      by now apply zero_decay_no_data.
    cbn. auto.
Qed.

Lemma reset_segment_learning_falls_back_to_physics_witness :
  exists store',
    DecayManager.stats
      (DecayManager.reset_segment_learning manager_of_tests 1 "manual")
    = Some store'
    /\ SegmentStatsStore._observations store'
       = SegmentStatsStore._observations store_of_tests.
Proof.
  destruct (reset_segment_learning_falls_back_to_physics
              (E1 := SpeedLimitEnvelope.t) (E2 := BrakePointEnvelope.t)
              manager_of_tests 1 "manual" store_of_tests eq_refl)
    as (store' & H1 & H2 & _).
  exists store'. split; assumption.
Defined.

(** ** Age decay *)

Lemma ln_half_neg : ln 0.5 < 0.
Proof. rewrite <- ln_1. apply ln_increasing; lra. Qed.

Lemma half_power_antitone (x y : R) : x <= y -> Rpower 0.5 y <= Rpower 0.5 x.
Proof.
  intros Hxy. unfold Rpower. pose proof ln_half_neg.
  destruct (Req_dec x y) as [->|Hne]; [lra|].
  left. apply exp_increasing. nra.
Qed.

Lemma half_power_le_1 (x : R) : 0 <= x -> Rpower 0.5 x <= 1.
Proof.
  intros Hx. rewrite <- (Rpower_O 0.5) by lra. now apply half_power_antitone.
Qed.

Lemma half_power_strict (x y : R) : x < y -> Rpower 0.5 y < Rpower 0.5 x.
Proof.
  intros Hxy. unfold Rpower. pose proof ln_half_neg.
  apply exp_increasing. nra.
Qed.

(** The first power of a half that no float holds. *)
Lemma half_power_overflow : Rpower 0.5 (- 1024) = 2 ^ 1024.
Proof.
  rewrite <- (Rpower_pow 1024 2) by lra.
  replace (INR 1024) with 1024
    by (rewrite INR_IZR_INZ; apply f_equal; reflexivity).
  unfold Rpower. f_equal.
  replace 0.5 with (/ 2) by lra. rewrite ln_Rinv by lra. lra.
Qed.

Lemma fpow_half_Some (y : R) :
  - 1024 < y -> fpow 0.5 y = Some (Rpower 0.5 y).
Proof.
  intros Hy. unfold fpow, fge.
  assert (fle (2 ^ 1024) (Rpower 0.5 y) = false) as ->; [|reflexivity].
  apply fle_false. rewrite <- half_power_overflow. now apply half_power_strict.
Qed.

Lemma fpow_half_None (y : R) : y <= - 1024 -> fpow 0.5 y = None.
Proof.
  intros Hy. unfold fpow, fge.
  assert (fle (2 ^ 1024) (Rpower 0.5 y) = true) as ->; [|reflexivity].
  apply fle_true. rewrite <- half_power_overflow. now apply half_power_antitone.
Qed.

(** The factor [apply_age_decay] computes at [now], for a last activity
    less than 1024 half-lives ahead of it. *)
Lemma apply_age_decay_result (self : DecayManager.t) (now : datetime)
    (prev : ConditionState.t) (store : SegmentStatsStore.t) :
  DecayManager._previous_conditions self = Some prev ->
  DecayManager.stats self = Some store ->
  DecayConfig.half_life_hours (DecayManager.config self) <> 0 ->
  let c := DecayManager.config self in
  let age_hours := (now - ConditionState.last_activity prev) / 3600 in
  - 1024 < age_hours / DecayConfig.half_life_hours c ->
  let f := if fgt age_hours (DecayConfig.max_data_age_hours c)
           then DecayConfig.min_decay_factor c
           else Rmax (Rpower 0.5 (age_hours / DecayConfig.half_life_hours c))
                     (DecayConfig.min_decay_factor c) in
  exists self',
    DecayManager.apply_age_decay self now = Some (Some f, self')
    /\ DecayManager.stats self'
       = Some (SegmentStatsStore.apply_global_decay store f)
    /\ DecayManager._previous_conditions self' = Some prev.
Proof.
  intros Hprev Hstore Hhl c age_hours Hexp f. subst f.
  unfold DecayManager.apply_age_decay. rewrite Hprev, Hstore.
  fold c. fold age_hours.
  destruct (fgt age_hours (DecayConfig.max_data_age_hours c)).
  - cbn [mbind option_bind]. eexists. split; [reflexivity|]. cbn. auto.
  - rewrite fdiv_Some by assumption. cbn [mbind option_bind].
    rewrite fpow_half_Some by assumption. cbn [mbind option_bind].
    eexists. split; [reflexivity|]. cbn. auto.
Qed.

(** X10: with previous conditions, a store, a positive half-life and a
    last activity less than 1024 half-lives in the future,
    [apply_age_decay] applies to the store and returns a factor that is
    never below the minimum decay factor and never grows as the data gets
    older; for data not from the future and a minimum of at most 1 it is
    at most 1.  With a last activity 1024 half-lives or more in the future
    and within the maximum data age, [math.pow] raises [OverflowError].
    Without previous conditions or without a store the method returns
    [None] and changes nothing. *)
Theorem apply_age_decay_floored_and_antitone (self : DecayManager.t)
    (now1 now2 : datetime) :
  let c := DecayManager.config self in
  (DecayManager._previous_conditions self = None
   \/ DecayManager.stats self = None ->
   DecayManager.apply_age_decay self now1 = Some (None, self))
  /\ (forall prev store,
        DecayManager._previous_conditions self = Some prev ->
        DecayManager.stats self = Some store ->
        0 < DecayConfig.half_life_hours c ->
        now1 <= now2 ->
        - 1024 * DecayConfig.half_life_hours c
        < (now1 - ConditionState.last_activity prev) / 3600 ->
        exists f1 f2 self1 self2,
          DecayManager.apply_age_decay self now1 = Some (Some f1, self1)
          /\ DecayManager.apply_age_decay self now2 = Some (Some f2, self2)
          /\ DecayManager.stats self1
             = Some (SegmentStatsStore.apply_global_decay store f1)
          /\ DecayConfig.min_decay_factor c <= f2 <= f1
          /\ (ConditionState.last_activity prev <= now1 ->
              DecayConfig.min_decay_factor c <= 1 -> f1 <= 1))
  /\ (forall prev store,
        DecayManager._previous_conditions self = Some prev ->
        DecayManager.stats self = Some store ->
        0 < DecayConfig.half_life_hours c ->
        (now1 - ConditionState.last_activity prev) / 3600
        <= - 1024 * DecayConfig.half_life_hours c ->
        (now1 - ConditionState.last_activity prev) / 3600
        <= DecayConfig.max_data_age_hours c ->
        DecayManager.apply_age_decay self now1 = None).
Proof.
  intros c. split; [|split].
  - unfold DecayManager.apply_age_decay.
    intros [Hn|Hn]; rewrite Hn; [reflexivity|].
    now destruct (DecayManager._previous_conditions self).
  - intros prev store Hprev Hstore Hhl Hnow Hnear.
    assert (DecayConfig.half_life_hours (DecayManager.config self) <> 0) as Hne
      by (fold c; lra).
    assert (0 < / DecayConfig.half_life_hours c) as Hinv
      by now apply Rinv_0_lt_compat.
    set (h1 := (now1 - ConditionState.last_activity prev) / 3600) in *.
    set (h2 := (now2 - ConditionState.last_activity prev) / 3600) in *.
    assert (h1 <= h2) as Hh by (subst h1 h2; lra).
    assert (- 1024 < h1 / DecayConfig.half_life_hours c) as He1.
    { apply (Rmult_lt_reg_r (DecayConfig.half_life_hours c)); [assumption|].
      unfold Rdiv. rewrite Rmult_assoc, Rinv_l by lra. lra. }
    assert (h1 / DecayConfig.half_life_hours c
            <= h2 / DecayConfig.half_life_hours c) as He.
    { apply Rmult_le_compat_r; [lra | assumption]. }
    destruct (apply_age_decay_result self now1 prev store Hprev Hstore Hne He1)
      as (self1 & Heq1 & Hs1 & _).
    destruct (apply_age_decay_result self now2 prev store Hprev Hstore Hne
                ltac:(fold c; fold h2; lra))
      as (self2 & Heq2 & _ & _).
    fold c in Heq1, Heq2, Hs1. fold h1 in Heq1, Hs1. fold h2 in Heq2.
    assert (Rpower 0.5 (h2 / DecayConfig.half_life_hours c)
            <= Rpower 0.5 (h1 / DecayConfig.half_life_hours c)) as Hpow
      by now apply half_power_antitone.
    do 4 eexists. split; [exact Heq1|]. split; [exact Heq2|].
    split; [exact Hs1|].
    set (m := DecayConfig.min_decay_factor c) in *.
    set (p1 := Rpower 0.5 (h1 / DecayConfig.half_life_hours c)) in *.
    set (p2 := Rpower 0.5 (h2 / DecayConfig.half_life_hours c)) in *.
    pose proof (Rmax_r p1 m). pose proof (Rmax_r p2 m).
    pose proof (Rmax_l p1 m).
    assert (Rmax p2 m <= Rmax p1 m) by (apply Rmax_lub; lra).
    split.
    + destruct (fgt h1 _) eqn:Hg1, (fgt h2 _) eqn:Hg2;
        rewrite ?fgt_true in *; try apply flt_false in Hg1;
        try apply flt_false in Hg2; lra.
    + intros Hpast Hm.
      assert (0 <= h1) by (subst h1; lra).
      assert (p1 <= 1).
      { subst p1. apply half_power_le_1. apply Rmult_le_pos; [assumption|].
        lra. }
      destruct (fgt h1 _); [assumption | apply Rmax_lub; lra].
  - intros prev store Hprev Hstore Hhl Hfar Hage.
    unfold DecayManager.apply_age_decay. rewrite Hprev, Hstore. fold c.
    set (h1 := (now1 - ConditionState.last_activity prev) / 3600) in *.
    assert (fgt h1 (DecayConfig.max_data_age_hours c) = false) as ->
      by now apply flt_false.
    rewrite fdiv_Some by lra. cbn [mbind option_bind].
    rewrite fpow_half_None; [reflexivity|].
    apply (Rmult_le_reg_r (DecayConfig.half_life_hours c)); [assumption|].
    unfold Rdiv. rewrite Rmult_assoc, Rinv_l by lra. lra.
Qed.

Lemma apply_age_decay_floored_and_antitone_witness :
  exists f1 f2 self1 self2,
    DecayManager.apply_age_decay manager_of_tests 3600 = Some (Some f1, self1)
    /\ DecayManager.apply_age_decay manager_of_tests 7200 = Some (Some f2, self2)
    /\ DecayManager.stats self1
       = Some (SegmentStatsStore.apply_global_decay store_of_tests f1)
    /\ DecayConfig.min_decay_factor (DecayManager.config manager_of_tests)
       <= f2 <= f1
    /\ (ConditionState.last_activity conditions_dry <= 3600 ->
        DecayConfig.min_decay_factor (DecayManager.config manager_of_tests) <= 1 ->
        f1 <= 1).
Proof.
  apply (proj1 (proj2 (apply_age_decay_floored_and_antitone
                         manager_of_tests 3600 7200))
           conditions_dry store_of_tests);
    [reflexivity | reflexivity | cbn; lra | lra | cbn; lra].
Defined.

(** ** The blend engine: bounds on every result *)

Lemma _compute_learned_weight_bounds (self : BlendEngine.t)
    (s : SegmentStatistics.t) :
  0 <= BlendConfig.max_learned_influence (BlendEngine.config self) ->
  0 <= BlendEngine._compute_learned_weight self s
    <= BlendConfig.max_learned_influence (BlendEngine.config self).
Proof.
  intros HM. rewrite _compute_learned_weight_of_count.
  split; [now apply weight_of_count_nonneg | now apply weight_of_count_le_max].
Qed.

(** X11: with a maximum learned influence and a safety margin in
    [[0,1]], the brake point [blend_brake_point] returns is never later
    than the physics minimum and, when a learned point is reported, never
    earlier than that learned point. *)
Theorem blend_brake_point_between_physics_and_learned {E} `{BrakeMinimum E}
    (self : BlendEngine.t) (env : E) (stats : option SegmentStatistics.t) :
  0 <= BlendConfig.max_learned_influence (BlendEngine.config self) <= 1 ->
  0 <= BlendConfig.learned_safety_margin (BlendEngine.config self) <= 1 ->
  let r := BlendEngine.blend_brake_point self env stats in
  minimum_brake_distance_m env <= BlendResult.blended_value r
  /\ (forall L, BlendResult.learned_value r = Some L ->
                BlendResult.blended_value r <= L).
Proof.
  intros HM Hm r. subst r.
  destruct (BlendEngine.no_learning_data stats) eqn:Hno.
  - rewrite blend_brake_point_no_data by assumption. cbn.
    split; [lra | discriminate].
  - destruct stats as [s|]; [|discriminate]. cbn in Hno.
    apply negb_false_iff in Hno.
    rewrite blend_brake_point_data by assumption. cbn.
    pose proof (get_learned_brake_point_ge s (minimum_brake_distance_m env)) as HL.
    destruct (_compute_learned_weight_bounds self s (proj1 HM)) as [Hw0 Hw1].
    set (L := SegmentStatistics.get_learned_brake_point s _) in *.
    set (w := BlendEngine._compute_learned_weight self s) in *.
    set (pm := minimum_brake_distance_m env) in *.
    set (m := BlendConfig.learned_safety_margin (BlendEngine.config self)) in *.
    set (M := BlendConfig.max_learned_influence (BlendEngine.config self)) in *.
    assert (L - (L - pm) * w + (L - (L - (L - pm) * w)) * m
            = L - (L - pm) * (w * (1 - m))) as -> by ring.
    assert (0 <= w * (1 - m) <= 1) as [Hk0 Hk1] by nra.
    split.
    + nra.
    + intros L' [= <-]. nra.
Qed.

Lemma blend_brake_point_between_physics_and_learned_witness :
  let r := BlendEngine.blend_brake_point BlendEngine.default brake_envelope_80
             (Some (stats_of_tests 120)) in
  minimum_brake_distance_m brake_envelope_80 <= BlendResult.blended_value r
  /\ (forall L, BlendResult.learned_value r = Some L ->
                BlendResult.blended_value r <= L).
Proof.
  apply (blend_brake_point_between_physics_and_learned BlendEngine.default
           brake_envelope_80 (Some (stats_of_tests 120)));
    cbn; lra.
Defined.

(** A learned brake point of 120 m against a physics minimum of 80 m, at
    the full default weight: [120 - 40 * 0.3 * 0.95 = 108.6]. *)
Example blend_brake_point_of_tests :
  BlendResult.blended_value
    (BlendEngine.blend_brake_point BlendEngine.default brake_envelope_80
       (Some (stats_of_tests 120)))
  = 108.6.
Proof. feval; lra. Qed.

(** X12: with a non-negative maximum learned influence [M] and a
    non-negative safety margin [m], the learned weight of every result of
    either blend lies between 0 and [M], and the corner speed is lowered
    below the ceiling [C] by at most [M * (1 + m)] of the gap to the
    learned speed [L]. *)
Theorem learned_influence_is_capped {E1 E2} `{SpeedCeiling E1} `{BrakeMinimum E2}
    (self : BlendEngine.t) (speed_env : E1) (brake_env : E2)
    (stats : option SegmentStatistics.t) :
  let M := BlendConfig.max_learned_influence (BlendEngine.config self) in
  let m := BlendConfig.learned_safety_margin (BlendEngine.config self) in
  0 <= M -> 0 <= m ->
  let rs := BlendEngine.blend_corner_speed self speed_env stats in
  let rb := BlendEngine.blend_brake_point self brake_env stats in
  0 <= BlendResult.learned_weight rs <= M
  /\ 0 <= BlendResult.learned_weight rb <= M
  /\ (forall L, BlendResult.learned_value rs = Some L ->
        max_speed_kmh speed_env - (max_speed_kmh speed_env - L) * (M * (1 + m))
        <= BlendResult.blended_value rs).
Proof.
  intros M m HM Hm rs rb. subst rs rb.
  destruct (BlendEngine.no_learning_data stats) eqn:Hno.
  - rewrite blend_corner_speed_no_data, blend_brake_point_no_data by assumption.
    cbn. repeat split; try lra. discriminate.
  - destruct stats as [s|]; [|discriminate]. cbn in Hno.
    apply negb_false_iff in Hno.
    rewrite blend_corner_speed_data, blend_brake_point_data by assumption.
    cbn. destruct (_compute_learned_weight_bounds self s HM) as [Hw0 Hw1].
    fold M in Hw1. repeat split; try assumption.
    intros L [= <-]. rewrite corner_blend_closed_form. fold m.
    pose proof (get_learned_entry_speed_le s (max_speed_kmh speed_env)).
    set (C := max_speed_kmh speed_env) in *.
    set (L := SegmentStatistics.get_learned_entry_speed s C) in *.
    set (w := BlendEngine._compute_learned_weight self s) in *.
    assert (w * (1 + m) <= M * (1 + m)) by nra.
    assert (0 <= C - L) by lra.
    replace ((C - L) * w * (1 + m)) with ((C - L) * (w * (1 + m))) by ring.
    nra.
Qed.

Lemma learned_influence_is_capped_witness :
  let M := BlendConfig.max_learned_influence (BlendEngine.config BlendEngine.default) in
  let m := BlendConfig.learned_safety_margin (BlendEngine.config BlendEngine.default) in
  let rs := BlendEngine.blend_corner_speed BlendEngine.default envelope_100
              (Some (stats_of_tests 120)) in
  let rb := BlendEngine.blend_brake_point BlendEngine.default brake_envelope_80
              (Some (stats_of_tests 120)) in
  0 <= BlendResult.learned_weight rs <= M
  /\ 0 <= BlendResult.learned_weight rb <= M
  /\ (forall L, BlendResult.learned_value rs = Some L ->
        max_speed_kmh envelope_100 - (max_speed_kmh envelope_100 - L) * (M * (1 + m))
        <= BlendResult.blended_value rs).
Proof.
  apply (learned_influence_is_capped BlendEngine.default envelope_100
           brake_envelope_80 (Some (stats_of_tests 120)));
    cbn; lra.
Defined.

(** ** Envelope types: ceilings, static formulas, grip *)

(** X13: on a ceiling with a non-negative value, as the constructor
    admits, [apply_safety_margin] with a margin in [(0, 1]] returns a new
    ceiling worth [value * margin], which is non-negative and at most the
    old value, with the same unit; any other margin raises. *)
Theorem apply_safety_margin_lowers_ceiling (c : PhysicsCeiling.t) (margin : R) :
  0 <= PhysicsCeiling.value c ->
  (0 < margin <= 1 ->
   exists c',
     PhysicsCeiling.apply_safety_margin c margin = Some c'
     /\ PhysicsCeiling.value c' = PhysicsCeiling.value c * margin
     /\ 0 <= PhysicsCeiling.value c' <= PhysicsCeiling.value c
     /\ PhysicsCeiling.unit c' = PhysicsCeiling.unit c)
  /\ (~ 0 < margin <= 1 -> PhysicsCeiling.apply_safety_margin c margin = None).
Proof.
  intros Hv. unfold PhysicsCeiling.apply_safety_margin. split.
  - intros [H0 H1].
    assert (flt 0 margin = true) as -> by now apply flt_true.
    assert (fle margin 1 = true) as -> by now apply fle_true.
    cbn [andb negb]. unfold PhysicsCeiling.make.
    assert (flt (PhysicsCeiling.value c * margin) 0 = false) as ->
      by (apply flt_false; nra).
    eexists. split; [reflexivity|]. cbn. repeat split; nra.
  - intros Hout.
    destruct (flt 0 margin) eqn:H0; [|reflexivity].
    destruct (fle margin 1) eqn:H1; [|reflexivity].
    apply flt_true in H0. apply fle_true in H1. tauto.
Qed.

Lemma apply_safety_margin_lowers_ceiling_witness :
  exists c',
    PhysicsCeiling.apply_safety_margin ceiling_100 0.85 = Some c'
    /\ PhysicsCeiling.value c' = PhysicsCeiling.value ceiling_100 * 0.85
    /\ 0 <= PhysicsCeiling.value c' <= PhysicsCeiling.value ceiling_100
    /\ PhysicsCeiling.unit c' = PhysicsCeiling.unit ceiling_100.
Proof.
  apply (proj1 (apply_safety_margin_lowers_ceiling ceiling_100 0.85
                  ltac:(cbn; lra))).
  lra.
Defined.

Lemma fsqrt_Some (x : R) : 0 <= x -> fsqrt x = Some (sqrt x).
Proof. intros Hx. unfold fsqrt. now apply flt_false in Hx as ->. Qed.

(** X14: [compute_physics_limit] returns 300 km/h for an infinite or
    non-positive radius; for positive radii, a non-negative friction
    coefficient and a non-negative safety factor it returns
    [3.6 * safety_factor * sqrt (9.81 * mu * r)], which is non-negative
    and does not decrease as the radius grows. *)
Theorem compute_physics_limit_grows_with_radius (r1 r2 mu safety_factor : R) :
  0 < r1 <= r2 -> 0 <= mu -> 0 <= safety_factor ->
  (forall r, r <= 0 ->
     CornerSpeedEnvelope.compute_physics_limit (Some r) mu safety_factor
     = Some 300)
  /\ CornerSpeedEnvelope.compute_physics_limit None mu safety_factor = Some 300
  /\ exists v1 v2,
       CornerSpeedEnvelope.compute_physics_limit (Some r1) mu safety_factor
       = Some v1
       /\ CornerSpeedEnvelope.compute_physics_limit (Some r2) mu safety_factor
          = Some v2
       /\ v1 = sqrt (9.81 * mu * r1) * safety_factor * 3.6
       /\ 0 <= v1 <= v2.
Proof.
  intros [Hr1 Hr12] Hmu Hsf. unfold CornerSpeedEnvelope.compute_physics_limit.
  split; [|split; [reflexivity|]].
  - intros r Hr. now apply fle_true in Hr as ->.
  - assert (fle r1 0 = false) as -> by (apply fle_false; lra).
    assert (fle r2 0 = false) as -> by (apply fle_false; lra).
    assert (0 <= 9.81 * mu * r1) by nra.
    assert (0 <= 9.81 * mu * r2) by nra.
    rewrite !fsqrt_Some by assumption. cbn [mbind option_bind].
    eexists. eexists. split; [reflexivity|]. split; [reflexivity|].
    split; [reflexivity|].
    assert (sqrt (9.81 * mu * r1) <= sqrt (9.81 * mu * r2))
      by (apply sqrt_le_1; nra).
    pose proof (sqrt_pos (9.81 * mu * r1)).
    split; nra.
Qed.

Lemma compute_physics_limit_grows_with_radius_witness :
  exists v1 v2,
    CornerSpeedEnvelope.compute_physics_limit (Some 50) 1 0.85 = Some v1
    /\ CornerSpeedEnvelope.compute_physics_limit (Some 200) 1 0.85 = Some v2
    /\ v1 = sqrt (9.81 * 1 * 50) * 0.85 * 3.6
    /\ 0 <= v1 <= v2.
Proof.
  apply (compute_physics_limit_grows_with_radius 50 200 1 0.85); lra.
Defined.

(** X15: [compute_brake_distance] returns 0 when the initial speed is not
    above the target; otherwise, for a non-negative target, a positive
    deceleration and a non-negative reaction time, it returns at least the
    safety margin plus the reaction distance, and a stronger deceleration
    never lengthens it; a zero deceleration raises. *)
Theorem compute_brake_distance_shrinks_with_deceleration
    (initial target d1 d2 safety_margin reaction_time : R) :
  0 <= target < initial -> 0 < d1 <= d2 -> 0 <= reaction_time ->
  (forall v d, v <= target ->
     BrakingEnvelope.compute_brake_distance v target d safety_margin reaction_time
     = Some 0)
  /\ BrakingEnvelope.compute_brake_distance
       initial target 0 safety_margin reaction_time = None
  /\ exists b1 b2,
       BrakingEnvelope.compute_brake_distance
         initial target d1 safety_margin reaction_time = Some b1
       /\ BrakingEnvelope.compute_brake_distance
            initial target d2 safety_margin reaction_time = Some b2
       /\ safety_margin + initial / 3.6 * reaction_time <= b2 <= b1.
Proof.
  intros [Ht Hi] [Hd1 Hd12] Hrt. unfold BrakingEnvelope.compute_brake_distance.
  split; [|split].
  - intros v d Hv. now apply fle_true in Hv as ->.
  - assert (fle initial target = false) as -> by (apply fle_false; lra).
    unfold fdiv. destruct (Req_dec_T (2 * (0 * 9.81)) 0); [reflexivity | lra].
  - assert (fle initial target = false) as -> by (apply fle_false; lra).
    rewrite !fdiv_Some by lra. cbn [mbind option_bind].
    eexists. eexists. split; [reflexivity|]. split; [reflexivity|].
    set (g := (initial / 3.6) ^ 2 - (target / 3.6) ^ 2).
    assert (0 <= g) by (subst g; nra).
    assert (0 < 2 * (d1 * 9.81)) by lra.
    assert (0 < 2 * (d2 * 9.81)) by lra.
    assert (/ (2 * (d2 * 9.81)) <= / (2 * (d1 * 9.81)))
      by (apply Rinv_le_contravar; lra).
    assert (0 < / (2 * (d2 * 9.81))) by now apply Rinv_0_lt_compat.
    unfold Rdiv at 2 4. split; nra.
Qed.

Lemma compute_brake_distance_shrinks_with_deceleration_witness :
  exists b1 b2,
    BrakingEnvelope.compute_brake_distance 180 80 0.8 10 0.3 = Some b1
    /\ BrakingEnvelope.compute_brake_distance 180 80 1.2 10 0.3 = Some b2
    /\ 10 + 180 / 3.6 * 0.3 <= b2 <= b1.
Proof.
  apply (compute_brake_distance_shrinks_with_deceleration 180 80 0.8 1.2 10 0.3);
    lra.
Defined.

(** X16: the maximum steering rate is one of 180, 120, 90, 60 and 45
    degrees per second, and never grows with the speed. *)
Theorem get_max_steering_rate_antitone (v1 v2 : R) :
  v1 <= v2 ->
  SteeringEnvelope.get_max_steering_rate v2
  <= SteeringEnvelope.get_max_steering_rate v1
  /\ 45 <= SteeringEnvelope.get_max_steering_rate v1 <= 180.
Proof.
  intros Hv. unfold SteeringEnvelope.get_max_steering_rate, flt.
  repeat match goal with
         | |- context [Rlt_dec ?a ?b] => destruct (Rlt_dec a b)
         end; lra.
Qed.

Lemma get_max_steering_rate_antitone_witness :
  SteeringEnvelope.get_max_steering_rate 160
  <= SteeringEnvelope.get_max_steering_rate 90
  /\ 45 <= SteeringEnvelope.get_max_steering_rate 90 <= 180.
Proof. apply (get_max_steering_rate_antitone 90 160). lra. Defined.

(** X17: the remaining grip of a combined-grip envelope with a
    non-negative ceiling lies between 0 and the ceiling, and with a
    positive stability margin the envelope is at its limit exactly when
    the total grip used exceeds the ceiling less the margin. *)
Theorem grip_remaining_and_limit (e : CombinedGripEnvelope.t) :
  0 <= PhysicsCeiling.value (CombinedGripEnvelope.max_total_grip e) ->
  0 < CombinedGripEnvelope.stability_margin e ->
  0 <= CombinedGripEnvelope.grip_remaining e
    <= PhysicsCeiling.value (CombinedGripEnvelope.max_total_grip e)
  /\ (CombinedGripEnvelope.is_at_limit e = true
      <-> PhysicsCeiling.value (CombinedGripEnvelope.max_total_grip e)
          - CombinedGripEnvelope.stability_margin e
          < CombinedGripEnvelope.total_grip_used e).
Proof.
  intros Hmax Hmargin.
  unfold CombinedGripEnvelope.is_at_limit, CombinedGripEnvelope.grip_remaining.
  assert (0 <= CombinedGripEnvelope.total_grip_used e) as Ht
    by apply sqrt_pos.
  rewrite flt_true. unfold Rmax.
  destruct (Rle_dec _ _); repeat split; intros; lra.
Qed.

Lemma grip_remaining_and_limit_witness :
  let e := {| CombinedGripEnvelope.max_total_grip := ceiling_100;
              CombinedGripEnvelope.longitudinal_grip_used := 0.6;
              CombinedGripEnvelope.lateral_grip_used := 0.8;
              CombinedGripEnvelope.stability_margin := 0.15 |} in
  0 <= CombinedGripEnvelope.grip_remaining e
    <= PhysicsCeiling.value (CombinedGripEnvelope.max_total_grip e).
Proof.
  apply (grip_remaining_and_limit
           {| CombinedGripEnvelope.max_total_grip := ceiling_100;
              CombinedGripEnvelope.longitudinal_grip_used := 0.6;
              CombinedGripEnvelope.lateral_grip_used := 0.8;
              CombinedGripEnvelope.stability_margin := 0.15 |});
    cbn; lra.
Defined.

(** ** The friction circle: what is left on the other axis *)

(** X18: for positive maximum longitudinal grip and longitudinal shape
    factor, [compute_available_lateral] returns 0 when the shaped
    longitudinal fraction has used up the margin-reduced budget
    [1 - stability_margin]; below it, the lateral acceleration it returns,
    brought back to a shaped fraction, lies with the longitudinal fraction
    exactly on the margin-reduced circle. *)
Theorem compute_available_lateral_on_circle (self : FrictionCircleEnforcer.t)
    (longitudinal_g max_longitudinal_g max_lateral_g : R) :
  let c := FrictionCircleEnforcer.config self in
  let fx_shaped := Rabs longitudinal_g / max_longitudinal_g
                   / FrictionCircleConfig.longitudinal_factor c in
  let max_total := 1 - FrictionCircleConfig.stability_margin c in
  0 < max_longitudinal_g -> 0 < FrictionCircleConfig.longitudinal_factor c ->
  max_lateral_g * FrictionCircleConfig.lateral_factor c <> 0 ->
  (max_total <= fx_shaped ->
   FrictionCircleEnforcer.compute_available_lateral self longitudinal_g
     max_longitudinal_g max_lateral_g = Some 0)
  /\ (fx_shaped < max_total ->
      exists available,
        FrictionCircleEnforcer.compute_available_lateral self longitudinal_g
          max_longitudinal_g max_lateral_g = Some available
        /\ fx_shaped ^ 2
           + (available / (max_lateral_g * FrictionCircleConfig.lateral_factor c)) ^ 2
           = max_total ^ 2).
Proof.
  intros c fx_shaped max_total Hml Hlf Hlat.
  assert (0 <= fx_shaped) as Hfx.
  { subst fx_shaped. pose proof (Rabs_pos longitudinal_g).
    apply Rmult_le_pos; [apply Rmult_le_pos; [assumption|]|];
      left; now apply Rinv_0_lt_compat. }
  unfold FrictionCircleEnforcer.compute_available_lateral. fold c.
  rewrite (fdiv_Some _ max_longitudinal_g) by lra. cbn [mbind option_bind].
  rewrite fdiv_Some by lra. cbn [mbind option_bind].
  fold fx_shaped. fold max_total. split.
  - intros Hge. now apply fge_true in Hge as ->.
  - intros Hlt. assert (fge fx_shaped max_total = false) as ->
      by now apply fle_false.
    assert (0 <= max_total ^ 2 - fx_shaped ^ 2) as Hpos by nra.
    rewrite fsqrt_Some by assumption. cbn [mbind option_bind].
    eexists. split; [reflexivity|].
    replace (sqrt (max_total ^ 2 - fx_shaped ^ 2) * max_lateral_g
             * FrictionCircleConfig.lateral_factor c
             / (max_lateral_g * FrictionCircleConfig.lateral_factor c))
      with (sqrt (max_total ^ 2 - fx_shaped ^ 2)) by (field; nra).
    rewrite pow2_sqrt by assumption. ring.
Qed.

Lemma compute_available_lateral_on_circle_witness :
  let c := FrictionCircleEnforcer.config enforcer_ellipse in
  exists available,
    FrictionCircleEnforcer.compute_available_lateral enforcer_ellipse 0.2 1 1.2
    = Some available
    /\ (Rabs 0.2 / 1 / FrictionCircleConfig.longitudinal_factor c) ^ 2
       + (available / (1.2 * FrictionCircleConfig.lateral_factor c)) ^ 2
       = (1 - FrictionCircleConfig.stability_margin c) ^ 2.
Proof.
  apply (proj2 (compute_available_lateral_on_circle enforcer_ellipse 0.2 1 1.2
                  ltac:(lra) ltac:(cbn; lra) ltac:(cbn; lra))).
  cbn. rewrite Rabs_pos_eq by lra. lra.
Defined.

(** X19: the same for [compute_available_longitudinal], with the two axes
    exchanged. *)
Theorem compute_available_longitudinal_on_circle (self : FrictionCircleEnforcer.t)
    (lateral_g max_longitudinal_g max_lateral_g : R) :
  let c := FrictionCircleEnforcer.config self in
  let fy_shaped := Rabs lateral_g / max_lateral_g
                   / FrictionCircleConfig.lateral_factor c in
  let max_total := 1 - FrictionCircleConfig.stability_margin c in
  0 < max_lateral_g -> 0 < FrictionCircleConfig.lateral_factor c ->
  max_longitudinal_g * FrictionCircleConfig.longitudinal_factor c <> 0 ->
  (max_total <= fy_shaped ->
   FrictionCircleEnforcer.compute_available_longitudinal self lateral_g
     max_longitudinal_g max_lateral_g = Some 0)
  /\ (fy_shaped < max_total ->
      exists available,
        FrictionCircleEnforcer.compute_available_longitudinal self lateral_g
          max_longitudinal_g max_lateral_g = Some available
        /\ (available
            / (max_longitudinal_g * FrictionCircleConfig.longitudinal_factor c)) ^ 2
           + fy_shaped ^ 2
           = max_total ^ 2).
Proof.
  intros c fy_shaped max_total Hml Hlf Hlong.
  assert (0 <= fy_shaped) as Hfy.
  { subst fy_shaped. pose proof (Rabs_pos lateral_g).
    apply Rmult_le_pos; [apply Rmult_le_pos; [assumption|]|];
      left; now apply Rinv_0_lt_compat. }
  unfold FrictionCircleEnforcer.compute_available_longitudinal. fold c.
  rewrite (fdiv_Some _ max_lateral_g) by lra. cbn [mbind option_bind].
  rewrite fdiv_Some by lra. cbn [mbind option_bind].
  fold fy_shaped. fold max_total. split.
  - intros Hge. now apply fge_true in Hge as ->.
  - intros Hlt. assert (fge fy_shaped max_total = false) as ->
      by now apply fle_false.
    assert (0 <= max_total ^ 2 - fy_shaped ^ 2) as Hpos by nra.
    rewrite fsqrt_Some by assumption. cbn [mbind option_bind].
    eexists. split; [reflexivity|].
    replace (sqrt (max_total ^ 2 - fy_shaped ^ 2) * max_longitudinal_g
             * FrictionCircleConfig.longitudinal_factor c
             / (max_longitudinal_g * FrictionCircleConfig.longitudinal_factor c))
      with (sqrt (max_total ^ 2 - fy_shaped ^ 2)) by (field; nra).
    rewrite pow2_sqrt by assumption. ring.
Qed.

Lemma compute_available_longitudinal_on_circle_witness :
  let c := FrictionCircleEnforcer.config enforcer_ellipse in
  exists available,
    FrictionCircleEnforcer.compute_available_longitudinal enforcer_ellipse 0.6 1 1.2
    = Some available
    /\ (available / (1 * FrictionCircleConfig.longitudinal_factor c)) ^ 2
       + (Rabs 0.6 / 1.2 / FrictionCircleConfig.lateral_factor c) ^ 2
       = (1 - FrictionCircleConfig.stability_margin c) ^ 2.
Proof.
  apply (proj2 (compute_available_longitudinal_on_circle enforcer_ellipse 0.6 1 1.2
                  ltac:(lra) ltac:(cbn; lra) ltac:(cbn; lra))).
  cbn. rewrite Rabs_pos_eq by lra. lra.
Defined.

Lemma compute_grip_usage_returns (self : FrictionCircleEnforcer.t)
    (longitudinal_g lateral_g max_longitudinal_g max_lateral_g : R) :
  let c := FrictionCircleEnforcer.config self in
  max_longitudinal_g <> 0 -> max_lateral_g <> 0 ->
  FrictionCircleConfig.longitudinal_factor c <> 0 ->
  FrictionCircleConfig.lateral_factor c <> 0 ->
  0 <= FrictionCircleConfig.max_grip_normalized c ->
  exists e,
    FrictionCircleEnforcer.compute_grip_usage self longitudinal_g lateral_g
      max_longitudinal_g max_lateral_g = Some e.
Proof.
  intros c H1 H2 H3 H4 H5. unfold FrictionCircleEnforcer.compute_grip_usage.
  fold c.
  rewrite (fdiv_Some _ max_longitudinal_g), (fdiv_Some _ max_lateral_g)
    by assumption.
  cbn [mbind option_bind]. rewrite !fdiv_Some by assumption.
  cbn [mbind option_bind]. unfold PhysicsCeiling.make.
  apply flt_false in H5 as ->. cbn [mbind option_bind]. eauto.
Defined.

(** X20: with non-zero grip maxima and shape factors and a non-negative
    normalized grip ceiling, [check_limit] returns the remaining grip
    [1 - total], where [total] is the total grip usage of the envelope
    [compute_grip_usage] returns; its flag is true exactly when [total]
    reaches 1 or the critical threshold, and its status is ["OK"] exactly
    when [total] is below 1 and below both thresholds. *)
Theorem check_limit_classifies_total (self : FrictionCircleEnforcer.t)
    (longitudinal_g lateral_g max_longitudinal_g max_lateral_g : R) :
  let c := FrictionCircleEnforcer.config self in
  max_longitudinal_g <> 0 -> max_lateral_g <> 0 ->
  FrictionCircleConfig.longitudinal_factor c <> 0 ->
  FrictionCircleConfig.lateral_factor c <> 0 ->
  0 <= FrictionCircleConfig.max_grip_normalized c ->
  exists e flag status,
    FrictionCircleEnforcer.compute_grip_usage self longitudinal_g lateral_g
      max_longitudinal_g max_lateral_g = Some e
    /\ FrictionCircleEnforcer.check_limit self longitudinal_g lateral_g
         max_longitudinal_g max_lateral_g
       = Some (flag, status, 1 - CombinedGripEnvelope.total_grip_used e)
    /\ (flag = true
        <-> 1 <= CombinedGripEnvelope.total_grip_used e
            \/ FrictionCircleConfig.critical_threshold c
               <= CombinedGripEnvelope.total_grip_used e)
    /\ (status = "OK"
        <-> CombinedGripEnvelope.total_grip_used e < 1
            /\ CombinedGripEnvelope.total_grip_used e
               < FrictionCircleConfig.critical_threshold c
            /\ CombinedGripEnvelope.total_grip_used e
               < FrictionCircleConfig.warning_threshold c).
Proof.
  intros c H1 H2 H3 H4 H5.
  destruct (compute_grip_usage_returns self longitudinal_g lateral_g
              max_longitudinal_g max_lateral_g H1 H2 H3 H4 H5) as [e He].
  exists e. unfold FrictionCircleEnforcer.check_limit.
  rewrite He. cbn [mbind option_bind]. fold c.
  set (total := CombinedGripEnvelope.total_grip_used e).
  destruct (fge total 1) eqn:Hg1;
    [|destruct (fge total (FrictionCircleConfig.critical_threshold c)) eqn:Hg2;
      [|destruct (fge total (FrictionCircleConfig.warning_threshold c)) eqn:Hg3]];
    rewrite ?fge_true in *;
    try apply fle_false in Hg1; try apply fle_false in Hg2;
    try apply fle_false in Hg3;
    eexists; eexists; (split; [reflexivity|]); (split; [reflexivity|]);
    split; split; try discriminate; try reflexivity; intros; try lra;
    intuition (try lra; try discriminate).
Qed.

Lemma check_limit_classifies_total_witness :
  exists e flag status,
    FrictionCircleEnforcer.compute_grip_usage enforcer_ellipse 0.3 0 1 1.2 = Some e
    /\ FrictionCircleEnforcer.check_limit enforcer_ellipse 0.3 0 1 1.2
       = Some (flag, status, 1 - CombinedGripEnvelope.total_grip_used e).
Proof.
  destruct (check_limit_classifies_total enforcer_ellipse 0.3 0 1 1.2
              ltac:(lra) ltac:(lra) ltac:(cbn; lra) ltac:(cbn; lra)
              ltac:(cbn; lra))
    as (e & flag & status & He & Hc & _).
  exists e, flag, status. split; assumption.
Defined.

(** ** Learning applied to the envelope map *)

(** X21: [blend_with_learned] uses the blend weight clamped to
    [[0, 0.3]] but records the weight as given; the envelope speed of the
    result is the clamped-weight mix of the conservative and the learned
    speed, cut at the ceiling, so it lies between the smaller and the
    larger of the two speeds, each cut at the ceiling; the conservative
    speed is kept and the learned speed recorded. *)
Theorem blend_with_learned_mixes_conservative_and_learned
    (e : CornerSpeedEnvelope.t) (learned_speed_kmh blend_weight : R) :
  let e' := CornerSpeedEnvelope.blend_with_learned e learned_speed_kmh
              blend_weight in
  let weight := Rmax 0 (Rmin 0.3 blend_weight) in
  let conservative := CornerSpeedEnvelope.conservative_speed_kmh e in
  let ceiling := PhysicsCeiling.value (CornerSpeedEnvelope.physics_ceiling_kmh e) in
  0 <= weight <= 0.3
  /\ CornerSpeedEnvelope.envelope_speed_kmh e'
     = Rmin ((1 - weight) * conservative + weight * learned_speed_kmh) ceiling
  /\ Rmin (Rmin conservative learned_speed_kmh) ceiling
     <= CornerSpeedEnvelope.envelope_speed_kmh e'
     <= Rmin (Rmax conservative learned_speed_kmh) ceiling
  /\ CornerSpeedEnvelope.conservative_speed_kmh e' = conservative
  /\ CornerSpeedEnvelope.learned_speed_kmh e' = Some learned_speed_kmh
  /\ CornerSpeedEnvelope.learning_confidence e' = blend_weight.
Proof.
  intros e' weight conservative ceiling.
  assert (0 <= weight <= 0.3) as Hw.
  { subst weight. split; [apply Rmax_l|].
    apply Rmax_lub; [lra | apply Rmin_l]. }
  assert (CornerSpeedEnvelope.envelope_speed_kmh e'
          = Rmin ((1 - weight) * conservative + weight * learned_speed_kmh)
                 ceiling) as Hspeed.
  { subst e'. unfold CornerSpeedEnvelope.blend_with_learned,
      CornerSpeedEnvelope.make, CornerSpeedEnvelope.post_init.
    cbn [CornerSpeedEnvelope.envelope_speed_kmh
         CornerSpeedEnvelope.physics_ceiling_kmh].
    fold weight. fold conservative. fold ceiling.
    assert (fgt (Rmin ((1 - weight) * conservative + weight * learned_speed_kmh)
                      ceiling) ceiling = false) as ->
      by (apply flt_false, Rmin_r).
    reflexivity. }
  split; [exact Hw|]. split; [exact Hspeed|]. split.
  - rewrite Hspeed.
    set (mix := (1 - weight) * conservative + weight * learned_speed_kmh).
    assert (Rmin conservative learned_speed_kmh <= mix
            <= Rmax conservative learned_speed_kmh) as [Hlo Hhi].
    { subst mix. unfold Rmin, Rmax.
      destruct (Rle_dec conservative learned_speed_kmh); split; nra. }
    split; apply Rmin_glb;
      solve [apply Rmin_r
            | eapply Rle_trans; [apply Rmin_l | assumption]
            | eapply Rle_trans; [apply Rmin_l | lra]].
  - subst e'. unfold CornerSpeedEnvelope.blend_with_learned,
      CornerSpeedEnvelope.make, CornerSpeedEnvelope.post_init.
    destruct (fgt _ _); cbn; auto.
Qed.

(** X22: [update_from_learning] returns [False] and changes nothing when
    the segment has no envelope or its envelope has no corner speed;
    otherwise it returns [True], replaces the corner speed of that segment
    by its blend with the learned speed, and leaves the other fields of
    the segment envelope, every other segment and the track length as
    they were. *)
Theorem update_from_learning_touches_corner_speed_only (self : EnvelopeManager.t)
    (segment_id : Z) (learned_speed_kmh blend_weight : R) :
  let result := EnvelopeManager.update_from_learning self segment_id
                  learned_speed_kmh blend_weight in
  let old := EnvelopeManager._segment_envelopes self !! segment_id in
  (fst result = true
   <-> exists envelope cs,
         old = Some envelope /\ SegmentEnvelope.corner_speed envelope = Some cs)
  /\ (fst result = false -> snd result = self)
  /\ EnvelopeManager._track_length_m (snd result)
     = EnvelopeManager._track_length_m self
  /\ (forall other, other <> segment_id ->
        EnvelopeManager._segment_envelopes (snd result) !! other
        = EnvelopeManager._segment_envelopes self !! other)
  /\ (forall envelope cs,
        old = Some envelope -> SegmentEnvelope.corner_speed envelope = Some cs ->
        exists envelope',
          EnvelopeManager._segment_envelopes (snd result) !! segment_id
          = Some envelope'
          /\ SegmentEnvelope.corner_speed envelope'
             = Some (CornerSpeedEnvelope.blend_with_learned cs learned_speed_kmh
                       blend_weight)
          /\ SegmentEnvelope.braking envelope' = SegmentEnvelope.braking envelope
          /\ SegmentEnvelope.steering envelope' = SegmentEnvelope.steering envelope
          /\ SegmentEnvelope.combined_grip envelope'
             = SegmentEnvelope.combined_grip envelope
          /\ SegmentEnvelope.confidence envelope'
             = SegmentEnvelope.confidence envelope
          /\ SegmentEnvelope.segment_id envelope'
             = SegmentEnvelope.segment_id envelope
          /\ SegmentEnvelope.distance_start_m envelope'
             = SegmentEnvelope.distance_start_m envelope
          /\ SegmentEnvelope.distance_end_m envelope'
             = SegmentEnvelope.distance_end_m envelope).
Proof.
  intros result old. subst result old.
  unfold EnvelopeManager.update_from_learning.
  destruct (EnvelopeManager._segment_envelopes self !! segment_id)
    as [envelope|] eqn:Hlook.
  - destruct (SegmentEnvelope.corner_speed envelope) as [cs|] eqn:Hcs.
    + cbn [fst snd EnvelopeManager._segment_envelopes
           EnvelopeManager._track_length_m].
      split; [split; [eauto | reflexivity]|].
      split; [discriminate|]. split; [reflexivity|]. split.
      * intros other Hne. now rewrite lookup_insert_ne.
      * intros envelope0 cs0 [= <-] Hcs0. rewrite Hcs in Hcs0.
        injection Hcs0 as <-. rewrite lookup_insert_eq.
        eexists. split; [reflexivity|]. cbn. repeat split.
    + cbn [fst snd]. split.
      { split; [discriminate|]. intros (envelope0 & cs0 & [= <-] & Hcs0).
        congruence. }
      split; [reflexivity|]. split; [reflexivity|]. split; [reflexivity|].
      intros envelope0 cs0 [= <-] Hcs0. congruence.
  - cbn [fst snd]. split.
    { split; [discriminate|]. intros (envelope0 & cs0 & Hold & _). discriminate. }
    split; [reflexivity|]. split; [reflexivity|]. split; [reflexivity|].
    intros envelope0 cs0 Hold. discriminate.
Qed.

Lemma update_from_learning_touches_corner_speed_only_witness :
  snd (EnvelopeManager.update_from_learning envelope_manager_of_tests 7 90 0.2)
  = envelope_manager_of_tests.
Proof.
  apply (update_from_learning_touches_corner_speed_only
           envelope_manager_of_tests 7 90 0.2).
  reflexivity.
Defined.

(** ** The braking calculator *)

Section Braking.
Variable self : BrakingCalculator.t.

Local Abbreviation cfg := (BrakingCalculator.config self).
Local Abbreviation deceleration :=
  (BrakingConfig.max_deceleration_g cfg * BrakingCalculator.GRAVITY
   * BrakingConfig.braking_efficiency cfg * BrakingConfig.surface_factor cfg).

(** The distance before the clamps, as a function of the two speeds in
    m/s. *)
Local Abbreviation raw_distance v1 v2 :=
  (((v1 ^ 2 - v2 ^ 2) / (2 * deceleration)
    + v1 * BrakingConfig.reaction_time_s cfg)
   * BrakingConfig.safety_factor cfg
   + BrakingConfig.safety_distance_m cfg).

Lemma _compute_stopping_distance_braking (initial final : R) :
  deceleration <> 0 -> final < initial ->
  BrakingCalculator._compute_stopping_distance self initial final
  = Some (Rmin (BrakingConfig.max_braking_distance_m cfg)
               (Rmax (BrakingConfig.min_braking_distance_m cfg)
                     (raw_distance (initial / 3.6) (final / 3.6)))).
Proof.
  intros Ha Hlt. unfold BrakingCalculator._compute_stopping_distance.
  assert (fle (initial / 3.6) (final / 3.6) = false) as ->
    by (apply fle_false; lra).
  rewrite fdiv_Some by lra. reflexivity.
Qed.

Lemma _compute_stopping_distance_no_braking (initial final : R) :
  initial <= final ->
  BrakingCalculator._compute_stopping_distance self initial final = Some 0.
Proof.
  intros Hle. unfold BrakingCalculator._compute_stopping_distance.
  now assert (fle (initial / 3.6) (final / 3.6) = true) as ->
    by (apply fle_true; lra).
Qed.

Lemma raw_distance_mono (v1 v1' v2 : R) :
  0 < deceleration -> 0 <= BrakingConfig.safety_factor cfg ->
  0 <= BrakingConfig.reaction_time_s cfg ->
  0 <= v2 -> v2 < v1 -> v1 <= v1' ->
  raw_distance v1 v2 <= raw_distance v1' v2.
Proof.
  intros Ha Hsf Hrt Hv2 Hv1 Hv.
  assert (0 < / (2 * deceleration)) as Hinv
    by (apply Rinv_0_lt_compat; lra).
  set (k := / (2 * deceleration)) in *.
  unfold Rdiv. fold k.
  assert (v1 ^ 2 <= v1' ^ 2) by nra.
  assert ((v1 ^ 2 - v2 ^ 2) * k <= (v1' ^ 2 - v2 ^ 2) * k) by nra.
  assert (v1 * BrakingConfig.reaction_time_s cfg
          <= v1' * BrakingConfig.reaction_time_s cfg) by nra.
  nra.
Qed.

End Braking.

(** X23: with a positive effective deceleration, braking-distance limits
    in order and a non-negative safety factor and reaction time,
    [_compute_stopping_distance] returns 0 when the initial speed is not
    above the final one; for speeds of at most 1000 km/h and an initial
    speed at least 0.001 km/h above the final one, far enough apart for
    their quotients by 3.6 to differ as floats, it returns a distance
    between the minimum and the maximum braking distance, which does not
    shrink when the initial speed grows. *)
Theorem stopping_distance_clamped_and_monotone (self : BrakingCalculator.t)
    (v1 v1' v2 : R) :
  let c := BrakingCalculator.config self in
  0 < BrakingConfig.max_deceleration_g c * BrakingCalculator.GRAVITY
      * BrakingConfig.braking_efficiency c * BrakingConfig.surface_factor c ->
  BrakingConfig.min_braking_distance_m c <= BrakingConfig.max_braking_distance_m c ->
  0 <= BrakingConfig.safety_factor c -> 0 <= BrakingConfig.reaction_time_s c ->
  0 <= v2 -> v2 + 0.001 <= v1 -> v1 <= v1' -> v1' <= 1000 ->
  (forall v, v <= v2 ->
     BrakingCalculator._compute_stopping_distance self v v2 = Some 0)
  /\ exists d d',
       BrakingCalculator._compute_stopping_distance self v1 v2 = Some d
       /\ BrakingCalculator._compute_stopping_distance self v1' v2 = Some d'
       /\ BrakingConfig.min_braking_distance_m c <= d
       /\ d <= d'
       /\ d' <= BrakingConfig.max_braking_distance_m c.
Proof.
  intros c Ha Hmm Hsf Hrt Hv2 Hgap Hv _. assert (v2 < v1) as Hv1 by lra. split.
  - intros v Hle. now apply _compute_stopping_distance_no_braking.
  - rewrite !_compute_stopping_distance_braking by (fold c; lra).
    eexists. eexists. split; [reflexivity|]. split; [reflexivity|].
    pose proof (raw_distance_mono self (v1 / 3.6) (v1' / 3.6) (v2 / 3.6)
                  Ha Hsf Hrt ltac:(lra) ltac:(lra) ltac:(lra)) as Hmono.
    split; [apply Rmin_glb; [assumption | apply Rmax_l]|].
    split; [|apply Rmin_l].
    apply Rle_min_compat_l, Rle_max_compat_l. exact Hmono.
Qed.

Lemma braking_default_deceleration :
  0 < BrakingConfig.max_deceleration_g BrakingConfig.default
      * BrakingCalculator.GRAVITY
      * BrakingConfig.braking_efficiency BrakingConfig.default
      * BrakingConfig.surface_factor BrakingConfig.default.
Proof. unfold BrakingCalculator.GRAVITY. cbn. lra. Defined.

Lemma stopping_distance_clamped_and_monotone_witness :
  let self := {| BrakingCalculator.config := BrakingConfig.default |} in
  exists d d',
    BrakingCalculator._compute_stopping_distance self 150 80 = Some d
    /\ BrakingCalculator._compute_stopping_distance self 180 80 = Some d'
    /\ BrakingConfig.min_braking_distance_m (BrakingCalculator.config self) <= d
    /\ d <= d'
    /\ d' <= BrakingConfig.max_braking_distance_m (BrakingCalculator.config self).
Proof.
  apply (stopping_distance_clamped_and_monotone
           {| BrakingCalculator.config := BrakingConfig.default |} 150 180 80);
    try exact braking_default_deceleration; cbn; lra.
Defined.



(** X25: with a positive effective deceleration and a non-negative
    maximum deceleration, [compute_brake_point] and [is_braking_late]
    both return; the margin of [is_braking_late] is the distance to the
    corner less the braking distance of the envelope, it is flagged late
    exactly when that margin is negative, and the brake point is the
    margin itself when no braking is needed and the margin cut at 0
    otherwise, so a late verdict means a brake point of 0; the envelope
    carries the configured maximum as its ceiling. *)
Theorem brake_point_agrees_with_lateness (self : BrakingCalculator.t)
    (current target distance : R) :
  let c := BrakingCalculator.config self in
  0 < BrakingConfig.max_deceleration_g c * BrakingCalculator.GRAVITY
      * BrakingConfig.braking_efficiency c * BrakingConfig.surface_factor c ->
  0 <= BrakingConfig.max_deceleration_g c ->
  exists brake_point envelope is_late margin,
    BrakingCalculator.compute_brake_point self current target distance
    = Some (brake_point, envelope)
    /\ BrakingCalculator.is_braking_late self current target distance
       = Some (is_late, margin)
    /\ margin = distance - BrakingEnvelope.brake_distance_m envelope
    /\ (is_late = true <-> margin < 0)
    /\ (current <= target -> brake_point = margin)
    /\ (target < current -> brake_point = Rmax 0 margin)
    /\ (target < current -> is_late = true -> brake_point = 0)
    /\ PhysicsCeiling.value (BrakingEnvelope.max_deceleration_g envelope)
       = BrakingConfig.max_deceleration_g c.
Proof.
  intros c Ha Hmax.
  unfold BrakingCalculator.compute_brake_point, BrakingCalculator.is_braking_late.
  unfold PhysicsCeiling.make. fold c.
  assert (flt (BrakingConfig.max_deceleration_g c) 0 = false) as ->
    by now apply flt_false.
  destruct (fle current target) eqn:Hct.
  - apply fle_true in Hct.
    rewrite _compute_stopping_distance_no_braking by assumption.
    cbn [mbind option_bind].
    do 4 eexists. split; [reflexivity|]. split; [reflexivity|].
    cbn [BrakingEnvelope.brake_distance_m BrakingEnvelope.max_deceleration_g
         PhysicsCeiling.value].
    split; [reflexivity|]. split; [apply flt_true|].
    repeat split; intros; try lra.
  - apply fle_false in Hct.
    rewrite _compute_stopping_distance_braking by (fold c; lra).
    cbn [mbind option_bind].
    do 4 eexists. split; [reflexivity|]. split; [reflexivity|].
    cbn [BrakingEnvelope.brake_distance_m BrakingEnvelope.max_deceleration_g
         PhysicsCeiling.value].
    split; [reflexivity|]. split; [apply flt_true|].
    split; [intros; lra|]. split; [reflexivity|]. split; [|reflexivity].
    intros _ Hlate%flt_true. apply Rmax_left. lra.
Qed.

Lemma brake_point_agrees_with_lateness_witness :
  let self := {| BrakingCalculator.config := BrakingConfig.default |} in
  exists brake_point envelope is_late margin,
    BrakingCalculator.compute_brake_point self 180 80 50
    = Some (brake_point, envelope)
    /\ BrakingCalculator.is_braking_late self 180 80 50 = Some (is_late, margin)
    /\ margin = 50 - BrakingEnvelope.brake_distance_m envelope.
Proof.
  destruct (brake_point_agrees_with_lateness
              {| BrakingCalculator.config := BrakingConfig.default |} 180 80 50
              braking_default_deceleration ltac:(cbn; lra))
    as (bp & env & late & margin & H1 & H2 & H3 & _).
  exists bp, env, late, margin. auto.
Defined.

(** ** Building the envelope map *)

Lemma _compute_physics_limit_returns (self : CornerSpeedCalculator.t)
    (radius : option R) (mu : R) :
  0 <= mu ->
  0 <= CornerSpeedConfig.absolute_max_speed_kmh (CornerSpeedCalculator.config self) ->
  exists v,
    CornerSpeedCalculator._compute_physics_limit self radius mu = Some v
    /\ 0 <= v
    /\ (radius = None ->
        v * 3.6 = CornerSpeedConfig.absolute_max_speed_kmh
                    (CornerSpeedCalculator.config self))
    /\ (forall r, radius = Some r -> r <= 0 -> v = 0).
Proof.
  intros Hmu Hmax. unfold CornerSpeedCalculator._compute_physics_limit.
  destruct radius as [r|].
  - destruct (fle r 0) eqn:Hr.
    + exists 0. repeat split; try lra; try discriminate; try reflexivity.
    + apply fle_false in Hr. unfold CornerSpeedCalculator.GRAVITY.
      rewrite fsqrt_Some by nra. eexists. split; [reflexivity|].
      split; [apply sqrt_pos|]. split; [discriminate|].
      intros r' [= <-] Hle. lra.
  - eexists. split; [reflexivity|]. split; [lra|]. split; [intros; lra|].
    discriminate.
Qed.

(** [compute_for_segment] returns when the physics limit does, and what it
    returns has passed [__post_init__]. *)
Lemma compute_for_segment_returns (self : CornerSpeedCalculator.t)
    (segment : TrackSegment.t) :
  let c := CornerSpeedCalculator.config self in
  0 <= CornerSpeedConfig.tire_friction_mu c ->
  0 <= CornerSpeedConfig.absolute_min_speed_kmh c
    <= CornerSpeedConfig.absolute_max_speed_kmh c ->
  exists envelope,
    CornerSpeedCalculator.compute_for_segment self segment = Some envelope
    /\ CornerSpeedEnvelope.within_ceiling envelope.
Proof.
  intros c Hmu [Hmin Hminmax].
  unfold CornerSpeedCalculator.compute_for_segment. fold c.
  destruct (_compute_physics_limit_returns self
              (TrackSegment.minimum_radius_m segment)
              (CornerSpeedConfig.tire_friction_mu c) Hmu ltac:(fold c; lra))
    as (v & -> & _).
  cbn [mbind option_bind]. unfold PhysicsCeiling.make.
  set (ceiling := Rmax _ _).
  assert (flt ceiling 0 = false) as ->.
  { apply flt_false. subst ceiling.
    pose proof (Rmax_r (Rmin (v * 3.6)
                          (CornerSpeedConfig.absolute_max_speed_kmh c))
                  (CornerSpeedConfig.absolute_min_speed_kmh c)).
    lra. }
  cbn [mbind option_bind]. eexists. split; [reflexivity|].
  apply post_init_within_ceiling.
Qed.

(** X26: with a non-negative friction coefficient and speed limits
    [0 <= absolute_min <= absolute_max], [compute_for_segment] returns an
    envelope for the segment whose physics ceiling lies within the two
    limits, is the maximum for a segment of infinite radius and the
    minimum for one of non-positive radius, and whose envelope speed never
    exceeds the ceiling; with the safety factor and the low-confidence
    penalty in [[0,1]] the envelope speed is the conservative speed. *)
Theorem compute_for_segment_within_limits (self : CornerSpeedCalculator.t)
    (segment : TrackSegment.t) :
  let c := CornerSpeedCalculator.config self in
  0 <= CornerSpeedConfig.tire_friction_mu c ->
  0 <= CornerSpeedConfig.absolute_min_speed_kmh c
    <= CornerSpeedConfig.absolute_max_speed_kmh c ->
  exists envelope,
    CornerSpeedCalculator.compute_for_segment self segment = Some envelope
    /\ CornerSpeedEnvelope.segment_id envelope = TrackSegment.segment_id segment
    /\ CornerSpeedConfig.absolute_min_speed_kmh c
       <= PhysicsCeiling.value (CornerSpeedEnvelope.physics_ceiling_kmh envelope)
       <= CornerSpeedConfig.absolute_max_speed_kmh c
    /\ (TrackSegment.minimum_radius_m segment = None ->
        PhysicsCeiling.value (CornerSpeedEnvelope.physics_ceiling_kmh envelope)
        = CornerSpeedConfig.absolute_max_speed_kmh c)
    /\ (forall r, TrackSegment.minimum_radius_m segment = Some r -> r <= 0 ->
        PhysicsCeiling.value (CornerSpeedEnvelope.physics_ceiling_kmh envelope)
        = CornerSpeedConfig.absolute_min_speed_kmh c)
    /\ CornerSpeedEnvelope.within_ceiling envelope
    /\ (0 <= CornerSpeedConfig.safety_factor c <= 1 ->
        0 <= CornerSpeedConfig.low_confidence_penalty c <= 1 ->
        CornerSpeedEnvelope.envelope_speed_kmh envelope
        = CornerSpeedEnvelope.conservative_speed_kmh envelope).
Proof.
  intros c Hmu [Hmin Hminmax].
  unfold CornerSpeedCalculator.compute_for_segment. fold c.
  destruct (_compute_physics_limit_returns self
              (TrackSegment.minimum_radius_m segment)
              (CornerSpeedConfig.tire_friction_mu c) Hmu ltac:(fold c; lra))
    as (v & -> & Hv & Hinf & Hdeg).
  fold c in Hinf. cbn [mbind option_bind].
  set (lo := CornerSpeedConfig.absolute_min_speed_kmh c) in *.
  set (hi := CornerSpeedConfig.absolute_max_speed_kmh c) in *.
  set (ceiling := Rmax (Rmin (v * 3.6) hi) lo).
  assert (lo <= ceiling <= hi) as [Hlo Hhi].
  { subst ceiling. split; [apply Rmax_r|].
    apply Rmax_lub; [apply Rmin_r | assumption]. }
  unfold PhysicsCeiling.make.
  assert (flt ceiling 0 = false) as -> by (apply flt_false; lra).
  cbn [mbind option_bind].
  eexists. split; [reflexivity|].
  set (conservative := if flt _ _ then _ else _).
  unfold CornerSpeedEnvelope.make.
  split; [unfold CornerSpeedEnvelope.post_init; now destruct (fgt _ _)|].
  rewrite post_init_ceiling.
  cbn [CornerSpeedEnvelope.physics_ceiling_kmh PhysicsCeiling.value].
  split; [split; assumption|]. split.
  { intros Hnone. subst ceiling. rewrite (Hinf Hnone).
    rewrite Rmin_left by lra. now apply Rmax_left. }
  split.
  { intros r Hr Hle. subst ceiling. rewrite (Hdeg r Hr Hle).
    rewrite Rmult_0_l, Rmin_left by lra. apply Rmax_right. lra. }
  split; [apply post_init_within_ceiling|].
  intros Hsf Hpen.
  assert (conservative <= ceiling) as Hcons.
  { assert (0 <= ceiling * CornerSpeedConfig.safety_factor c <= ceiling)
      as [Hs0 Hs1] by nra.
    subst conservative. destruct (flt _ _); nra. }
  unfold CornerSpeedEnvelope.post_init.
  cbn [CornerSpeedEnvelope.envelope_speed_kmh
       CornerSpeedEnvelope.physics_ceiling_kmh PhysicsCeiling.value].
  assert (fgt conservative ceiling = false) as -> by now apply flt_false.
  reflexivity.
Qed.

Lemma compute_for_segment_within_limits_witness :
  exists envelope,
    CornerSpeedCalculator.compute_for_segment corner_speed_calc_default
      corner_of_tests = Some envelope
    /\ CornerSpeedEnvelope.segment_id envelope
       = TrackSegment.segment_id corner_of_tests.
Proof.
  destruct (compute_for_segment_within_limits corner_speed_calc_default
              corner_of_tests ltac:(cbn; lra) ltac:(cbn; lra))
    as (envelope & H1 & H2 & _).
  exists envelope. split; assumption.
Defined.

Lemma find_some_iff {A} (f : A -> bool) (l : list A) :
  List.find f l = None <-> forall x, In x l -> f x = false.
Proof.
  split.
  - intros Hnone x Hin. now apply (find_none f l Hnone).
  - induction l as [|a l IH]; [reflexivity|]. intros Hall. cbn.
    rewrite (Hall a) by now left. apply IH. intros x Hx. apply Hall. now right.
Qed.

(** X27: [_find_next_corner] returns a segment of the track that is a
    corner, one that starts beyond the end of the current segment when the
    track has such a corner, and returns [None] exactly when the track has
    no corner at all. *)
Theorem find_next_corner_is_a_corner (current : TrackSegment.t)
    (track : TrackModel.t) :
  (forall segment,
     EnvelopeManager._find_next_corner current track = Some segment ->
     In segment (TrackModel.segments track)
     /\ TrackSegment.is_corner segment = true)
  /\ (EnvelopeManager._find_next_corner current track = None
      <-> forall segment, In segment (TrackModel.segments track) ->
                          TrackSegment.is_corner segment = false)
  /\ (forall ahead,
        In ahead (TrackModel.segments track) ->
        TrackSegment.is_corner ahead = true ->
        TrackSegment.end_distance_m current < TrackSegment.start_distance_m ahead ->
        exists segment,
          EnvelopeManager._find_next_corner current track = Some segment
          /\ TrackSegment.end_distance_m current
             < TrackSegment.start_distance_m segment).
Proof.
  unfold EnvelopeManager._find_next_corner.
  set (ahead_corner := fun segment =>
         fgt (TrackSegment.start_distance_m segment)
             (TrackSegment.end_distance_m current)
         && TrackSegment.is_corner segment).
  split; [|split].
  - intros segment.
    destruct (List.find ahead_corner (TrackModel.segments track)) as [s|] eqn:Hf.
    + intros [= <-]. apply find_some in Hf as [Hin Hc].
      subst ahead_corner. cbn in Hc. apply andb_true_iff in Hc as [_ Hc]. auto.
    + intros Hw. now apply find_some in Hw.
  - destruct (List.find ahead_corner (TrackModel.segments track)) as [s|] eqn:Hf.
    + split; [discriminate|]. intros Hall.
      apply find_some in Hf as [Hin Hc].
      subst ahead_corner. cbn in Hc. apply andb_true_iff in Hc as [_ Hc].
      rewrite (Hall s Hin) in Hc. discriminate.
    + apply find_some_iff.
  - intros ahead Hin Hc Hstart.
    destruct (List.find ahead_corner (TrackModel.segments track)) as [s|] eqn:Hf.
    + exists s. split; [reflexivity|]. apply find_some in Hf as [_ Hs].
      subst ahead_corner. cbn in Hs. apply andb_true_iff in Hs as [Hs _].
      now apply fgt_true in Hs.
    + pose proof (find_none _ _ Hf ahead Hin) as Hno.
      subst ahead_corner. cbn in Hno. rewrite Hc, Bool.andb_true_r in Hno.
      apply flt_false in Hno. lra.
Qed.

(** The corner starts where the straight ends, so it is not ahead of the
    straight in the strict sense of the first loop; the wrap-around loop
    finds it. *)
Lemma find_next_corner_is_a_corner_witness :
  In corner_of_tests (TrackModel.segments track_of_tests)
  /\ TrackSegment.is_corner corner_of_tests = true.
Proof.
  apply (proj1 (find_next_corner_is_a_corner straight_of_tests track_of_tests)
           corner_of_tests).
  feval; reflexivity.
Defined.

Lemma compute_brake_point_returns (self : BrakingCalculator.t)
    (current target distance : R) :
  let c := BrakingCalculator.config self in
  BrakingConfig.max_deceleration_g c * BrakingCalculator.GRAVITY
  * BrakingConfig.braking_efficiency c * BrakingConfig.surface_factor c <> 0 ->
  0 <= BrakingConfig.max_deceleration_g c ->
  is_Some (BrakingCalculator.compute_brake_point self current target distance).
Proof.
  intros c Ha Hmax. unfold BrakingCalculator.compute_brake_point.
  unfold PhysicsCeiling.make. fold c.
  assert (flt (BrakingConfig.max_deceleration_g c) 0 = false) as ->
    by now apply flt_false.
  destruct (fle current target) eqn:Hct; cbn [mbind option_bind]; [eauto|].
  apply fle_false in Hct.
  rewrite _compute_stopping_distance_braking by assumption.
  cbn [mbind option_bind]. eauto.
Qed.

(** What [_build_segment_envelope] returns under sane configurations. *)
Lemma _build_segment_envelope_returns
    (corner_speed_calc : CornerSpeedCalculator.t)
    (braking_calc : BrakingCalculator.t)
    (segment : TrackSegment.t) (track : TrackModel.t) :
  let cc := CornerSpeedCalculator.config corner_speed_calc in
  let bc := BrakingCalculator.config braking_calc in
  0 <= CornerSpeedConfig.tire_friction_mu cc ->
  0 <= CornerSpeedConfig.absolute_min_speed_kmh cc
    <= CornerSpeedConfig.absolute_max_speed_kmh cc ->
  BrakingConfig.max_deceleration_g bc * BrakingCalculator.GRAVITY
  * BrakingConfig.braking_efficiency bc * BrakingConfig.surface_factor bc <> 0 ->
  0 <= BrakingConfig.max_deceleration_g bc ->
  exists envelope cs,
    EnvelopeManager._build_segment_envelope corner_speed_calc braking_calc
      segment track = Some envelope
    /\ SegmentEnvelope.segment_id envelope = TrackSegment.segment_id segment
    /\ SegmentEnvelope.corner_speed envelope = Some cs
    /\ CornerSpeedEnvelope.within_ceiling cs
    /\ (TrackSegment.is_corner segment = true ->
        SegmentEnvelope.braking envelope = None).
Proof.
  intros cc bc Hmu Hlim Ha Hmax.
  unfold EnvelopeManager._build_segment_envelope.
  destruct (compute_for_segment_returns corner_speed_calc segment Hmu Hlim)
    as (cs & -> & Hwithin).
  cbn [mbind option_bind].
  destruct (EnvelopeManager._find_next_corner segment track) as [next|].
  - destruct (TrackSegment.is_corner segment); cbn [negb].
    + cbn [mbind option_bind]. eexists. eexists.
      split; [reflexivity|]. cbn. auto.
    + destruct (compute_brake_point_returns braking_calc 200
                  (CornerSpeedEnvelope.envelope_speed_kmh cs)
                  (TrackSegment.start_distance_m next
                   - TrackSegment.end_distance_m segment) Ha Hmax)
        as [result ->].
      cbn [mbind option_bind]. eexists. eexists.
      split; [reflexivity|]. cbn. repeat split; try assumption. discriminate.
  - cbn [mbind option_bind]. eexists. eexists.
    split; [reflexivity|]. cbn. auto.
Qed.

(** X28: with a non-negative friction coefficient, speed limits
    [0 <= absolute_min <= absolute_max], a non-zero effective deceleration
    and a non-negative maximum deceleration, [build_envelopes] returns a
    manager that records the track length, holds an envelope for exactly
    the segment ids of the track, each filed under its own id and with a
    corner speed, and satisfies the ceiling invariant on every corner
    speed; what the manager held before plays no part. *)
Theorem build_envelopes_establishes_invariant
    (corner_speed_calc : CornerSpeedCalculator.t)
    (braking_calc : BrakingCalculator.t)
    (self : EnvelopeManager.t) (track : TrackModel.t) :
  let cc := CornerSpeedCalculator.config corner_speed_calc in
  let bc := BrakingCalculator.config braking_calc in
  0 <= CornerSpeedConfig.tire_friction_mu cc ->
  0 <= CornerSpeedConfig.absolute_min_speed_kmh cc
    <= CornerSpeedConfig.absolute_max_speed_kmh cc ->
  BrakingConfig.max_deceleration_g bc * BrakingCalculator.GRAVITY
  * BrakingConfig.braking_efficiency bc * BrakingConfig.surface_factor bc <> 0 ->
  0 <= BrakingConfig.max_deceleration_g bc ->
  exists self',
    EnvelopeManager.build_envelopes corner_speed_calc braking_calc self track
    = Some self'
    /\ EnvelopeManager._track_length_m self' = TrackModel.total_length_m track
    /\ (forall sid,
          is_Some (EnvelopeManager._segment_envelopes self' !! sid)
          <-> In sid (map TrackSegment.segment_id (TrackModel.segments track)))
    /\ (forall sid envelope,
          EnvelopeManager._segment_envelopes self' !! sid = Some envelope ->
          SegmentEnvelope.segment_id envelope = sid
          /\ is_Some (SegmentEnvelope.corner_speed envelope))
    /\ EnvelopeManager.all_within_ceiling self'.
Proof.
  intros cc bc Hmu Hlim Ha Hmax.
  set (good := fun (m : gmap Z SegmentEnvelope.t) =>
         forall sid envelope, m !! sid = Some envelope ->
           SegmentEnvelope.segment_id envelope = sid
           /\ exists cs, SegmentEnvelope.corner_speed envelope = Some cs
                         /\ CornerSpeedEnvelope.within_ceiling cs).
  assert (forall todo acc, good acc ->
            exists m,
              EnvelopeManager.build_loop corner_speed_calc braking_calc track
                todo acc = Some m
              /\ good m
              /\ forall sid, is_Some (m !! sid)
                   <-> is_Some (acc !! sid)
                       \/ In sid (map TrackSegment.segment_id todo)) as Hloop.
  { induction todo as [|segment todo IH]; intros acc Hacc.
    - exists acc. cbn. split; [reflexivity|]. split; [assumption|].
      intros sid. tauto.
    - cbn [EnvelopeManager.build_loop].
      destruct (_build_segment_envelope_returns corner_speed_calc braking_calc
                  segment track Hmu Hlim Ha Hmax)
        as (envelope & cs & -> & Hid & Hcs & Hwithin & _).
      cbn [mbind option_bind].
      destruct (IH (<[TrackSegment.segment_id segment := envelope]> acc))
        as (m & Hm & Hgood & Hkeys).
      { intros sid env.
        destruct (decide (TrackSegment.segment_id segment = sid)) as [<-|Hne].
        - rewrite lookup_insert_eq. intros [= <-]. eauto.
        - rewrite lookup_insert_ne by assumption. apply Hacc. }
      exists m. split; [assumption|]. split; [assumption|].
      intros sid. rewrite Hkeys. cbn [map In].
      destruct (decide (TrackSegment.segment_id segment = sid)) as [<-|Hne].
      + rewrite lookup_insert_eq. split; [auto|]. intros _. left. eauto.
      + rewrite lookup_insert_ne by assumption. tauto. }
  destruct (Hloop (TrackModel.segments track) ∅) as (m & Hm & Hgood & Hkeys).
  { intros sid envelope. rewrite lookup_empty. discriminate. }
  unfold EnvelopeManager.build_envelopes. rewrite Hm. cbn [mbind option_bind].
  eexists. split; [reflexivity|].
  cbn [EnvelopeManager._track_length_m EnvelopeManager._segment_envelopes].
  split; [reflexivity|]. split.
  - intros sid. rewrite Hkeys, lookup_empty. split.
    + intros [[? [=]]|Hin]. exact Hin.
    + auto.
  - split.
    + intros sid envelope Hl. destruct (Hgood sid envelope Hl) as [Hid [cs [Hcs _]]].
      rewrite Hcs. eauto.
    + intros sid envelope cs Hl Hcs.
      destruct (Hgood sid envelope Hl) as [_ [cs' [Hcs' Hw]]]. congruence.
Qed.

Lemma build_envelopes_establishes_invariant_witness :
  exists self',
    EnvelopeManager.build_envelopes corner_speed_calc_default braking_calc_default
      envelope_manager_of_tests track_of_tests = Some self'
    /\ EnvelopeManager._track_length_m self'
       = TrackModel.total_length_m track_of_tests.
Proof.
  destruct (build_envelopes_establishes_invariant corner_speed_calc_default
              braking_calc_default envelope_manager_of_tests track_of_tests
              ltac:(cbn; lra) ltac:(cbn; lra)
              ltac:(unfold BrakingCalculator.GRAVITY; cbn; lra)
              ltac:(cbn; lra))
    as (self' & H1 & H2 & _).
  exists self'. split; assumption.
Defined.

(** ** Clearing a segment *)

(** X29: [clear_segment] removes the window and the statistics of the
    segment and nothing else, and keeps the store sound; the next accepted
    observation for that segment, the capacity being at least 1, starts
    its statistics afresh, with a count of 1 and a decay factor of 1
    whatever the decay was before. *)
Theorem clear_segment_starts_afresh (store : SegmentStatsStore.t)
    (segment_id : Z) (o : SegmentObservation.t) :
  SegmentStatsStore.consistent store -> SegmentStatsStore.bounded store ->
  SegmentStatsStore.accepted o ->
  SegmentObservation.segment_id o = segment_id ->
  (1 <= SegmentStatsStore._max_observations store)%Z ->
  let store' := SegmentStatsStore.clear_segment store segment_id in
  SegmentStatsStore.get_statistics store' segment_id = None
  /\ SegmentStatsStore._observations store' !! segment_id = None
  /\ (forall other, other <> segment_id ->
        SegmentStatsStore.get_statistics store' other
        = SegmentStatsStore.get_statistics store other
        /\ SegmentStatsStore._observations store' !! other
           = SegmentStatsStore._observations store !! other)
  /\ SegmentStatsStore.consistent store'
  /\ SegmentStatsStore.bounded store'
  /\ exists store'' s,
       SegmentStatsStore.add_observation store' o = Some store''
       /\ SegmentStatsStore.window store'' segment_id = [o]
       /\ SegmentStatsStore.get_statistics store'' segment_id = Some s
       /\ SegmentStatistics.observation_count s = 1%Z
       /\ SegmentStatistics.decay_factor s = 1.
Proof.
  intros Hcons Hbound Hacc Hsid Hcap store'.
  assert (SegmentStatsStore.consistent store') as Hcons'.
  { intros sid obs. subst store'. cbn.
    destruct (decide (segment_id = sid)) as [->|Hne].
    - rewrite lookup_delete_eq. discriminate.
    - rewrite !lookup_delete_ne by assumption. apply Hcons. }
  assert (SegmentStatsStore._observations store' !! segment_id = None) as Hnone.
  { subst store'. cbn. apply lookup_delete_eq. }
  split. { subst store'. unfold SegmentStatsStore.get_statistics. cbn.
           apply lookup_delete_eq. }
  split; [exact Hnone|]. split.
  { intros other Hne. subst store'. unfold SegmentStatsStore.get_statistics.
    cbn. now rewrite !lookup_delete_ne by congruence. }
  split; [exact Hcons'|]. split.
  { intros sid obs. subst store'. cbn.
    destruct (decide (segment_id = sid)) as [->|Hne].
    - rewrite lookup_delete_eq. discriminate.
    - rewrite lookup_delete_ne by assumption. apply Hbound. }
  destruct (add_observation_accepted_result store' o Hacc Hcons')
    as (stats' & s0 & Heq & _ & Hdecay & _ & Hstats).
  rewrite Hsid in Heq, Hdecay, Hstats.
  unfold SegmentStatsStore.window in Heq, Hstats.
  rewrite Hnone in Heq, Hdecay, Hstats. cbn [from_option app length] in *.
  assert ((Z.of_nat 1 >? SegmentStatsStore._max_observations store')%Z = false)
    as Hfit.
  { unfold store'. cbn. rewrite Z.gtb_ltb. apply Z.ltb_ge. lia. }
  rewrite Hfit in Heq, Hstats.
  eexists. eexists. split; [exact Heq|].
  unfold SegmentStatsStore.window, SegmentStatsStore.get_statistics.
  cbn [SegmentStatsStore._observations SegmentStatsStore._stats].
  rewrite lookup_insert_eq. split; [reflexivity|]. split; [exact Hstats|].
  cbn. split; [reflexivity | exact Hdecay].
Qed.

Lemma clear_segment_starts_afresh_witness :
  let store' := SegmentStatsStore.clear_segment store_of_tests 1 in
  SegmentStatsStore.get_statistics store' 1 = None
  /\ SegmentStatsStore._observations store' !! 1%Z = None.
Proof.
  destruct (clear_segment_starts_afresh store_of_tests 1
              (observation_of_tests true 0.9)) as (H1 & H2 & _).
  - intros sid obs. cbn. rewrite lookup_empty. discriminate.
  - intros sid obs. cbn. rewrite lookup_empty. discriminate.
  - split; [reflexivity | cbn; lra].
  - reflexivity.
  - cbn. lia.
  - split; assumption.
Defined.
